(** * COTCAgent: symptom canonicalisation and the clarification dialogue

    A shallow embedding of five source files of the repository,

    - [src/DS/improved_symptom_normalizer.py]: the semantic group table,
      [_normalize_symptom_name], [_generate_symptom_id], [analyze_symptoms],
      [normalize_disease_data], [create_reverse_mapping] and [main];
    - [src/cotc_agent_final.py]: [DiseaseMatcher] and [COTCAgent];
    - [src/DS/merge_batches.py]: [merge_batch_files], which writes the file
      the normaliser reads;
    - [src/DS/comparison_analysis.py]: [analyze_pain_symptoms],
      [categorize_pain_symptoms] and the coverage figure of [main], computed
      on the id table the normaliser writes;
    - [src/DS/query_examples.py]: the queries of [DiseaseSymptomQuery] on a
      normalised database and its reverse table;

    followed by the properties of the specification that concern them, and
    by further properties of the same code.

    Conventions of the embedding.
    - A Python [str] is the list of its code points ([list N]); [a in b] is
      contiguous sub-list search, [str.encode('utf-8')] is written out.
      Code points are taken to be Unicode scalar values, on which the
      encoder never raises.
    - A [dict] whose iteration order is observed by the code is an
      association list in insertion order ([PyDict]); a [dict] that is only
      looked up and stored into is a [gmap].
    - Optional JSON keys are [option] fields, read with the default that the
      source passes to [.get].
    - [match_percentage] is a Python float. It is modelled by the exact
      rational [100 * confirmed / total]; rounding to binary64 is monotone
      and exact on 100, so the comparisons the code makes ([>= 100.0]) agree
      with the rational ones.
    - Object state that a method mutates (the agent, the patient profile, the
      normaliser's tables) is passed in and returned explicitly.
    - The table of the Unicode database behind the regular expression class
      [\w] is a parameter [isalnum] of the normaliser's functions; the
      properties hold for every such table.
    - Logging and printing are left out, except the error record of
      [load_disease_database].
    - A computation that can raise returns a sum, the exception on the left
      ([ZeroDivisionError] in the coverage figure, [TypeError] in the queries);
      a script that returns before it writes its file returns [None]. *)

From Stdlib Require Import NArith ZArith QArith String Ascii DecimalString Lia.
From stdpp Require Import base option list sorting gmap.

Set Default Proof Using "Type".

(* ===================================================================== *)
(** * Python strings *)
(* ===================================================================== *)

Module PyStr.

Abbreviation str := (list N).

Definition bytes_of_literal (s : string) : list N :=
  List.map (fun b => N_of_ascii (ascii_of_byte b)) (list_byte_of_string s).

(** Decoder for the UTF-8 literals of this file: it lets the tables below be
    written with the very characters of the Python source. *)
Fixpoint utf8_decode (bs : list N) : str :=
  match bs with
  | [] => []
  | b0 :: r0 =>
    if (b0 <? 0x80)%N then b0 :: utf8_decode r0
    else match r0 with
    | [] => []
    | b1 :: r1 =>
      if (b0 <? 0xE0)%N then
        N.lor (N.shiftl (N.land b0 0x1F) 6) (N.land b1 0x3F) :: utf8_decode r1
      else match r1 with
      | [] => []
      | b2 :: r2 =>
        if (b0 <? 0xF0)%N then
          N.lor (N.shiftl (N.land b0 0x0F) 12)
            (N.lor (N.shiftl (N.land b1 0x3F) 6) (N.land b2 0x3F))
          :: utf8_decode r2
        else match r2 with
        | [] => []
        | b3 :: r3 =>
          N.lor (N.shiftl (N.land b0 0x07) 18)
            (N.lor (N.shiftl (N.land b1 0x3F) 12)
               (N.lor (N.shiftl (N.land b2 0x3F) 6) (N.land b3 0x3F)))
          :: utf8_decode r3
        end
      end
    end
  end.

Definition u (s : string) : str := utf8_decode (bytes_of_literal s).
Global Arguments u : simpl never.

(** [s.encode('utf-8')] *)
Definition encode_char (c : N) : list N :=
  if (c <? 0x80)%N then [c]
  else if (c <? 0x800)%N then
    [N.lor 0xC0 (N.shiftr c 6); N.lor 0x80 (N.land c 0x3F)]
  else if (c <? 0x10000)%N then
    [N.lor 0xE0 (N.shiftr c 12);
     N.lor 0x80 (N.land (N.shiftr c 6) 0x3F);
     N.lor 0x80 (N.land c 0x3F)]
  else
    [N.lor 0xF0 (N.shiftr c 18);
     N.lor 0x80 (N.land (N.shiftr c 12) 0x3F);
     N.lor 0x80 (N.land (N.shiftr c 6) 0x3F);
     N.lor 0x80 (N.land c 0x3F)].

Definition encode_utf8 (s : str) : list N := flat_map encode_char s.

(** [a == b] on [str] *)
Definition str_eqb (a b : str) : bool := bool_decide (a = b).

(** [s.startswith(a)] *)
Fixpoint startswith (a s : str) : bool :=
  match a, s with
  | [], _ => true
  | _ :: _, [] => false
  | x :: a', y :: s' => (x =? y)%N && startswith a' s'
  end.

(** [a in s]: [a] occurs in [s] as a contiguous run of code points. *)
Fixpoint str_in (a s : str) : bool :=
  startswith a s ||
  match s with
  | [] => false
  | _ :: s' => str_in a s'
  end.

(** [str(n)] for an [int] *)
Definition str_of_Z (z : Z) : str :=
  bytes_of_literal (NilEmpty.string_of_int (Z.to_int z)).

(** [s.upper()] on the ASCII letters, which is all the hexadecimal digests
    below contain. *)
Definition upper_char (c : N) : N :=
  if ((0x61 <=? c) && (c <=? 0x7A))%N then (c - 0x20)%N else c.

Definition upper (s : str) : str := List.map upper_char s.

End PyStr.

Import PyStr.

(* ===================================================================== *)
(** * Insertion-ordered dictionaries *)
(* ===================================================================== *)

Module PyDict.

Section Dict.
Context {V : Type}.

Abbreviation dict := (list (str * V)).

(** [d.get(k)] *)
Fixpoint get (k : str) (d : dict) : option V :=
  match d with
  | [] => None
  | (k', v) :: d' => if decide (k' = k) then Some v else get k d'
  end.

(** [k in d] *)
Definition mem (k : str) (d : dict) : bool :=
  match get k d with Some _ => true | None => false end.

(** [d[k] = v]: an existing key keeps its position, a new key goes last. *)
Fixpoint set (k : str) (v : V) (d : dict) : dict :=
  match d with
  | [] => [(k, v)]
  | (k', v') :: d' =>
    if decide (k' = k) then (k', v) :: d' else (k', v') :: set k v d'
  end.

(** [d.keys()] *)
Definition keys (d : dict) : list str := List.map fst d.

End Dict.

End PyDict.

(* ===================================================================== *)
(** * MD5 (RFC 1321), as computed by [hashlib.md5] *)
(* ===================================================================== *)

Module MD5.

Local Open Scope N_scope.

Definition mask32 : N := 0xFFFFFFFF.
Definition add32 (a b : N) : N := (a + b) mod 2 ^ 32.
Definition not32 (a : N) : N := N.lxor (N.land a mask32) mask32.
Definition rotl32 (x c : N) : N :=
  N.land (N.lor (N.shiftl x c) (N.shiftr x (32 - c))) mask32.

Definition shifts : list N :=
  [7; 12; 17; 22; 7; 12; 17; 22; 7; 12; 17; 22; 7; 12; 17; 22;
   5;  9; 14; 20; 5;  9; 14; 20; 5;  9; 14; 20; 5;  9; 14; 20;
   4; 11; 16; 23; 4; 11; 16; 23; 4; 11; 16; 23; 4; 11; 16; 23;
   6; 10; 15; 21; 6; 10; 15; 21; 6; 10; 15; 21; 6; 10; 15; 21].

(** [floor (2^32 * abs (sin (i + 1)))] for [i] in [0..63] *)
Definition sines : list N :=
  [0xd76aa478; 0xe8c7b756; 0x242070db; 0xc1bdceee;
   0xf57c0faf; 0x4787c62a; 0xa8304613; 0xfd469501;
   0x698098d8; 0x8b44f7af; 0xffff5bb1; 0x895cd7be;
   0x6b901122; 0xfd987193; 0xa679438e; 0x49b40821;
   0xf61e2562; 0xc040b340; 0x265e5a51; 0xe9b6c7aa;
   0xd62f105d; 0x02441453; 0xd8a1e681; 0xe7d3fbc8;
   0x21e1cde6; 0xc33707d6; 0xf4d50d87; 0x455a14ed;
   0xa9e3e905; 0xfcefa3f8; 0x676f02d9; 0x8d2a4c8a;
   0xfffa3942; 0x8771f681; 0x6d9d6122; 0xfde5380c;
   0xa4beea44; 0x4bdecfa9; 0xf6bb4b60; 0xbebfbc70;
   0x289b7ec6; 0xeaa127fa; 0xd4ef3085; 0x04881d05;
   0xd9d4d039; 0xe6db99e5; 0x1fa27cf8; 0xc4ac5665;
   0xf4292244; 0x432aff97; 0xab9423a7; 0xfc93a039;
   0x655b59c3; 0x8f0ccc92; 0xffeff47d; 0x85845dd1;
   0x6fa87e4f; 0xfe2ce6e0; 0xa3014314; 0x4e0811a1;
   0xf7537e82; 0xbd3af235; 0x2ad7d2bb; 0xeb86d391].

Definition nth_N (l : list N) (i : N) : N := List.nth (N.to_nat i) l 0.

(** The message followed by the bit 1, zeros up to 56 modulo 64 bytes, and
    the bit length as a 64-bit little-endian integer. *)
Definition le_bytes (n : nat) (x : N) : list N :=
  List.map (fun i => N.land (N.shiftr x (8 * N.of_nat i)) 0xFF) (seq 0 n).

Definition pad (msg : list N) : list N :=
  let len := N.of_nat (length msg) in
  let zeros := (55 + 64 - len mod 64) mod 64 in
  msg ++ [0x80] ++ repeat 0 (N.to_nat zeros) ++ le_bytes 8 ((8 * len) mod 2 ^ 64).

Definition word_le (bs : list N) : N :=
  nth_N bs 0 + 2 ^ 8 * nth_N bs 1 + 2 ^ 16 * nth_N bs 2 + 2 ^ 24 * nth_N bs 3.

Definition words (chunk : list N) : list N :=
  List.map (fun j => word_le (firstn 4 (skipn (4 * j) chunk))) (seq 0 16).

Record state := State { sA : N; sB : N; sC : N; sD : N }.

Definition init : state :=
  State 0x67452301 0xefcdab89 0x98badcfe 0x10325476.

Definition step (M : list N) (st : state) (i : N) : state :=
  let '(State A B C D) := st in
  let '(F, g) :=
    if i <? 16 then (N.lor (N.land B C) (N.land (not32 B) D), i)
    else if i <? 32 then (N.lor (N.land D B) (N.land (not32 D) C), (5 * i + 1) mod 16)
    else if i <? 48 then (N.lxor B (N.lxor C D), (3 * i + 5) mod 16)
    else (N.lxor C (N.lor B (not32 D)), (7 * i) mod 16) in
  let F' := add32 (add32 (add32 F A) (nth_N sines i)) (nth_N M g) in
  State D (add32 B (rotl32 F' (nth_N shifts i))) B C.

Definition compress (st : state) (chunk : list N) : state :=
  let '(State A B C D) :=
    fold_left (step (words chunk)) (List.map N.of_nat (seq 0 64)) st in
  State (add32 (sA st) A) (add32 (sB st) B) (add32 (sC st) C) (add32 (sD st) D).

Definition chunks (bs : list N) : list (list N) :=
  List.map (fun i => firstn 64 (skipn (64 * i) bs)) (seq 0 (length bs / 64)).

(** [hashlib.md5(msg).digest()] *)
Definition digest (msg : list N) : list N :=
  let '(State A B C D) := fold_left compress (chunks (pad msg)) init in
  le_bytes 4 A ++ le_bytes 4 B ++ le_bytes 4 C ++ le_bytes 4 D.

Definition hex_digit (n : N) : N :=
  if n <? 10 then 0x30 + n else 0x61 + (n - 10).

(** [hashlib.md5(msg).hexdigest()]: lower-case hexadecimal *)
Definition hexdigest (msg : list N) : str :=
  flat_map (fun b => [hex_digit (N.shiftr b 4); hex_digit (N.land b 0xF)]) (digest msg).

End MD5.

(* ===================================================================== *)
(** * The knowledge base as JSON *)
(* ===================================================================== *)

(** The records of the input file, [{"疾病库": [{"疾病ID", "疾病名称",
    "症状列表": [{"symptom_name", "specificity", ...}]}]}]. A key that may be
    absent is an [option]; keys that neither source file reads are left out.
    [symptom_id] and [normalized_name] are the two keys the normaliser
    writes into its copy of a symptom. *)
Module KB.

Record Symptom := mkSymptom {
  symptom_name : option str;
  specificity : option bool;
  symptom_id : option str;
  normalized_name : option str
}.

Record Disease := mkDisease {
  disease_ID : option str;        (* "疾病ID" *)
  disease_mingcheng : option str; (* "疾病名称" *)
  symptom_list : option (list Symptom) (* "症状列表" *)
}.

Record Database := mkDatabase {
  disease_ku : option (list Disease) (* "疾病库" *)
}.

(** [x.get(key, dflt)] *)
Definition get {A} (field : option A) (dflt : A) : A := default dflt field.

(** What [open(path)] followed by [json.load] can meet: no file, a file that
    is not JSON, or a JSON document. The first two raise. *)
Inductive file := Missing | Unparseable | Json (data : Database).

Inductive exn := FileNotFoundError | JSONDecodeError.

Definition json_load (f : file) : exn + Database :=
  match f with
  | Missing => inl FileNotFoundError
  | Unparseable => inl JSONDecodeError
  | Json data => inr data
  end.

End KB.

(* ===================================================================== *)
(** * src/DS/improved_symptom_normalizer.py *)
(* ===================================================================== *)

Module Normalizer.

Local Open Scope bool_scope.

(** [_create_detailed_semantic_groups]: the dict literal, in source order.
    Its keys are pairwise distinct ([semantic_groups_keys_distinct] below),
    so the list is the dict. *)
Definition semantic_groups : list (str * list str) :=
  [
    (* 疼痛相关 - 按部位和类型细分 *)
    (* 头部疼痛 *)
    (u "头痛", [u "头痛"; u "头疼"; u "头部疼痛"; u "头胀痛"; u "头部胀痛"])
    ; (u "偏头痛", [u "偏头痛"; u "偏侧头痛"; u "单侧头痛"; u "搏动性头痛"])
    ; (u "颅内压增高性头痛", [u "颅内压增高"; u "颅压增高"; u "脑压增高头痛"])
    ; (u "紧张性头痛", [u "紧张性头痛"; u "紧张型头痛"; u "压迫性头痛"])
    (* 面部疼痛 *)
    ; (u "面部疼痛", [u "面部疼痛"; u "面痛"; u "脸痛"; u "面部不适"])
    ; (u "牙痛", [u "牙痛"; u "牙疼"; u "牙齿疼痛"; u "牙齿痛"])
    ; (u "下颌痛", [u "下颌疼痛"; u "下颌痛"; u "颞下颌关节痛"])
    (* 颈部疼痛 *)
    ; (u "颈痛", [u "颈痛"; u "颈部疼痛"; u "脖子痛"; u "颈椎痛"; u "颈肩痛"])
    ; (u "咽痛", [u "咽痛"; u "咽喉痛"; u "喉咙痛"; u "吞咽疼痛"; u "咽部疼痛"; u "喉部疼痛"])
    (* 胸部疼痛 *)
    ; (u "胸痛", [u "胸痛"; u "胸部疼痛"; u "前胸痛"])
    ; (u "心前区疼痛", [u "心前区疼痛"; u "心前区痛"; u "心脏区疼痛"; u "心口痛"])
    ; (u "胸闷痛", [u "胸闷痛"; u "胸部闷痛"; u "胸部压迫性疼痛"])
    ; (u "肋间神经痛", [u "肋间神经痛"; u "肋间痛"; u "肋骨痛"])
    ; (u "背痛", [u "背痛"; u "背部疼痛"; u "后背痛"; u "脊背痛"])
    (* 腹部疼痛 *)
    ; (u "上腹痛", [u "上腹痛"; u "上腹部疼痛"; u "上腹疼痛"; u "胃区疼痛"; u "胃痛"; u "胃部疼痛"])
    ; (u "下腹痛", [u "下腹痛"; u "下腹部疼痛"; u "下腹疼痛"; u "小腹痛"; u "小腹疼痛"])
    ; (u "腹痛", [u "腹痛"; u "腹部疼痛"; u "肚子痛"; u "肚痛"])
    ; (u "右上腹痛", [u "右上腹痛"; u "右上腹部疼痛"; u "肝区疼痛"])
    ; (u "左上腹痛", [u "左上腹痛"; u "左上腹部疼痛"; u "脾区疼痛"])
    ; (u "脐周痛", [u "脐周痛"; u "脐周疼痛"; u "肚脐周围痛"])
    ; (u "腹绞痛", [u "腹绞痛"; u "绞痛"; u "痉挛性腹痛"])
    (* 腰部疼痛 *)
    ; (u "腰痛", [u "腰痛"; u "腰部疼痛"; u "腰酸"; u "腰酸痛"])
    ; (u "腰背痛", [u "腰背痛"; u "腰背部疼痛"; u "腰脊痛"])
    ; (u "肾区疼痛", [u "肾区疼痛"; u "肾区痛"; u "腰肾区痛"])
    (* 四肢疼痛 *)
    ; (u "关节痛", [u "关节疼痛"; u "关节痛"; u "关节酸痛"; u "关节胀痛"])
    ; (u "肌肉痛", [u "肌肉疼痛"; u "肌肉痛"; u "肌肉酸痛"; u "肌痛"; u "肌肉胀痛"])
    ; (u "骨痛", [u "骨痛"; u "骨疼"; u "骨骼疼痛"; u "骨头痛"])
    ; (u "四肢痛", [u "四肢痛"; u "四肢疼痛"; u "手脚痛"])
    (* 手部疼痛 *)
    ; (u "手痛", [u "手痛"; u "手部疼痛"; u "手疼"])
    ; (u "腕痛", [u "腕痛"; u "手腕痛"; u "腕关节痛"])
    ; (u "指痛", [u "指痛"; u "手指痛"; u "手指疼痛"])
    (* 腿部疼痛 *)
    ; (u "腿痛", [u "腿痛"; u "腿部疼痛"; u "下肢痛"])
    ; (u "膝痛", [u "膝痛"; u "膝盖痛"; u "膝关节痛"; u "膝部疼痛"])
    ; (u "踝痛", [u "踝痛"; u "脚踝痛"; u "踝关节痛"])
    ; (u "足痛", [u "足痛"; u "脚痛"; u "足部疼痛"])
    (* 盆腔疼痛 *)
    ; (u "盆腔痛", [u "盆腔痛"; u "盆腔疼痛"; u "盆腔不适"])
    ; (u "会阴痛", [u "会阴痛"; u "会阴疼痛"; u "会阴部疼痛"])
    (* 头颈部其他疼痛 *)
    ; (u "耳痛", [u "耳痛"; u "耳部疼痛"; u "耳朵痛"; u "耳内疼痛"])
    ; (u "眼痛", [u "眼痛"; u "眼部疼痛"; u "眼睛疼痛"; u "眼球痛"])
    ; (u "鼻痛", [u "鼻痛"; u "鼻部疼痛"; u "鼻子痛"])
    (* 泌尿生殖系统疼痛 *)
    ; (u "尿痛", [u "尿痛"; u "排尿疼痛"; u "小便疼痛"; u "尿道疼痛"; u "排尿时疼痛"; u "尿道灼痛"])
    ; (u "睾丸痛", [u "睾丸痛"; u "睾丸疼痛"; u "阴囊痛"])
    (* 疼痛性质分类 *)
    ; (u "刺痛", [u "刺痛"; u "针刺样疼痛"; u "锐痛"])
    ; (u "胀痛", [u "胀痛"; u "胀疼"; u "胀满痛"])
    ; (u "隐痛", [u "隐痛"; u "隐隐作痛"; u "钝痛"])
    ; (u "绞痛", [u "绞痛"; u "痉挛性疼痛"; u "绞扭样疼痛"])
    ; (u "撕裂痛", [u "撕裂痛"; u "撕裂样疼痛"; u "撕扯痛"])
    ; (u "烧灼痛", [u "烧灼痛"; u "灼痛"; u "烧灼感"])
    ; (u "搏动性疼痛", [u "搏动性疼痛"; u "跳痛"; u "搏动痛"])
    ; (u "剧痛", [u "剧痛"; u "剧烈疼痛"; u "剧疼"; u "严重疼痛"])
    (* 发热相关 *)
    ; (u "发热", [u "发热"; u "发烧"; u "体温升高"])
    ; (u "高热", [u "高热"; u "高烧"; u "高度发热"])
    ; (u "低热", [u "低热"; u "低烧"; u "微热"; u "轻度发热"])
    ; (u "中等热度", [u "中等热度"; u "中度发热"; u "中等发热"])
    ; (u "持续发热", [u "持续发热"; u "持续发烧"; u "连续发热"])
    ; (u "间歇性发热", [u "间歇性发热"; u "间歇发热"; u "阵发性发热"])
    ; (u "寒战", [u "寒战"; u "畏寒"; u "怕冷"; u "恶寒"; u "打寒战"])
    (* 呼吸相关 *)
    ; (u "咳嗽", [u "咳嗽"; u "咳"])
    ; (u "干咳", [u "干咳"; u "无痰咳嗽"; u "刺激性咳嗽"])
    ; (u "湿咳", [u "湿咳"; u "有痰咳嗽"])
    ; (u "慢性咳嗽", [u "慢性咳嗽"; u "持续咳嗽"; u "长期咳嗽"])
    ; (u "咳痰", [u "咳痰"; u "咯痰"; u "痰多"; u "有痰"; u "痰液增多"])
    ; (u "脓痰", [u "脓痰"; u "脓性痰"; u "黄痰"])
    ; (u "血痰", [u "血痰"; u "痰中带血"])
    ; (u "咯血", [u "咯血"; u "咳血"; u "吐血"])
    ; (u "呼吸困难", [u "呼吸困难"; u "气短"; u "气促"; u "呼吸急促"])
    ; (u "喘息", [u "喘息"; u "喘"; u "气喘"; u "哮喘"])
    ; (u "胸闷", [u "胸闷"; u "胸部闷胀"; u "胸部压迫感"; u "憋气"])
    (* 消化相关 *)
    ; (u "恶心", [u "恶心"; u "想吐"; u "恶心感"; u "反胃"])
    ; (u "呕吐", [u "呕吐"; u "吐"; u "呕"; u "呕出"])
    ; (u "干呕", [u "干呕"; u "干吐"; u "空呕"])
    ; (u "腹泻", [u "腹泻"; u "拉肚子"; u "大便次数增多"; u "稀便"])
    ; (u "水样便", [u "水样便"; u "水泻"; u "水样腹泻"])
    ; (u "便秘", [u "便秘"; u "大便干燥"; u "排便困难"; u "大便秘结"])
    ; (u "腹胀", [u "腹胀"; u "腹部胀满"; u "肚子胀"; u "胃胀"; u "腹部胀气"])
    ; (u "食欲不振", [u "食欲不振"; u "食欲减退"; u "不想吃饭"; u "厌食"; u "食欲差"])
    ; (u "便血", [u "便血"; u "大便带血"; u "血便"])
    ; (u "黑便", [u "黑便"; u "柏油样便"; u "黑色大便"])
    ; (u "里急后重", [u "里急后重"; u "便意频繁"; u "排便不尽感"])
    (* 神经相关 *)
    ; (u "头晕", [u "头晕"; u "头昏"; u "晕"])
    ; (u "眩晕", [u "眩晕"; u "晕眩"; u "眩晕感"; u "旋转感"])
    ; (u "失眠", [u "失眠"; u "睡眠障碍"; u "入睡困难"; u "睡眠不好"; u "不能入睡"])
    ; (u "嗜睡", [u "嗜睡"; u "过度睡眠"; u "睡意浓"])
    ; (u "疲劳", [u "疲劳"; u "乏力"; u "无力"; u "疲倦"; u "精神不振"; u "体力下降"; u "疲乏"])
    ; (u "意识障碍", [u "意识障碍"; u "意识模糊"; u "神志不清"])
    ; (u "昏迷", [u "昏迷"; u "不省人事"; u "失去意识"])
    ; (u "抽搐", [u "抽搐"; u "痉挛"; u "抽筋"])
    ; (u "癫痫发作", [u "癫痫发作"; u "癫痫"; u "抽风"])
    (* 皮肤相关 *)
    ; (u "皮疹", [u "皮疹"; u "皮肤红疹"; u "红疹"; u "疹子"; u "皮肤疹"; u "出疹"])
    ; (u "瘙痒", [u "瘙痒"; u "痒"; u "皮肤瘙痒"; u "皮痒"; u "发痒"])
    ; (u "红肿", [u "红肿"; u "肿胀"; u "红胀"])
    ; (u "水肿", [u "水肿"; u "浮肿"; u "肿胀"])
    ; (u "皮肤干燥", [u "皮肤干燥"; u "皮肤粗糙"; u "皮肤脱屑"; u "脱皮"; u "皮肤起皮"])
    ; (u "皮肤发红", [u "皮肤发红"; u "皮肤潮红"; u "红斑"])
    ; (u "皮肤苍白", [u "皮肤苍白"; u "面色苍白"; u "苍白"])
    ; (u "皮肤发黄", [u "皮肤发黄"; u "黄疸"; u "巩膜黄染"])
    (* 泌尿相关 *)
    ; (u "尿频", [u "尿频"; u "小便频繁"; u "排尿次数增多"; u "尿次增多"])
    ; (u "尿急", [u "尿急"; u "急迫性尿意"; u "尿意急迫"; u "憋不住尿"])
    ; (u "血尿", [u "血尿"; u "尿血"; u "小便带血"; u "尿液发红"])
    ; (u "蛋白尿", [u "蛋白尿"; u "尿蛋白"; u "尿液泡沫"])
    ; (u "尿潴留", [u "尿潴留"; u "排尿困难"; u "尿不出"])
    ; (u "夜尿增多", [u "夜尿增多"; u "夜间多尿"; u "夜尿频繁"])
    (* 心血管相关 *)
    ; (u "心悸", [u "心悸"; u "心慌"; u "心跳加快"; u "心跳快"])
    ; (u "心律不齐", [u "心律不齐"; u "心跳不规律"; u "心律失常"])
    ; (u "心动过速", [u "心动过速"; u "心跳过快"; u "心率快"])
    ; (u "心动过缓", [u "心动过缓"; u "心跳过慢"; u "心率慢"])
    (* 眼部相关 *)
    ; (u "视力模糊", [u "视力模糊"; u "视物模糊"; u "看东西模糊"; u "视力下降"; u "视物不清"])
    ; (u "复视", [u "复视"; u "看东西重影"; u "双影"])
    ; (u "畏光", [u "畏光"; u "怕光"; u "光敏感"; u "见光流泪"])
    ; (u "眼干", [u "眼干"; u "眼睛干涩"; u "干眼"])
    ; (u "流泪", [u "流泪"; u "泪水增多"; u "溢泪"])
    ; (u "眼红", [u "眼红"; u "眼睛发红"; u "结膜充血"])
    (* 耳鼻喉相关 *)
    ; (u "听力下降", [u "听力下降"; u "听力减退"; u "耳聋"])
    ; (u "耳鸣", [u "耳鸣"; u "耳内响声"])
    ; (u "耳溢液", [u "耳溢液"; u "耳朵流水"; u "耳朵流脓"])
    ; (u "鼻塞", [u "鼻塞"; u "鼻堵"; u "鼻子不通气"; u "鼻阻塞"])
    ; (u "流鼻涕", [u "流鼻涕"; u "鼻涕"; u "流涕"; u "鼻分泌物"])
    ; (u "打喷嚏", [u "打喷嚏"; u "喷嚏"; u "连续打喷嚏"])
    ; (u "嗅觉减退", [u "嗅觉减退"; u "嗅觉丧失"; u "闻不到味道"])
    ; (u "声音嘶哑", [u "声音嘶哑"; u "嗓子哑"; u "声嘶"])
    (* 其他常见症状 *)
    ; (u "体重下降", [u "体重下降"; u "体重减轻"; u "消瘦"; u "体重降低"; u "瘦了"])
    ; (u "体重增加", [u "体重增加"; u "体重增长"; u "发胖"; u "长胖"])
    ; (u "出汗", [u "出汗"; u "多汗"; u "汗多"])
    ; (u "盗汗", [u "盗汗"; u "夜间出汗"; u "睡觉出汗"])
    ; (u "畏寒", [u "畏寒"; u "怕冷"; u "寒冷"])
    ; (u "怕热", [u "怕热"; u "畏热"; u "热感"])
    ; (u "口渴", [u "口渴"; u "渴"; u "想喝水"])
    ; (u "口干", [u "口干"; u "嘴干"; u "口腔干燥"])
    ; (u "多尿", [u "多尿"; u "尿量增多"; u "小便多"])
    ; (u "少尿", [u "少尿"; u "尿量减少"; u "小便少"])
  ].

Section Regex.

(** [Py_UNICODE_ISALNUM], the table of the Unicode database behind [\w]: it
    is not part of the repository and is left as a parameter. *)
Variable isalnum : N -> bool.

(** [\w] on [str] patterns: alphanumeric or the underscore. *)
Definition word_char (c : N) : bool := isalnum c || (c =? 0x5F)%N.

(** The characters that [re.sub(r'[^\w\u4e00-\u9fff]', '', s)] keeps. *)
Definition kept (c : N) : bool :=
  word_char c || ((0x4e00 <=? c) && (c <=? 0x9fff))%N.

Definition clean (symptom_name : str) : str := List.filter kept symptom_name.

(** The test of the inner loop, for one group. *)
Definition group_matches (cleaned_name : str) (group : str * list str) : bool :=
  existsb (fun variant => str_in variant cleaned_name || str_in cleaned_name variant)
          (snd group).

(** [_normalize_symptom_name] *)
Definition _normalize_symptom_name (symptom_name : str) : str :=
  let cleaned_name := clean symptom_name in
  match List.find (group_matches cleaned_name) semantic_groups with
  | Some (standard_name, _) => standard_name
  | None => cleaned_name
  end.

End Regex.

(** [_generate_symptom_id] *)
Definition _generate_symptom_id (normalized_name : str) : str :=
  let hash_hex := firstn 8 (MD5.hexdigest (encode_utf8 normalized_name)) in
  u "SYM_" ++ upper hash_hex.

(** The dicts appended to [symptom_to_diseases]. *)
Record DiseaseInfo := mkDiseaseInfo {
  disease_id : option str;
  disease_name : option str;
  specificity : bool
}.

(** The values of the reverse mapping. *)
Record ReverseEntry := mkReverseEntry {
  symptom_name : option str;
  disease_count : nat;
  diseases : list DiseaseInfo
}.

(** The instance state that the methods read and write ([semantic_groups]
    is the constant above, [symptom_mappings] is never used). *)
Record t := mk {
  unified_symptom_ids : list (str * str);
  symptom_to_diseases : gmap str (list DiseaseInfo)
}.

Definition __init__ : t := mk [] ∅.

Record Analysis := mkAnalysis {
  symptom_counter : list (str * nat);
  disease_symptom_pairs : list (str * str * KB.Symptom)
}.

Section Methods.
Variable isalnum : N -> bool.

(** [analyze_symptoms] (without its printing) *)
Definition analyze_symptoms (diseases_data : list KB.Disease) : Analysis :=
  fold_left (fun acc disease =>
      let disease_name := KB.get (KB.disease_mingcheng disease) [] in
      let symptoms := KB.get (KB.symptom_list disease) [] in
      fold_left (fun acc symptom =>
          let symptom_name := KB.get (KB.symptom_name symptom) [] in
          if bool_decide (symptom_name = []) then acc
          else
            let normalized_name := _normalize_symptom_name isalnum symptom_name in
            let count := default 0 (PyDict.get normalized_name (symptom_counter acc)) in
            mkAnalysis
              (PyDict.set normalized_name (count + 1) (symptom_counter acc))
              (disease_symptom_pairs acc ++ [(disease_name, normalized_name, symptom)]))
        symptoms acc)
    diseases_data (mkAnalysis [] []).

(** The first loop of [normalize_disease_data]: an id for every normalised
    name that has none yet. *)
Definition assign_ids (names : list str) (ids : list (str * str)) : list (str * str) :=
  fold_left (fun ids normalized_name =>
      if PyDict.mem normalized_name ids then ids
      else PyDict.set normalized_name (_generate_symptom_id normalized_name) ids)
    names ids.

(** The body of the inner loop of [normalize_disease_data], for one symptom
    of [disease]: the state is the list [updated_symptoms] and
    [self.symptom_to_diseases]. *)
Definition update_symptom (ids : list (str * str)) (disease : KB.Disease)
    (st : list KB.Symptom * gmap str (list DiseaseInfo)) (symptom : KB.Symptom)
    : list KB.Symptom * gmap str (list DiseaseInfo) :=
  let '(updated_symptoms, s2d) := st in
  let original_name := KB.get (KB.symptom_name symptom) [] in
  let normalized_name := _normalize_symptom_name isalnum original_name in
  match PyDict.get normalized_name ids with
  | Some unified_id =>
    if bool_decide (unified_id = []) then st
    else
      let updated_symptom :=
        KB.mkSymptom (KB.symptom_name symptom) (KB.specificity symptom)
                     (Some unified_id) (Some normalized_name) in
      let disease_info :=
        mkDiseaseInfo (KB.disease_ID disease) (KB.disease_mingcheng disease)
                      (KB.get (KB.specificity symptom) false) in
      (updated_symptoms ++ [updated_symptom],
       <[unified_id := default [] (s2d !! unified_id) ++ [disease_info]]> s2d)
  | None => st
  end.

(** The body of the outer loop, for one disease. *)
Definition update_disease (ids : list (str * str))
    (st : list KB.Disease * gmap str (list DiseaseInfo)) (disease : KB.Disease)
    : list KB.Disease * gmap str (list DiseaseInfo) :=
  let '(updated_diseases, s2d) := st in
  let '(updated_symptoms, s2d') :=
    fold_left (update_symptom ids disease)
              (KB.get (KB.symptom_list disease) []) ([], s2d) in
  let updated_disease :=
    KB.mkDisease (KB.disease_ID disease) (KB.disease_mingcheng disease)
                 (Some updated_symptoms) in
  (updated_diseases ++ [updated_disease], s2d').

(** [normalize_disease_data]: the pair it returns, and the instance after. *)
Definition normalize_disease_data (self : t) (diseases_data : list KB.Disease)
    : (list KB.Disease * list (str * str)) * t :=
  let analysis := analyze_symptoms diseases_data in
  let ids := assign_ids (PyDict.keys (symptom_counter analysis)) (unified_symptom_ids self) in
  let '(updated_diseases, s2d) :=
    fold_left (update_disease ids) diseases_data ([], symptom_to_diseases self) in
  ((updated_diseases, ids), mk ids s2d).

End Methods.

(** The deduplication loop of [create_reverse_mapping]; [seen] is
    [seen_disease_ids]. *)
Fixpoint unique_diseases (seen : gset (option str)) (diseases : list DiseaseInfo)
    : list DiseaseInfo :=
  match diseases with
  | [] => []
  | disease :: rest =>
    if decide (disease_id disease ∈ seen) then unique_diseases seen rest
    else disease :: unique_diseases ({[disease_id disease]} ∪ seen) rest
  end.

(** [create_reverse_mapping] *)
Definition create_reverse_mapping (self : t) : gmap str ReverseEntry :=
  map_imap (fun symptom_id diseases =>
      let unique := unique_diseases ∅ diseases in
      let normalized_name :=
        fst <$> List.find (fun item => bool_decide (snd item = symptom_id))
                          (unified_symptom_ids self) in
      Some (mkReverseEntry normalized_name (length unique) unique))
    (symptom_to_diseases self).

(** What [main] writes: the normalised database with its id map and two
    counts, and the reverse table with its size (the constant strings and
    the float average of the statistics are left out). *)
Record Written := mkWritten {
  normalized_diseases : list KB.Disease;
  symptom_id_mapping : list (str * str);
  disease_total : nat;
  symptom_total : nat;
  reverse_mapping : gmap str ReverseEntry;
  reverse_total : nat
}.

Section Main.
Variable isalnum : N -> bool.

(** [main]: [None] when it returns from the [except] branch, before any
    file is written. *)
Definition main (input_file : KB.file) : option Written :=
  match KB.json_load input_file with
  | inl e => None
  | inr data =>
    let diseases_data := KB.get (KB.disease_ku data) [] in
    let normalizer := __init__ in
    let '((updated_diseases, symptom_id_mapping), normalizer) :=
      normalize_disease_data isalnum normalizer diseases_data in
    let reverse_mapping := create_reverse_mapping normalizer in
    Some (mkWritten updated_diseases symptom_id_mapping
            (length updated_diseases) (length symptom_id_mapping)
            reverse_mapping (size reverse_mapping))
  end.

End Main.

(** ** Definitions used to state the properties *)

(** The canonical names of the table. *)
Definition canonical_names : list str := List.map fst semantic_groups.

(** The canonical names that a group declared earlier in the table matches:
    normalising one of them gives the earlier group's name. *)
Definition captured_names : list str :=
  [u "偏头痛"; u "颅内压增高性头痛"; u "紧张性头痛"; u "腹痛"; u "右上腹痛";
   u "左上腹痛"; u "腰背痛"; u "关节痛"; u "骨痛"; u "胀痛"; u "绞痛";
   u "持续发热"; u "间歇性发热"; u "干咳"; u "湿咳"; u "慢性咳嗽"; u "咳痰";
   u "胸闷"; u "干呕"; u "眩晕"; u "流泪"; u "畏寒"; u "多尿"].

(** The ASCII rows of [Py_UNICODE_ISALNUM], to run the functions on inputs
    whose other characters are all in the range [4e00-9fff]. *)
Definition ascii_isalnum (c : N) : bool :=
  ((0x30 <=? c) && (c <=? 0x39) || (0x41 <=? c) && (c <=? 0x5A)
   || (0x61 <=? c) && (c <=? 0x7A))%N.

(** The second range of the character class. *)
Definition in_4e00_9fff (c : N) : bool := ((0x4e00 <=? c) && (c <=? 0x9fff))%N.

(** A raw knowledge base of two diseases, to run the build on: the first
    lists two variants of "头痛". *)
Definition example_raw_symptom (name : str) (specific : bool) : KB.Symptom :=
  KB.mkSymptom (Some name) (Some specific) None None.

Definition example_raw_database : KB.Database :=
  KB.mkDatabase (Some
    [ KB.mkDisease (Some (u "D001")) (Some (u "偏头痛"))
        (Some [example_raw_symptom (u "头疼") true;
               example_raw_symptom (u "头部疼痛") false;
               example_raw_symptom (u "睡眠不好") false]);
      KB.mkDisease (Some (u "D002")) (Some (u "感冒"))
        (Some [example_raw_symptom (u "头痛") false;
               example_raw_symptom (u "咳") true]) ]).

End Normalizer.

(* ===================================================================== *)
(** * src/cotc_agent_final.py *)
(* ===================================================================== *)

Module Agent.

Local Open Scope bool_scope.

(** ** The dataclasses *)

Module SymptomMatch.
Record t := mk {
  symptom_name : str;
  is_confirmed : bool;
  confirmation_source : str;
  match_confidence : Q
}.
End SymptomMatch.

Module DiseaseMatchProgress.
Record t := mk {
  disease_id : str;
  disease_name : str;
  total_symptoms : nat;
  confirmed_symptoms : nat;
  match_percentage : Q;
  missing_symptoms : list str;
  lifestyle_factors : list str;
  current_questions : list str
}.
End DiseaseMatchProgress.

Module PatientProfile.
Record t := mk {
  patient_id : str;
  age : Z;
  gender : str;
  medical_history : list str;
  confirmed_symptoms : list SymptomMatch.t;
  lifestyle_factors : gmap str str;
  conversation_history : list (list (str * str))
}.

(** [p.confirmed_symptoms.extend(new)] *)
Definition extend_confirmed_symptoms (new : list SymptomMatch.t) (p : t) : t :=
  mk (patient_id p) (age p) (gender p) (medical_history p)
     (confirmed_symptoms p ++ new) (lifestyle_factors p) (conversation_history p).

(** [p.lifestyle_factors[factor] = value] *)
Definition set_lifestyle_factor (factor value : str) (p : t) : t :=
  mk (patient_id p) (age p) (gender p) (medical_history p)
     (confirmed_symptoms p) (<[factor := value]> (lifestyle_factors p))
     (conversation_history p).
End PatientProfile.

(** ** DiseaseMatcher *)

Module DiseaseMatcher.

(** The dicts stored in [symptom_to_diseases]. *)
Record Info := mkInfo { disease_id : str; disease_name : str }.

Record t := mk {
  disease_db : KB.Database;
  symptom_to_diseases : gmap str (list Info)
}.

Inductive LogRecord := error (message : str) (e : KB.exn).

(** [load_disease_database]: the database it returns, and what it logs. *)
Definition load_disease_database (db_path : KB.file) : KB.Database * list LogRecord :=
  match KB.json_load db_path with
  | inr data => (data, [])
  | inl e => (KB.mkDatabase (Some []), [error (u "加载疾病数据库失败: ") e])
  end.

(** The body of the inner loop of [build_symptom_mapping], for one symptom
    of [disease]. *)
Definition map_symptom (disease : KB.Disease) (symptom_mapping : gmap str (list Info))
    (symptom : KB.Symptom) : gmap str (list Info) :=
  let disease_id := KB.get (KB.disease_ID disease) [] in
  let disease_name := KB.get (KB.disease_mingcheng disease) [] in
  let symptom_name := KB.get (KB.symptom_name symptom) [] in
  if bool_decide (symptom_name = []) then symptom_mapping
  else
    <[symptom_name :=
        default [] (symptom_mapping !! symptom_name)
        ++ [mkInfo disease_id disease_name]]> symptom_mapping.

(** The body of the outer loop, for one disease. *)
Definition map_disease (symptom_mapping : gmap str (list Info)) (disease : KB.Disease)
    : gmap str (list Info) :=
  fold_left (map_symptom disease) (KB.get (KB.symptom_list disease) []) symptom_mapping.

(** [build_symptom_mapping] *)
Definition build_symptom_mapping (disease_db : KB.Database) : gmap str (list Info) :=
  fold_left map_disease (KB.get (KB.disease_ku disease_db) []) ∅.

(** [__init__] *)
Definition __init__ (disease_db_path : KB.file) : t :=
  let disease_db := fst (load_disease_database disease_db_path) in
  mk disease_db (build_symptom_mapping disease_db).

(** [get_disease_symptoms] *)
Definition get_disease_symptoms (self : t) (disease_id : str) : list str :=
  match List.find (fun disease => bool_decide (KB.disease_ID disease = Some disease_id))
                  (KB.get (KB.disease_ku (disease_db self)) []) with
  | Some disease =>
    List.map (fun s => KB.get (KB.symptom_name s) []) (KB.get (KB.symptom_list disease) [])
  | None => []
  end.

(** The values of the local dict [disease_scores]. *)
Record Score := mkScore {
  score_disease_name : str;
  score_confirmed_symptoms : list str;
  score_total_symptoms : nat;
  score_all_symptoms : list str
}.

(** One pass of the innermost loop of [find_potential_diseases]. *)
Definition add_confirmation (symptom_name : str) (disease_scores : list (str * Score))
    (disease_info : Info) : list (str * Score) :=
  let disease_id := disease_id disease_info in
  let entry :=
    match PyDict.get disease_id disease_scores with
    | Some entry => entry
    | None => mkScore (disease_name disease_info) [] 0 []
    end in
  PyDict.set disease_id
    (mkScore (score_disease_name entry)
             (score_confirmed_symptoms entry ++ [symptom_name])
             (score_total_symptoms entry) (score_all_symptoms entry))
    disease_scores.

(** The first loop: the confirmed symptoms counted per disease. *)
Definition count_confirmed (self : t) (confirmed_symptoms : list SymptomMatch.t)
    : list (str * Score) :=
  fold_left (fun disease_scores symptom_match =>
      let symptom_name := SymptomMatch.symptom_name symptom_match in
      match symptom_to_diseases self !! symptom_name with
      | Some infos =>
        if SymptomMatch.is_confirmed symptom_match
        then fold_left (add_confirmation symptom_name) infos disease_scores
        else disease_scores
      | None => disease_scores
      end)
    confirmed_symptoms [].

(** The second loop: the full symptom list of every scored disease. *)
Definition attach_symptoms (self : t) (disease_scores : list (str * Score))
    : list (str * Score) :=
  List.map (fun '(disease_id, info) =>
      let all_symptoms := get_disease_symptoms self disease_id in
      (disease_id,
       mkScore (score_disease_name info) (score_confirmed_symptoms info)
               (length all_symptoms) all_symptoms))
    disease_scores.

(** [confirmed_count / total_count * 100] *)
Definition percentage (confirmed_count total_count : nat) : Q :=
  if (0 <? total_count)%nat
  then (Z.of_nat confirmed_count # Pos.of_nat total_count) * 100
  else 0.

(** The third loop: one [DiseaseMatchProgress] per scored disease. *)
Definition progress_of (item : str * Score) : DiseaseMatchProgress.t :=
  let '(disease_id, info) := item in
  let confirmed_count := length (score_confirmed_symptoms info) in
  let total_count := score_total_symptoms info in
  let match_percentage := percentage confirmed_count total_count in
  let missing_symptoms :=
    List.filter (fun s => negb (bool_decide (s ∈ score_confirmed_symptoms info)))
                (score_all_symptoms info) in
  DiseaseMatchProgress.mk disease_id (score_disease_name info) total_count
    confirmed_count match_percentage missing_symptoms [] [].

(** [list.sort(key=lambda x: x.match_percentage, reverse=True)]: stable,
    greatest first. *)
Fixpoint insert_desc (x : DiseaseMatchProgress.t) (l : list DiseaseMatchProgress.t)
    : list DiseaseMatchProgress.t :=
  match l with
  | [] => [x]
  | y :: l' =>
    if Qle_bool (DiseaseMatchProgress.match_percentage y)
                (DiseaseMatchProgress.match_percentage x)
    then x :: y :: l'
    else y :: insert_desc x l'
  end.

Definition sort_desc (l : list DiseaseMatchProgress.t) : list DiseaseMatchProgress.t :=
  foldr insert_desc [] l.

(** [find_potential_diseases] *)
Definition find_potential_diseases (self : t) (confirmed_symptoms : list SymptomMatch.t)
    : list DiseaseMatchProgress.t :=
  let disease_scores := count_confirmed self confirmed_symptoms in
  let disease_scores := attach_symptoms self disease_scores in
  let disease_progress := List.map progress_of disease_scores in
  sort_desc disease_progress.

End DiseaseMatcher.

(** ** The responses of a turn *)

Module Diagnosis.
Record t := mk {
  disease_name : str;
  confidence : str;
  match_percentage : Q;
  confirmed_symptoms : list str;
  reasoning : str
}.
End Diagnosis.

Module FocusDisease.
Record t := mk {
  disease_id : str;
  disease_name : str;
  match_percentage : Q;
  confirmed_symptoms : list str;
  missing_symptoms : list str;
  total_symptoms : nat
}.
End FocusDisease.

Module MatchVisualization.
Record ProgressBar := mkProgressBar { current : nat; total : nat; percentage : Q }.
Record SymptomStatus := mkSymptomStatus {
  confirmed : list str;
  missing : list str;
  total_needed : nat
}.
Record t := mk {
  disease_name : str;
  progress_bar : ProgressBar;
  symptom_status : SymptomStatus;
  next_steps : str
}.
End MatchVisualization.

(** The dict a turn returns, by its ["status"]. *)
Inductive Response :=
| diagnosis_complete (analysis_step : nat) (diagnosis : Diagnosis.t)
    (recommendations : list str) (lifestyle_advice : list str)
| verification_needed (analysis_step : nat) (focus_disease : FocusDisease.t)
    (verification_questions : list str) (match_visualization : MatchVisualization.t)
| no_matches (analysis_step : nat) (message : str) (suggested_questions : list str).

Definition status (r : Response) : str :=
  match r with
  | diagnosis_complete _ _ _ _ => u "diagnosis_complete"
  | verification_needed _ _ _ _ => u "verification_needed"
  | no_matches _ _ _ => u "no_matches"
  end.

(** ** COTCAgent *)

Module COTCAgent.

Record t := mk {
  disease_matcher : DiseaseMatcher.t;
  current_analysis_step : nat;
  max_verification_rounds : nat;
  verification_round : nat;
  current_disease_focus : option DiseaseMatchProgress.t
}.

(** [__init__] *)
Definition __init__ (disease_db_path : KB.file) : t :=
  mk (DiseaseMatcher.__init__ disease_db_path) 0 5 0 None.

(** [self.current_disease_focus = focus] *)
Definition set_current_disease_focus (focus : DiseaseMatchProgress.t) (self : t) : t :=
  mk (disease_matcher self) (current_analysis_step self)
     (max_verification_rounds self) (verification_round self) (Some focus).

(** The local table [symptom_mapping] of [extract_and_confirm_symptoms]. *)
Definition symptom_mapping : list (str * list str) :=
  [ (u "头疼", [u "头痛"]);
    (u "头痛", [u "头痛"]);
    (u "胸闷", [u "胸闷"]);
    (u "胸痛", [u "胸痛"]);
    (u "脚后跟疼", [u "足跟痛"]);
    (u "脚疼", [u "足痛"]);
    (u "腹痛", [u "腹痛"]);
    (u "肚子疼", [u "腹痛"]);
    (u "发热", [u "发热"]);
    (u "发烧", [u "发热"]);
    (u "恶心", [u "恶心"]);
    (u "呕吐", [u "呕吐"]);
    (u "头晕", [u "头晕"]);
    (u "失眠", [u "失眠"]);
    (u "咳嗽", [u "咳嗽"]);
    (u "呼吸困难", [u "呼吸困难"]);
    (u "心悸", [u "心悸"]);
    (u "腹泻", [u "腹泻"]);
    (u "便秘", [u "便秘"]) ].

(** [[s.symptom_name for s in patient_profile.confirmed_symptoms if s.is_confirmed]] *)
Definition confirmed_names (patient_profile : PatientProfile.t) : list str :=
  List.map SymptomMatch.symptom_name
    (List.filter SymptomMatch.is_confirmed (PatientProfile.confirmed_symptoms patient_profile)).

(** [extract_and_confirm_symptoms] *)
Definition extract_and_confirm_symptoms (user_input : str)
    (patient_profile : PatientProfile.t) : list SymptomMatch.t :=
  flat_map (fun '(user_symptom, medical_symptoms) =>
      if str_in user_symptom user_input then
        flat_map (fun medical_symptom =>
            if existsb (fun s => str_eqb (SymptomMatch.symptom_name s) medical_symptom)
                       (PatientProfile.confirmed_symptoms patient_profile)
            then []
            else [SymptomMatch.mk medical_symptom true (u "user_input") 1])
          medical_symptoms
      else [])
    symptom_mapping.

(** [generate_lifestyle_advice] *)
Definition generate_lifestyle_advice (lifestyle_factors : gmap str str) : list str :=
  (if bool_decide (is_Some (lifestyle_factors !! u "压力"))
   then [u "建议适当减压，保持心情愉快"] else []) ++
  (if bool_decide (is_Some (lifestyle_factors !! u "饮食"))
   then [u "注意饮食规律，避免刺激性食物"] else []) ++
  (if bool_decide (is_Some (lifestyle_factors !! u "睡眠"))
   then [u "保持规律作息，确保充足睡眠"] else []) ++
  (if bool_decide (is_Some (lifestyle_factors !! u "运动"))
   then [u "适当运动，增强体质"] else []).

(** The static list under ["recommendations"]. *)
Definition recommendations : list str :=
  [u "建议尽快就医确诊并接受治疗"; u "密切观察症状变化"; u "如有症状加重，及时就医"].

(** [generate_final_diagnosis] *)
Definition generate_final_diagnosis (self : t) (disease : DiseaseMatchProgress.t)
    (patient_profile : PatientProfile.t) : Response :=
  let confirmed_symptoms := confirmed_names patient_profile in
  diagnosis_complete (current_analysis_step self)
    (Diagnosis.mk (DiseaseMatchProgress.disease_name disease) (u "high")
       (DiseaseMatchProgress.match_percentage disease) confirmed_symptoms
       (u "基于症状分析，您患有" ++ DiseaseMatchProgress.disease_name disease
          ++ u "的概率很高"))
    recommendations
    (generate_lifestyle_advice (PatientProfile.lifestyle_factors patient_profile)).

(** [generate_targeted_questions] *)
Definition generate_targeted_questions (focus_disease : DiseaseMatchProgress.t)
    (patient_profile : PatientProfile.t) : list str :=
  let name := DiseaseMatchProgress.disease_name focus_disease in
  let important_missing := firstn 1 (DiseaseMatchProgress.missing_symptoms focus_disease) in
  let questions :=
    List.map (fun symptom => u "您是否还出现了" ++ symptom ++ u "的症状？") important_missing in
  let questions :=
    if str_in (u "肠胃") name || str_in (u "消化") name
    then questions ++ [u "您最近的饮食习惯有什么变化吗？"]
    else if str_in (u "头痛") name || str_in (u "偏头痛") name
    then questions ++ [u "您最近的工作压力大吗？"]
    else if str_in (u "失眠") name || str_in (u "睡眠") name
    then questions ++ [u "您的睡眠质量如何？"]
    else questions ++ [u "您最近的生活习惯有什么变化吗？"] in
  firstn 2 questions.

(** [generate_match_visualization] *)
Definition generate_match_visualization (focus_disease : DiseaseMatchProgress.t)
    (patient_profile : PatientProfile.t) : MatchVisualization.t :=
  let confirmed_symptoms := confirmed_names patient_profile in
  MatchVisualization.mk (DiseaseMatchProgress.disease_name focus_disease)
    (MatchVisualization.mkProgressBar
       (DiseaseMatchProgress.confirmed_symptoms focus_disease)
       (DiseaseMatchProgress.total_symptoms focus_disease)
       (DiseaseMatchProgress.match_percentage focus_disease))
    (MatchVisualization.mkSymptomStatus confirmed_symptoms
       (firstn 3 (DiseaseMatchProgress.missing_symptoms focus_disease))
       (DiseaseMatchProgress.total_symptoms focus_disease))
    (u "需要确认 " ++
     str_of_Z (Z.of_nat (DiseaseMatchProgress.total_symptoms focus_disease)
               - Z.of_nat (DiseaseMatchProgress.confirmed_symptoms focus_disease))
     ++ u " 个症状才能完成诊断").

(** The three questions of the ["no_matches"] response. *)
Definition suggested_questions : list str :=
  [u "您能更详细地描述一下症状吗？"; u "这些症状是什么时候开始的？"; u "症状的严重程度如何？"].

(** [d.match_percentage >= 100.0] *)
Definition is_perfect (d : DiseaseMatchProgress.t) : bool :=
  Qle_bool 100 (DiseaseMatchProgress.match_percentage d).

(** [generate_verification_questions]: the response, and the agent after
    (it stores the focus disease). *)
Definition generate_verification_questions (self : t)
    (disease_progress : list DiseaseMatchProgress.t)
    (patient_profile : PatientProfile.t) : Response * t :=
  match disease_progress with
  | focus_disease :: _ =>
    let self := set_current_disease_focus focus_disease self in
    if is_perfect focus_disease
    then (generate_final_diagnosis self focus_disease patient_profile, self)
    else
      let questions := generate_targeted_questions focus_disease patient_profile in
      (verification_needed (current_analysis_step self)
         (FocusDisease.mk
            (DiseaseMatchProgress.disease_id focus_disease)
            (DiseaseMatchProgress.disease_name focus_disease)
            (DiseaseMatchProgress.match_percentage focus_disease)
            (confirmed_names patient_profile)
            (firstn 3 (DiseaseMatchProgress.missing_symptoms focus_disease))
            (DiseaseMatchProgress.total_symptoms focus_disease))
         questions
         (generate_match_visualization focus_disease patient_profile),
       self)
  | [] =>
    (no_matches (current_analysis_step self) (u "未找到匹配的疾病模式")
       suggested_questions,
     self)
  end.

(** The tail shared by [process_user_query] and [process_user_response]:
    score, then diagnose or ask. *)
Definition diagnose_or_ask (self : t) (patient_profile : PatientProfile.t)
    : Response * t :=
  let disease_progress :=
    DiseaseMatcher.find_potential_diseases (disease_matcher self)
      (PatientProfile.confirmed_symptoms patient_profile) in
  let perfect_matches := List.filter is_perfect disease_progress in
  match perfect_matches with
  | first_match :: _ => (generate_final_diagnosis self first_match patient_profile, self)
  | [] => generate_verification_questions self disease_progress patient_profile
  end.

(** [process_user_query]: the response, the agent after and the profile
    after. *)
Definition process_user_query (self : t) (user_input : str)
    (patient_profile : PatientProfile.t) : Response * t * PatientProfile.t :=
  let new_symptoms := extract_and_confirm_symptoms user_input patient_profile in
  let patient_profile := PatientProfile.extend_confirmed_symptoms new_symptoms patient_profile in
  let '(response, self) := diagnose_or_ask self patient_profile in
  (response, self, patient_profile).

(** The local table [lifestyle_factors] of [analyze_user_response]. *)
Definition lifestyle_keywords : list (str * list str) :=
  [ (u "压力", [u "压力"; u "紧张"; u "焦虑"; u "工作"]);
    (u "饮食", [u "饮食"; u "吃"; u "食物"; u "油腻"]);
    (u "睡眠", [u "睡眠"; u "睡觉"; u "失眠"; u "休息"]);
    (u "运动", [u "运动"; u "锻炼"; u "活动"; u "走路"]) ].

(** The affirmation test of [analyze_user_response]. *)
Definition affirms (user_response : str) : bool :=
  str_in (u "是") user_response || str_in (u "有") user_response
  || str_in (u "确实") user_response.

(** [analyze_user_response]: the confirmations it returns, and the profile
    after (it stores the lifestyle factors). *)
Definition analyze_user_response (self : t) (user_response : str)
    (patient_profile : PatientProfile.t) : list SymptomMatch.t * PatientProfile.t :=
  let new_confirmations :=
    match current_disease_focus self with
    | Some focus =>
      flat_map (fun missing_symptom =>
          if str_in missing_symptom user_response && affirms user_response
          then [SymptomMatch.mk missing_symptom true (u "user_confirmation") 1]
          else [])
        (DiseaseMatchProgress.missing_symptoms focus)
    | None => []
    end in
  let patient_profile :=
    fold_left (fun profile '(factor, keywords) =>
        if existsb (fun keyword => str_in keyword user_response) keywords
        then PatientProfile.set_lifestyle_factor factor user_response profile
        else profile)
      lifestyle_keywords patient_profile in
  (new_confirmations, patient_profile).

(** [process_user_response] *)
Definition process_user_response (self : t) (user_response : str)
    (patient_profile : PatientProfile.t) : Response * t * PatientProfile.t :=
  let '(new_confirmations, patient_profile) :=
    analyze_user_response self user_response patient_profile in
  let patient_profile :=
    PatientProfile.extend_confirmed_symptoms new_confirmations patient_profile in
  let '(response, self) := diagnose_or_ask self patient_profile in
  (response, self, patient_profile).

End COTCAgent.

(** ** A dialogue *)

(** A turn is a first query or an answer to the questions asked. *)
Inductive Turn := Query (user_input : str) | Answer (user_response : str).

Definition turn (self : COTCAgent.t) (patient_profile : PatientProfile.t) (t : Turn)
    : Response * COTCAgent.t * PatientProfile.t :=
  match t with
  | Query user_input => COTCAgent.process_user_query self user_input patient_profile
  | Answer user_response => COTCAgent.process_user_response self user_response patient_profile
  end.

(** The responses of a sequence of turns, with the agent and the profile
    after the last one. *)
Fixpoint dialogue (self : COTCAgent.t) (patient_profile : PatientProfile.t)
    (turns : list Turn) : list Response * COTCAgent.t * PatientProfile.t :=
  match turns with
  | [] => ([], self, patient_profile)
  | t :: rest =>
    let '(response, self, patient_profile) := turn self patient_profile t in
    let '(responses, self, patient_profile) := dialogue self patient_profile rest in
    (response :: responses, self, patient_profile)
  end.

(** The profile [main] creates: no confirmed symptom, no lifestyle factor. *)
Definition new_profile : PatientProfile.t :=
  PatientProfile.mk (u "patient_0001") 35 (u "女") [u "无重大疾病史"] [] ∅ [].

(** ** Definitions used to state the properties *)

(** The agent with other values in its two round counters. *)
Definition with_rounds (max_rounds round : nat) (self : COTCAgent.t) : COTCAgent.t :=
  COTCAgent.mk (COTCAgent.disease_matcher self) (COTCAgent.current_analysis_step self)
    max_rounds round (COTCAgent.current_disease_focus self).

(** The score that [find_potential_diseases] gives the disease [disease_id],
    if it lists it. *)
Definition score_of (self : DiseaseMatcher.t) (confirmed_symptoms : list SymptomMatch.t)
    (disease_id : str) : option Q :=
  DiseaseMatchProgress.match_percentage <$>
    List.find (fun d => bool_decide (DiseaseMatchProgress.disease_id d = disease_id))
              (DiseaseMatcher.find_potential_diseases self confirmed_symptoms).

(** A knowledge base of two diseases, to run the functions on. *)
Definition example_symptom (name : str) : KB.Symptom :=
  KB.mkSymptom (Some name) None None None.

Definition example_database : KB.Database :=
  KB.mkDatabase (Some
    [ KB.mkDisease (Some (u "D001")) (Some (u "偏头痛"))
        (Some [example_symptom (u "头痛"); example_symptom (u "失眠")]);
      KB.mkDisease (Some (u "D002")) (Some (u "感冒"))
        (Some [example_symptom (u "咳嗽"); example_symptom (u "发热");
               example_symptom (u "头痛")]) ]).

Definition example_agent : COTCAgent.t := COTCAgent.__init__ (KB.Json example_database).

(** The knowledge base of the specification's second scenario: one disease
    with three symptoms. *)
Definition scenario_database : KB.Database :=
  KB.mkDatabase (Some
    [ KB.mkDisease (Some (u "D1")) (Some (u "流感"))
        (Some [example_symptom (u "头痛"); example_symptom (u "发热");
               example_symptom (u "咳嗽")]) ]).

Definition scenario_agent : COTCAgent.t := COTCAgent.__init__ (KB.Json scenario_database).

End Agent.

(* ===================================================================== *)
(** * src/DS/merge_batches.py *)
(* ===================================================================== *)

(** The script that writes the file the normaliser reads. The batch files
    that [glob] finds are given as the list of their contents, in the sorted
    order of their names. *)
Module MergeBatches.

(** The first loop of [merge_batch_files]: the diseases of every batch file
    that can be read and parsed; the others are skipped by the [except]. *)
Definition read_batches (batch_files : list KB.file) : list KB.Disease :=
  fold_left (fun all_diseases batch_file =>
      match KB.json_load batch_file with
      | inr data => all_diseases ++ KB.get (KB.disease_ku data) []
      | inl e => all_diseases
      end)
    batch_files [].

(** The deduplication loop: [if disease_id and disease_id not in seen_ids]. *)
Fixpoint unique_diseases (seen_ids : gset str) (all_diseases : list KB.Disease)
    : list KB.Disease :=
  match all_diseases with
  | [] => []
  | disease :: rest =>
    match KB.disease_ID disease with
    | Some disease_id =>
      if negb (bool_decide (disease_id = [])) && negb (bool_decide (disease_id ∈ seen_ids))
      then disease :: unique_diseases ({[disease_id]} ∪ seen_ids) rest
      else unique_diseases seen_ids rest
    | None => unique_diseases seen_ids rest
    end
  end.

(** [merge_batch_files]: the document written to [output_file], [None] when
    the function returns before writing. *)
Definition merge_batch_files (batch_files : list KB.file) : option KB.Database :=
  match batch_files with
  | [] => None
  | _ :: _ =>
    match read_batches batch_files with
    | [] => None
    | all_diseases => Some (KB.mkDatabase (Some (unique_diseases ∅ all_diseases)))
    end
  end.

End MergeBatches.

(* ===================================================================== *)
(** * src/DS/comparison_analysis.py *)
(* ===================================================================== *)

(** The report on the id table that the normaliser writes under
    "症状ID映射": the selection of the pain symptoms, their categories, and
    the coverage figure of [main]. *)
Module ComparisonAnalysis.

(** [analyze_pain_symptoms] *)
Definition analyze_pain_symptoms (symptom_mapping : list (str * str)) : list (str * str) :=
  fold_left (fun pain_symptoms '(symptom_name, symptom_id) =>
      if str_in (u "痛") symptom_name || str_in (u "疼") symptom_name
      then PyDict.set symptom_name symptom_id pain_symptoms
      else pain_symptoms)
    symptom_mapping [].

(** [any(keyword in symptom_name for keyword in keywords)] *)
Definition any_in (keywords : list str) (symptom_name : str) : bool :=
  existsb (fun keyword => str_in keyword symptom_name) keywords.

(** [categories[category].append(symptom_name)] *)
Definition append (category symptom_name : str) (categories : list (str * list str))
    : list (str * list str) :=
  PyDict.set category (default [] (PyDict.get category categories) ++ [symptom_name])
             categories.

(** The dict literal of [categorize_pain_symptoms]. *)
Definition empty_categories : list (str * list str) :=
  [(u "头部疼痛", []); (u "胸部疼痛", []); (u "腹部疼痛", []); (u "腰部疼痛", []);
   (u "四肢疼痛", []); (u "关节疼痛", []); (u "肌肉疼痛", []); (u "泌尿疼痛", []);
   (u "五官疼痛", []); (u "疼痛性质", []); (u "其他疼痛", [])].

(** The body of the loop of [categorize_pain_symptoms], for one name: the
    chain of [if]/[elif] with the flag [categorized], then the last [if]. *)
Definition categorize_one (categories : list (str * list str)) (symptom_name : str)
    : list (str * list str) :=
  let '(categories, categorized) :=
    if any_in [u "头"; u "颅"; u "偏头"; u "颈"] symptom_name
    then (append (u "头部疼痛") symptom_name categories, true)
    else if any_in [u "胸"; u "心前区"; u "肋"; u "背"] symptom_name
    then (append (u "胸部疼痛") symptom_name categories, true)
    else if any_in [u "腹"; u "胃"; u "肝区"; u "脾区"; u "脐"] symptom_name
    then (append (u "腹部疼痛") symptom_name categories, true)
    else if any_in [u "腰"; u "肾区"] symptom_name
    then (append (u "腰部疼痛") symptom_name categories, true)
    else if any_in [u "手"; u "腕"; u "指"; u "腿"; u "膝"; u "踝"; u "足"; u "四肢"]
                   symptom_name
    then (append (u "四肢疼痛") symptom_name categories, true)
    else if str_in (u "关节") symptom_name
    then (append (u "关节疼痛") symptom_name categories, true)
    else if any_in [u "肌肉"; u "肌"; u "骨"] symptom_name
    then (append (u "肌肉疼痛") symptom_name categories, true)
    else if any_in [u "尿"; u "睾丸"; u "会阴"; u "盆腔"] symptom_name
    then (append (u "泌尿疼痛") symptom_name categories, true)
    else if any_in [u "耳"; u "眼"; u "鼻"; u "咽"; u "喉"; u "牙"; u "面部"] symptom_name
    then (append (u "五官疼痛") symptom_name categories, true)
    else if any_in [u "刺痛"; u "胀痛"; u "隐痛"; u "绞痛"; u "撕裂"; u "烧灼";
                    u "搏动"; u "剧痛"] symptom_name
    then (append (u "疼痛性质") symptom_name categories, true)
    else (categories, false) in
  if negb categorized then append (u "其他疼痛") symptom_name categories
  else categories.

(** [categorize_pain_symptoms] *)
Definition categorize_pain_symptoms (pain_symptoms : list (str * str))
    : list (str * list str) :=
  fold_left categorize_one (PyDict.keys pain_symptoms) empty_categories.

(** The loop of [main] that adds up [total_categorized]. *)
Definition total_categorized (pain_categories : list (str * list str)) : nat :=
  fold_left (fun total '(category, symptoms) =>
      match symptoms with
      | [] => total
      | _ :: _ => total + length symptoms
      end)
    pain_categories 0.

Inductive exn := ZeroDivisionError.

(** The coverage that [main] prints,
    [total_categorized/len(improved_pain)*100]. *)
Definition coverage (improved_pain : list (str * str)) : exn + Q :=
  let pain_categories := categorize_pain_symptoms improved_pain in
  let total := total_categorized pain_categories in
  match length improved_pain with
  | 0 => inl ZeroDivisionError
  | S _ => inr ((Z.of_nat total # 1) / (Z.of_nat (length improved_pain) # 1) * 100)%Q
  end.

End ComparisonAnalysis.

(* ===================================================================== *)
(** * src/DS/query_examples.py *)
(* ===================================================================== *)

(** The queries on the two files that a normaliser writes. The reverse
    table is read as a JSON object, whose order the loops observe: it is the
    list of its items. An item is the dict that [create_reverse_mapping]
    builds, with its three keys; the value of "symptom_name" is [None] for
    the JSON [null]. *)
Module Query.

Inductive exn := TypeError.

(** The instance after [load_databases] has read both files. *)
Record t := mk {
  diseases_db : list KB.Disease;
  symptom_reverse_db : list (str * Normalizer.ReverseEntry)
}.

(** [query_disease_by_name] *)
Definition query_disease_by_name (self : t) (disease_name : str) : option KB.Disease :=
  List.find (fun disease => bool_decide (KB.disease_mingcheng disease = Some disease_name))
            (diseases_db self).

(** [query_symptoms_by_disease] *)
Definition query_symptoms_by_disease (self : t) (disease_name : str) : list KB.Symptom :=
  match query_disease_by_name self disease_name with
  | Some disease => KB.get (KB.symptom_list disease) []
  | None => []
  end.

(** [query_diseases_by_symptom_name]: on an item whose name is [None], the
    test [symptom_name in None] raises. *)
Definition query_diseases_by_symptom_name (self : t) (symptom_name : str)
    : exn + list Normalizer.ReverseEntry :=
  fold_left (fun acc '(symptom_id, symptom_info) =>
      match acc with
      | inl e => inl e
      | inr matching_symptoms =>
        match Normalizer.symptom_name symptom_info with
        | None => inl TypeError
        | Some name =>
          if str_in symptom_name name then inr (matching_symptoms ++ [symptom_info])
          else inr matching_symptoms
        end
      end)
    (symptom_reverse_db self) (inr []).

(** [query_diseases_by_symptom_id] *)
Definition query_diseases_by_symptom_id (self : t) (symptom_id : str)
    : option Normalizer.ReverseEntry :=
  PyDict.get symptom_id (symptom_reverse_db self).

(** [set(d['disease_id'] for d in all_diseases)], where [all_diseases]
    collects the "diseases" of the matching items. *)
Definition disease_ids (diseases : list Normalizer.ReverseEntry) : gset (option str) :=
  list_to_set (List.map Normalizer.disease_id (flat_map Normalizer.diseases diseases)).

(** The loop of [find_common_diseases] over the names. *)
Definition symptom_diseases (self : t) (symptom_names : list str)
    : exn + list (gset (option str)) :=
  fold_left (fun acc symptom_name =>
      match acc with
      | inl e => inl e
      | inr sets =>
        match query_diseases_by_symptom_name self symptom_name with
        | inl e => inl e
        | inr [] => inr sets
        | inr diseases => inr (sets ++ [disease_ids diseases])
        end
      end)
    symptom_names (inr []).

(** [find_common_diseases] *)
Definition find_common_diseases (self : t) (symptom_names : list str)
    : exn + list KB.Disease :=
  match symptom_names with
  | [] => inr []
  | _ :: _ =>
    match symptom_diseases self symptom_names with
    | inl e => inl e
    | inr [] => inr []
    | inr (first :: others) =>
      let common_disease_ids := fold_left (fun a b => a ∩ b) others first in
      inr (List.filter (fun disease => bool_decide (KB.disease_ID disease ∈ common_disease_ids))
                       (diseases_db self))
    end
  end.

End Query.

(* ===================================================================== *)
(** * Vocabulary of the properties *)
(* ===================================================================== *)

(** Predicates and functions in which the properties below, and the
    invariants of their proofs, are stated. *)

Section NormalizerVocabulary.
Import Normalizer.
Variable isalnum : N -> bool.

Implicit Types (s2d : gmap str (list DiseaseInfo)) (ids : list (str * str)).

(** What [_normalize_symptom_name] returns on a string that cleaning leaves
    alone. *)
Definition first_match (cleaned : str) : str :=
  match List.find (group_matches cleaned) semantic_groups with
  | Some (standard_name, _) => standard_name
  | None => cleaned
  end.

(** Every id in the table was generated from its name. *)
Definition ids_generated ids : Prop :=
  ∀ name id, PyDict.get name ids = Some id → id = _generate_symptom_id name.

(** The lists of [symptom_to_diseases] only grow at their end. *)
Definition extends s2d s2d' : Prop :=
  ∀ id l, s2d !! id = Some l → ∃ l', s2d' !! id = Some (l ++ l').

(** The disease [did] is recorded under the symptom id [id]. *)
Definition recorded s2d (did : option str) (id : str) : Prop :=
  ∃ l info, s2d !! id = Some l ∧ info ∈ l ∧ disease_id info = did.

(** A symptom of the normalised database carries its normalised name and
    the id of that name, and its disease is recorded under that id. *)
Definition symptom_recorded ids s2d (did : option str) (s : KB.Symptom) : Prop :=
  ∃ name id,
    name = _normalize_symptom_name isalnum (KB.get (KB.symptom_name s) [])
    ∧ KB.normalized_name s = Some name ∧ KB.symptom_id s = Some id
    ∧ PyDict.get name ids = Some id ∧ recorded s2d did id.

(** The same for all the symptoms of all the diseases. *)
Definition diseases_recorded ids s2d (ds : list KB.Disease) : Prop :=
  Forall (fun d => Forall (symptom_recorded ids s2d (KB.disease_ID d))
                          (KB.get (KB.symptom_list d) [])) ds.

End NormalizerVocabulary.

Section AgentVocabulary.
Import Agent.

Implicit Types (scores : list (str * DiseaseMatcher.Score)).

(** The utterance contains one of the keywords. *)
Definition mentions (user_response : str) (keywords : list str) : bool :=
  existsb (fun keyword => str_in keyword user_response) keywords.

(** The loop over the lifestyle families, on the map alone. *)
Definition store_factors (user_response : str) (families : list (str * list str))
    (factors : gmap str str) : gmap str str :=
  fold_left (fun m '(factor, keywords) =>
      if mentions user_response keywords then <[factor := user_response]> m else m)
    families factors.

(** The fields of a profile other than [lifestyle_factors]. *)
Definition frame (p : PatientProfile.t) :=
  (PatientProfile.patient_id p, PatientProfile.age p, PatientProfile.gender p,
   PatientProfile.medical_history p, PatientProfile.confirmed_symptoms p,
   PatientProfile.conversation_history p).

(** The symptoms a turn recognises in the utterance. *)
Definition recognized (self : COTCAgent.t) (p : PatientProfile.t) (t : Turn)
    : list SymptomMatch.t :=
  match t with
  | Query user_input => COTCAgent.extract_and_confirm_symptoms user_input p
  | Answer user_response => (COTCAgent.analyze_user_response self user_response p).1
  end.

(** The utterance of an answer contains no lifestyle keyword (a query is
    never searched for them). *)
Definition lifestyle_keyword_free (t : Turn) : Prop :=
  match t with
  | Query _ => True
  | Answer user_response =>
    ∀ factor keywords keyword,
      (factor, keywords) ∈ COTCAgent.lifestyle_keywords →
      keyword ∈ keywords →
      str_in keyword user_response = false
  end.

(** The ["no_matches"] response. *)
Definition no_matches_response (self : COTCAgent.t) : Response :=
  no_matches (COTCAgent.current_analysis_step self) (u "未找到匹配的疾病模式")
    [u "您能更详细地描述一下症状吗？"; u "这些症状是什么时候开始的？";
     u "症状的严重程度如何？"].

(** The profile after a turn. *)
Definition profile_after (self : COTCAgent.t) (p : PatientProfile.t) (t : Turn)
    : PatientProfile.t :=
  match t with
  | Query user_input =>
    PatientProfile.extend_confirmed_symptoms
      (COTCAgent.extract_and_confirm_symptoms user_input p) p
  | Answer user_response =>
    PatientProfile.extend_confirmed_symptoms
      (COTCAgent.analyze_user_response self user_response p).1
      (COTCAgent.analyze_user_response self user_response p).2
  end.

(** The candidates scored on the profile. *)
Definition candidates (self : COTCAgent.t) (p : PatientProfile.t)
    : list DiseaseMatchProgress.t :=
  DiseaseMatcher.find_potential_diseases (COTCAgent.disease_matcher self)
    (PatientProfile.confirmed_symptoms p).

(** The number of confirmed symptoms counted for a disease so far. *)
Definition confirmed_count scores (did : str) : option nat :=
  (fun e => length (DiseaseMatcher.score_confirmed_symptoms e)) <$> PyDict.get did scores.

(** Every disease counted so far stays counted, with no fewer confirmed
    symptoms. *)
Definition grows scores scores' : Prop :=
  ∀ did n, confirmed_count scores did = Some n →
           ∃ n', confirmed_count scores' did = Some n' ∧ n ≤ n'.

(** The body of the loop of [count_confirmed], for one confirmed symptom. *)
Definition count_one (self : DiseaseMatcher.t) scores (symptom_match : SymptomMatch.t)
    : list (str * DiseaseMatcher.Score) :=
  match DiseaseMatcher.symptom_to_diseases self
        !! SymptomMatch.symptom_name symptom_match with
  | Some infos =>
    if SymptomMatch.is_confirmed symptom_match
    then fold_left (DiseaseMatcher.add_confirmation (SymptomMatch.symptom_name symptom_match))
                   infos scores
    else scores
  | None => scores
  end.

(** The entry of a scored disease after the second and third loops. *)
Definition progress_entry (self : DiseaseMatcher.t) (did : str) (e : DiseaseMatcher.Score)
    : DiseaseMatchProgress.t :=
  let all_symptoms := DiseaseMatcher.get_disease_symptoms self did in
  DiseaseMatcher.progress_of
    (did, DiseaseMatcher.mkScore (DiseaseMatcher.score_disease_name e)
            (DiseaseMatcher.score_confirmed_symptoms e) (length all_symptoms) all_symptoms).

(** The disease id [did] is stored under the symptom name [name]. *)
Definition mapped (symptom_mapping : gmap str (list DiseaseMatcher.Info))
    (name did : str) : Prop :=
  ∃ infos info,
    symptom_mapping !! name = Some infos ∧ info ∈ infos
    ∧ DiseaseMatcher.disease_id info = did.

(** The test by which an entry is looked up by disease id. *)
Definition has_id (did : str) (d : DiseaseMatchProgress.t) : bool :=
  bool_decide (DiseaseMatchProgress.disease_id d = did).

End AgentVocabulary.

Section AgentVocabularyMore.
Import Agent.

(** Greatest match percentage first. *)
Definition sorted_desc (l : list DiseaseMatchProgress.t) : Prop :=
  StronglySorted
    (fun a b => (DiseaseMatchProgress.match_percentage b
                 <= DiseaseMatchProgress.match_percentage a)%Q) l.

(** The entries stored under the name of a confirmed symptom that carry
    the disease id [did]. *)
Definition hits_of (self : DiseaseMatcher.t) (did : str) (x : SymptomMatch.t)
    : list DiseaseMatcher.Info :=
  if SymptomMatch.is_confirmed x
  then List.filter (fun info => bool_decide (DiseaseMatcher.disease_id info = did))
         (default [] (DiseaseMatcher.symptom_to_diseases self !! SymptomMatch.symptom_name x))
  else [].

(** Their number over a list of confirmed symptoms. *)
Definition hits (self : DiseaseMatcher.t) (confirmed : list SymptomMatch.t) (did : str)
    : nat :=
  length (flat_map (hits_of self did) confirmed).

(** [n] more confirmed symptoms for a disease counted [o] times so far. *)
Definition add_count (o : option nat) (n : nat) : option nat :=
  match o with
  | Some m => Some (m + n)
  | None => if bool_decide (n = 0) then None else Some n
  end.

(** The number of entries stored under [name] that carry the id [did]. *)
Definition stored_under (symptom_mapping : gmap str (list DiseaseMatcher.Info))
    (name did : str) : nat :=
  length (List.filter (fun info => bool_decide (DiseaseMatcher.disease_id info = did))
                      (default [] (symptom_mapping !! name))).

(** The symptom names of a record, as [get_disease_symptoms] returns them. *)
Definition names_of (d : KB.Disease) : list str :=
  List.map (fun s => KB.get (KB.symptom_name s) []) (KB.get (KB.symptom_list d) []).

(** The occurrences of the name of a confirmed symptom in a list of names. *)
Definition occurrences (names : list str) (x : SymptomMatch.t) : list str :=
  if SymptomMatch.is_confirmed x
  then List.filter (fun n => bool_decide (n = SymptomMatch.symptom_name x)) names
  else [].

(** The fields of the agent that no turn assigns. *)
Definition agent_frame (self : COTCAgent.t) :=
  (COTCAgent.disease_matcher self, COTCAgent.current_analysis_step self,
   COTCAgent.max_verification_rounds self, COTCAgent.verification_round self).

(** The fields of a profile that identify the patient. *)
Definition profile_identity (p : PatientProfile.t) :=
  (PatientProfile.patient_id p, PatientProfile.age p, PatientProfile.gender p,
   PatientProfile.medical_history p, PatientProfile.conversation_history p).

(** What [extract_and_confirm_symptoms] returns for a medical name. *)
Definition from_user_input (medical_symptom : str) : SymptomMatch.t :=
  SymptomMatch.mk medical_symptom true (u "user_input") 1.

(** What [analyze_user_response] returns for a missing symptom. *)
Definition from_user_confirmation (missing_symptom : str) : SymptomMatch.t :=
  SymptomMatch.mk missing_symptom true (u "user_confirmation") 1.

(** The four questions about habits of [generate_targeted_questions]. *)
Definition habit_questions : list str :=
  [u "您最近的饮食习惯有什么变化吗？"; u "您最近的工作压力大吗？";
   u "您的睡眠质量如何？"; u "您最近的生活习惯有什么变化吗？"].

(** What one turn keeps. *)
Definition turn_keeps (self : COTCAgent.t) (p : PatientProfile.t)
    (self' : COTCAgent.t) (p' : PatientProfile.t) : Prop :=
  agent_frame self' = agent_frame self
  ∧ profile_identity p' = profile_identity p
  ∧ (∃ new, PatientProfile.confirmed_symptoms p' = PatientProfile.confirmed_symptoms p ++ new
            ∧ Forall (fun m => SymptomMatch.is_confirmed m = true) new)
  ∧ (∀ key : str, is_Some (PatientProfile.lifestyle_factors p !! key) →
            is_Some (PatientProfile.lifestyle_factors p' !! key)).

(** The advice of [generate_lifestyle_advice], by lifestyle factor, in the
    order of its four tests. *)
Definition advice_table : list (str * str) :=
  [(u "压力", u "建议适当减压，保持心情愉快"); (u "饮食", u "注意饮食规律，避免刺激性食物");
   (u "睡眠", u "保持规律作息，确保充足睡眠"); (u "运动", u "适当运动，增强体质")].

End AgentVocabularyMore.


Section NormalizerVocabularyMore.
Import Normalizer.
Variable isalnum : N -> bool.

(** A Unicode scalar value, a code point outside the surrogate range: the
    characters that [str.encode('utf-8')] accepts. *)
Definition scalar_value (c : N) : bool :=
  ((c <? 0xD800) || (0xDFFF <? c) && (c <=? 0x10FFFF))%N.

(** The characters of the eight hexadecimal digits of a symptom id. *)
Definition is_upper_hex (c : N) : bool :=
  ((0x30 <=? c) && (c <=? 0x39) || (0x41 <=? c) && (c <=? 0x46))%N.

(** The symptom has a non-empty name: the test [if symptom_name:] of
    [analyze_symptoms]. *)
Definition named (s : KB.Symptom) : bool :=
  negb (bool_decide (KB.get (KB.symptom_name s) [] = [])).

(** The normalised name of a symptom. *)
Definition normalized (s : KB.Symptom) : str :=
  _normalize_symptom_name isalnum (KB.get (KB.symptom_name s) []).

(** The normalised names of the named symptoms of a database, in the order
    of the file, with their repetitions. *)
Definition named_names (diseases_data : list KB.Disease) : list str :=
  flat_map (fun d => List.map normalized (List.filter named (KB.get (KB.symptom_list d) [])))
           diseases_data.

(** The number of occurrences of a name in a list. *)
Definition occ (name : str) (names : list str) : nat :=
  length (List.filter (fun x => bool_decide (x = name)) names).

(** [counter[name] += 1] for each name of a list. *)
Definition count_into (names : list str) (counter : list (str * nat)) : list (str * nat) :=
  fold_left (fun c name => PyDict.set name (default 0 (PyDict.get name c) + 1) c)
            names counter.

(** A symptom with the two keys that [normalize_disease_data] adds. *)
Definition annotated (s : KB.Symptom) : KB.Symptom :=
  KB.mkSymptom (KB.symptom_name s) (KB.specificity s)
               (Some (_generate_symptom_id (normalized s))) (Some (normalized s)).

(** The id that the table holds for the normalised name of a symptom, the
    empty string when it holds none. *)
Definition id_of (ids : list (str * str)) (s : KB.Symptom) : str :=
  default [] (PyDict.get (normalized s) ids).

(** The test [if unified_id:] of [normalize_disease_data]. *)
Definition identified (ids : list (str * str)) (s : KB.Symptom) : bool :=
  negb (bool_decide (id_of ids s = [])).

(** The dict appended to [symptom_to_diseases] for a symptom of a disease. *)
Definition info_of (d : KB.Disease) (s : KB.Symptom) : DiseaseInfo :=
  mkDiseaseInfo (KB.disease_ID d) (KB.disease_mingcheng d)
                (KB.get (KB.specificity s) false).

(** [l] appended to the list of a [defaultdict(list)] entry. *)
Definition append_to {A} (o : option (list A)) (l : list A) : option (list A) :=
  match o, l with
  | Some l0, _ => Some (l0 ++ l)
  | None, [] => None
  | None, _ :: _ => Some l
  end.

(** The symptoms of a database that [normalize_disease_data] records under
    the id [id], each with its disease. *)
Definition recorded_under (ids : list (str * str)) (id : str)
    (diseases_data : list KB.Disease) : list DiseaseInfo :=
  flat_map (fun d =>
      List.map (info_of d)
        (List.filter (fun s => identified ids s && bool_decide (id_of ids s = id))
                     (KB.get (KB.symptom_list d) [])))
    diseases_data.

(** The symptoms that a build on a new normaliser keeps: those with a
    name, and those without one when some named symptom of the database
    normalises to "头痛". *)
Definition kept_by_build (diseases_data : list KB.Disease) (s : KB.Symptom) : bool :=
  named s || bool_decide (u "头痛" ∈ named_names diseases_data).

(** The disease lists a symptom that the build keeps under the id [id]. *)
Definition lists_under (diseases_data : list KB.Disease) (id : str) (d : KB.Disease)
    : Prop :=
  ∃ s, s ∈ KB.get (KB.symptom_list d) [] ∧ kept_by_build diseases_data s = true
       ∧ _generate_symptom_id (normalized s) = id.

End NormalizerVocabularyMore.

Section PipelineVocabulary.

(** The batch file can be read and parsed. *)
Definition readable (batch_file : KB.file) : bool :=
  match batch_file with
  | KB.Json _ => true
  | _ => false
  end.

(** The record carries the key "疾病ID" with the value [id]. *)
Definition has_disease_id (id : str) (d : KB.Disease) : bool :=
  bool_decide (KB.disease_ID d = Some id).

(** The name holds "痛" or "疼": the test of [analyze_pain_symptoms]. *)
Definition is_pain (symptom_name : str) : bool :=
  str_in (u "痛") symptom_name || str_in (u "疼") symptom_name.

End PipelineVocabulary.

Section QueryVocabulary.
Import Query.

(** The name has no matching item in the reverse table. *)
Definition unmatched (self : t) (symptom_name : str) : bool :=
  match query_diseases_by_symptom_name self symptom_name with
  | inr [] => true
  | _ => false
  end.

(** The set that the loop of [find_common_diseases] appends for a name. *)
Definition disease_ids_of (self : t) (symptom_name : str) : list (gset (option str)) :=
  match query_diseases_by_symptom_name self symptom_name with
  | inr (item :: items) => [disease_ids (item :: items)]
  | _ => []
  end.

End QueryVocabulary.

(* ===================================================================== *)
(** * Properties *)
(* ===================================================================== *)

(** ** Strings and dictionaries *)

Section PyDictFacts.
Context {V : Type}.
Implicit Types (d : list (str * V)) (k : str) (v : V).

Lemma dict_get_set_eq d k v : PyDict.get k (PyDict.set k v d) = Some v.
Proof.
  induction d as [|[k' v'] d IH]; simpl.
  - by rewrite decide_True.
  - destruct (decide (k' = k)) as [->|Hne]; simpl.
    + by rewrite decide_True.
    + by rewrite decide_False.
Qed.

Lemma dict_get_set_ne d k k' v : k ≠ k' → PyDict.get k' (PyDict.set k v d) = PyDict.get k' d.
Proof.
  intros Hne. induction d as [|[k0 v0] d IH]; simpl.
  - by rewrite decide_False.
  - destruct (decide (k0 = k)) as [->|Hne0]; simpl.
    + by rewrite !decide_False.
    + destruct (decide (k0 = k')); [done | apply IH].
Qed.

Lemma dict_keys_set_absent d k v :
  PyDict.get k d = None → PyDict.keys (PyDict.set k v d) = PyDict.keys d ++ [k].
Proof.
  induction d as [|[k0 v0] d IH]; simpl; [done|].
  destruct (decide (k0 = k)); [done|]. intros H. simpl. by rewrite <- IH.
Qed.

Lemma dict_keys_set_present d k v :
  is_Some (PyDict.get k d) → PyDict.keys (PyDict.set k v d) = PyDict.keys d.
Proof.
  induction d as [|[k0 v0] d IH]; simpl.
  - by intros [? ?].
  - destruct (decide (k0 = k)); [done|]. intros H. simpl. by rewrite IH.
Qed.

Lemma dict_get_None_keys d k : PyDict.get k d = None ↔ k ∉ PyDict.keys d.
Proof.
  induction d as [|[k0 v0] d IH]; simpl.
  - split; [intros _; apply not_elem_of_nil | done].
  - rewrite not_elem_of_cons. destruct (decide (k0 = k)) as [->|Hne].
    + split; [done | intros [? _]; done].
    + rewrite IH. split; [intros ?; split; [congruence | done] | by intros [_ ?]].
Qed.

Lemma dict_get_Some_elem d k v : PyDict.get k d = Some v → (k, v) ∈ d.
Proof.
  induction d as [|[k0 v0] d IH]; simpl; [done|].
  destruct (decide (k0 = k)) as [->|Hne].
  - intros [= ->]. apply elem_of_cons. by left.
  - intros H. apply elem_of_cons. right. by apply IH.
Qed.

Lemma dict_NoDup_set d k v : NoDup (PyDict.keys d) → NoDup (PyDict.keys (PyDict.set k v d)).
Proof.
  intros Hnd. destruct (PyDict.get k d) as [v0|] eqn:E.
  - rewrite dict_keys_set_present; [done | by eexists].
  - rewrite dict_keys_set_absent by done.
    apply NoDup_app. split; [done|]. split.
    + intros x Hx Hin. apply list_elem_of_singleton in Hin as ->.
      by apply dict_get_None_keys in E.
    + apply NoDup_singleton.
Qed.

End PyDictFacts.

(** ** MD5 on the test vectors of RFC 1321 and of [hashlib] *)

Example md5_empty : MD5.hexdigest [] = u "d41d8cd98f00b204e9800998ecf8427e".
Proof. vm_compute. reflexivity. Qed.

Example md5_abc :
  MD5.hexdigest (encode_utf8 (u "abc")) = u "900150983cd24fb0d6963f7d28e17f72".
Proof. vm_compute. reflexivity. Qed.

Example md5_three_blocks :
  MD5.hexdigest (encode_utf8 (u "The quick brown fox jumps over the lazy dog" ++
                              u "The quick brown fox jumps over the lazy dog" ++
                              u "The quick brown fox jumps over the lazy dog"))
  = u "4e67db4a7a406b0cfdadd887cde7888e".
Proof. vm_compute. reflexivity. Qed.

Example md5_toutong :
  MD5.hexdigest (encode_utf8 (u "头痛")) = u "4a41d9917e45f610dacd5c8226d96be8".
Proof. vm_compute. reflexivity. Qed.

(** ** The symptom normaliser *)

Section NormalizerFacts.
Import Normalizer.
Variable isalnum : N -> bool.

Abbreviation normalize := (_normalize_symptom_name isalnum).

Lemma semantic_groups_keys_distinct : NoDup canonical_names.
Proof. apply (bool_decide_eq_true_1 _). vm_compute. reflexivity. Qed.

Lemma clean_idempotent s : clean isalnum (clean isalnum s) = clean isalnum s.
Proof.
  unfold clean. induction s as [|c s IH]; simpl; [done|].
  destruct (kept isalnum c) eqn:E; simpl; [|done].
  by rewrite E, IH.
Qed.

Lemma kept_4e00_9fff c : in_4e00_9fff c = true → kept isalnum c = true.
Proof. unfold kept, in_4e00_9fff. intros ->. apply orb_true_r. Qed.

Lemma clean_4e00_9fff s : forallb in_4e00_9fff s = true → clean isalnum s = s.
Proof.
  unfold clean. induction s as [|c s IH]; simpl; [done|].
  intros [Hc Hs]%andb_true_iff. by rewrite kept_4e00_9fff, IH.
Qed.

(** Every canonical name and every variant of the table is written with
    characters of the range [4e00-9fff] only. *)
Lemma table_in_4e00_9fff :
  forallb (fun g => forallb in_4e00_9fff (fst g) && forallb (forallb in_4e00_9fff) (snd g))
          semantic_groups = true.
Proof. vm_compute. reflexivity. Qed.

Lemma canonical_name_clean k : k ∈ canonical_names → clean isalnum k = k.
Proof.
  intros Hk. apply clean_4e00_9fff.
  apply list_elem_of_fmap in Hk as [g [-> Hg]].
  pose proof table_in_4e00_9fff as H.
  rewrite forallb_forall in H. apply list_elem_of_In, H in Hg.
  by apply andb_true_iff in Hg as [? _].
Qed.

Lemma normalize_first_match s : normalize s = first_match (clean isalnum s).
Proof. reflexivity. Qed.

(** A canonical name outside [captured_names] is the first group to match
    itself; one inside is sent to a name outside. *)
Lemma canonical_names_first_match :
  forallb (fun k =>
      if bool_decide (k ∈ captured_names)
      then negb (bool_decide (first_match k ∈ captured_names))
           && bool_decide (first_match k ∈ canonical_names)
           && negb (str_eqb (first_match k) k)
      else str_eqb (first_match k) k)
    canonical_names = true.
Proof. vm_compute. reflexivity. Qed.

Lemma normalize_canonical_name k :
  k ∈ canonical_names → k ∉ captured_names → normalize k = k.
Proof.
  intros Hk Hnc. rewrite normalize_first_match, canonical_name_clean by done.
  pose proof canonical_names_first_match as H.
  rewrite forallb_forall in H. apply list_elem_of_In, H in Hk.
  rewrite bool_decide_false in Hk by done.
  by apply bool_decide_eq_true in Hk.
Qed.

Lemma normalize_captured_name k :
  k ∈ captured_names →
  k ∈ canonical_names →
  normalize k ∈ canonical_names ∧ (normalize k ∉ captured_names) ∧ normalize k ≠ k.
Proof.
  intros Hc Hk. rewrite normalize_first_match, canonical_name_clean by done.
  pose proof canonical_names_first_match as H.
  rewrite forallb_forall in H. apply list_elem_of_In, H in Hk.
  rewrite bool_decide_true in Hk by done.
  apply andb_true_iff in Hk as [[H1 H2]%andb_true_iff H3].
  apply negb_true_iff, bool_decide_eq_false in H1, H3.
  by apply bool_decide_eq_true in H2.
Qed.

(** [normalize] returns a canonical name, or the cleaned input when no group
    matches it. *)
Lemma normalize_cases s :
  normalize s ∈ canonical_names ∨
  (List.find (group_matches (clean isalnum s)) semantic_groups = None
   ∧ normalize s = clean isalnum s).
Proof.
  unfold _normalize_symptom_name.
  destruct (List.find _ semantic_groups) as [[k vs]|] eqn:E; [left | by right].
  apply find_some in E as [Hin _].
  apply list_elem_of_fmap. exists (k, vs). split; [done | by apply list_elem_of_In].
Qed.

Lemma normalize_unmatched s :
  List.find (group_matches (clean isalnum s)) semantic_groups = None →
  normalize (normalize s) = normalize s.
Proof.
  intros E. unfold _normalize_symptom_name at 2. rewrite E.
  unfold _normalize_symptom_name. by rewrite clean_idempotent, E.
Qed.

(** C2, as amended: [normalize (normalize s) = normalize s] for every raw
    string [s] whose normal form is not one of the 23 canonical names that an
    earlier group of the table matches ([captured_names]). *)
Theorem normalize_idempotent_unless_captured (s : str) :
  normalize s ∉ captured_names →
  normalize (normalize s) = normalize s.
Proof.
  intros Hnc. destruct (normalize_cases s) as [Hk | [E _]].
  - by apply normalize_canonical_name.
  - by apply normalize_unmatched.
Qed.

(** A second application always reaches a fixed point. *)
Lemma normalize_stable_after_two (s : str) :
  normalize (normalize (normalize s)) = normalize (normalize s).
Proof.
  destruct (normalize_cases s) as [Hk | [E _]].
  - destruct (decide (normalize s ∈ captured_names)) as [Hc|Hnc].
    + destruct (normalize_captured_name _ Hc Hk) as (Hk' & Hnc' & _).
      exact (normalize_canonical_name _ Hk' Hnc').
    + by rewrite !(normalize_canonical_name _ Hk Hnc).
  - by rewrite !(normalize_unmatched s E).
Qed.

(** On the variant "肚子痛" of the group "腹痛", whatever [isalnum] is: the
    group "上腹痛" comes first in the table and its canonical name contains
    "腹痛". *)
Lemma normalize_duzitong :
  normalize (u "肚子痛") = u "腹痛" ∧ normalize (u "腹痛") = u "上腹痛".
Proof.
  rewrite !normalize_first_match, !clean_4e00_9fff by (vm_compute; reflexivity).
  split; vm_compute; reflexivity.
Qed.

End NormalizerFacts.

(** C2, counterexample: the raw name "肚子痛" normalises to "腹痛", and
    "腹痛" normalises to "上腹痛". *)
Lemma normalize_not_idempotent :
  Normalizer._normalize_symptom_name Normalizer.ascii_isalnum (u "肚子痛") = u "腹痛"
  ∧ Normalizer._normalize_symptom_name Normalizer.ascii_isalnum
      (Normalizer._normalize_symptom_name Normalizer.ascii_isalnum (u "肚子痛"))
    = u "上腹痛".
Proof. split; vm_compute; reflexivity. Qed.

(** C2, witness: "头疼" normalises to "头痛", which is not captured. *)
Lemma normalize_idempotent_unless_captured_witness :
  (Normalizer._normalize_symptom_name Normalizer.ascii_isalnum (u "头疼")
     ∉ Normalizer.captured_names)
  ∧ Normalizer._normalize_symptom_name Normalizer.ascii_isalnum
      (Normalizer._normalize_symptom_name Normalizer.ascii_isalnum (u "头疼"))
    = Normalizer._normalize_symptom_name Normalizer.ascii_isalnum (u "头疼").
Proof.
  assert (H : Normalizer._normalize_symptom_name Normalizer.ascii_isalnum (u "头疼")
              ∉ Normalizer.captured_names).
  { apply (bool_decide_eq_true_1 _). vm_compute. reflexivity. }
  split; [exact H|].
  exact (normalize_idempotent_unless_captured Normalizer.ascii_isalnum (u "头疼") H).
Defined.

(** ** Symptom ids *)

Lemma NoDup_fmap_inj_on {A B} (f : A → B) (l : list A) x y :
  NoDup (f <$> l) → x ∈ l → y ∈ l → f x = f y → x = y.
Proof.
  induction l as [|a l IH]; simpl; [by intros _ ?%elem_of_nil|].
  rewrite NoDup_cons, !elem_of_cons. intros [Ha Hnd] [->|Hx] [->|Hy] Heq; try done.
  - exfalso. apply Ha. rewrite Heq. by apply list_elem_of_fmap_2.
  - exfalso. apply Ha. rewrite <- Heq. by apply list_elem_of_fmap_2.
  - by apply IH.
Qed.

Lemma generated_ids_distinct :
  NoDup (Normalizer._generate_symptom_id <$> Normalizer.canonical_names).
Proof. apply (bool_decide_eq_true_1 _). vm_compute. reflexivity. Qed.

(** C9: two distinct canonical names of the semantic group table never get
    the same id ("SYM_" and the first 8 hexadecimal digits, in upper case, of
    the MD5 digest of the UTF-8 encoding of the name). *)
Theorem canonical_ids_distinct (name1 name2 : str) :
  name1 ∈ Normalizer.canonical_names →
  name2 ∈ Normalizer.canonical_names →
  name1 ≠ name2 →
  Normalizer._generate_symptom_id name1 ≠ Normalizer._generate_symptom_id name2.
Proof.
  intros H1 H2 Hne Heq. apply Hne.
  by apply (NoDup_fmap_inj_on _ _ _ _ generated_ids_distinct H1 H2).
Qed.

(** C9, witness: "头痛" and "偏头痛". *)
Lemma canonical_ids_distinct_witness :
  Normalizer._generate_symptom_id (u "头痛") ≠ Normalizer._generate_symptom_id (u "偏头痛").
Proof.
  apply (canonical_ids_distinct (u "头痛") (u "偏头痛")).
  - apply (bool_decide_eq_true_1 _). vm_compute. reflexivity.
  - apply (bool_decide_eq_true_1 _). vm_compute. reflexivity.
  - apply (bool_decide_eq_true_1 _). vm_compute. reflexivity.
Defined.

(** The first scenario of the specification: "头疼" and "头痛" have the same
    canonical name and the same id. *)
Example scenario_same_canonical_name :
  Normalizer._normalize_symptom_name Normalizer.ascii_isalnum (u "头疼") = u "头痛"
  ∧ Normalizer._normalize_symptom_name Normalizer.ascii_isalnum (u "头痛") = u "头痛"
  ∧ Normalizer._generate_symptom_id (u "头痛") = u "SYM_4A41D991".
Proof. vm_compute. by split_and!. Qed.

(** Punctuation and spaces are removed before the table is searched, and a
    name that no group matches is returned cleaned. *)
Example normalize_cleans :
  Normalizer._normalize_symptom_name Normalizer.ascii_isalnum (u "肚子 痛！") = u "腹痛"
  ∧ Normalizer._normalize_symptom_name Normalizer.ascii_isalnum (u "xyz-1 ?") = u "xyz1".
Proof. vm_compute. by split_and!. Qed.

(** ** The reverse index *)

Section ReverseIndex.
Import Normalizer.
Variable isalnum : N -> bool.

Implicit Types (s2d : gmap str (list DiseaseInfo)) (ids : list (str * str)).

Lemma assign_ids_generated names ids :
  ids_generated ids → ids_generated (assign_ids names ids).
Proof.
  revert ids. induction names as [|n names IH]; intros ids Hg; simpl; [done|].
  apply IH. unfold PyDict.mem.
  destruct (PyDict.get n ids) eqn:E; [done|].
  intros name id. destruct (decide (n = name)) as [->|Hne].
  - rewrite dict_get_set_eq. by intros [= <-].
  - rewrite dict_get_set_ne by done. apply Hg.
Qed.

Lemma extends_refl s2d : extends s2d s2d.
Proof. intros id l H. exists []. by rewrite app_nil_r. Qed.

Lemma extends_trans s2d1 s2d2 s2d3 :
  extends s2d1 s2d2 → extends s2d2 s2d3 → extends s2d1 s2d3.
Proof.
  intros H12 H23 id l H. destruct (H12 _ _ H) as [l1 H1].
  destruct (H23 _ _ H1) as [l2 H2]. exists (l1 ++ l2). by rewrite app_assoc.
Qed.

Lemma extends_append s2d id info :
  extends s2d (<[id := default [] (s2d !! id) ++ [info]]> s2d).
Proof.
  intros id' l H. destruct (decide (id = id')) as [->|Hne].
  - rewrite lookup_insert_eq, H. by exists [info].
  - rewrite lookup_insert_ne by done. exists []. by rewrite app_nil_r.
Qed.

Lemma recorded_extends s2d s2d' did id :
  extends s2d s2d' → recorded s2d did id → recorded s2d' did id.
Proof.
  intros Hext (l & info & Hl & Hin & Hid). destruct (Hext _ _ Hl) as [l' Hl'].
  exists (l ++ l'), info. split_and!; [done | | done].
  apply elem_of_app. by left.
Qed.

Lemma update_symptom_spec ids disease us s2d symptom :
  Forall (symptom_recorded isalnum ids s2d (KB.disease_ID disease)) us →
  let st' := update_symptom isalnum ids disease (us, s2d) symptom in
  extends s2d st'.2
  ∧ Forall (symptom_recorded isalnum ids st'.2 (KB.disease_ID disease)) st'.1.
Proof.
  intros Hus. unfold update_symptom.
  destruct (PyDict.get _ ids) as [id|] eqn:Eid; simpl;
    [|split; [apply extends_refl | done]].
  case_bool_decide; simpl; [split; [apply extends_refl | done]|].
  split; [apply extends_append|].
  apply Forall_app. split.
  - eapply Forall_impl; [exact Hus|]. intros s (name & id' & ? & ? & ? & ? & Hrec).
    exists name, id'. split_and!; try done.
    eapply recorded_extends; [apply extends_append | done].
  - apply Forall_singleton. eexists _, id. split_and!; [done | done | done | exact Eid |].
    eexists _, (mkDiseaseInfo (KB.disease_ID disease) _ _).
    rewrite lookup_insert_eq. split_and!; [done | | done].
    apply elem_of_app. right. by apply list_elem_of_singleton.
Qed.

Lemma update_symptoms_spec ids disease symptoms us s2d :
  Forall (symptom_recorded isalnum ids s2d (KB.disease_ID disease)) us →
  let st' := fold_left (update_symptom isalnum ids disease) symptoms (us, s2d) in
  extends s2d st'.2
  ∧ Forall (symptom_recorded isalnum ids st'.2 (KB.disease_ID disease)) st'.1.
Proof.
  revert us s2d. induction symptoms as [|symptom symptoms IH]; intros us s2d Hus;
    cbn [fold_left].
  - split; [apply extends_refl | done].
  - destruct (update_symptom_spec ids disease us s2d symptom Hus) as [Hext Hus'].
    destruct (update_symptom isalnum ids disease (us, s2d) symptom) as [us1 s2d1].
    destruct (IH us1 s2d1 Hus') as [Hext' Hus'']. simpl in Hext, Hus'.
    split; [by eapply extends_trans | done].
Qed.

Lemma diseases_recorded_extends ids s2d s2d' ds :
  extends s2d s2d' → diseases_recorded isalnum ids s2d ds → diseases_recorded isalnum ids s2d' ds.
Proof.
  intros Hext Hds. eapply Forall_impl; [exact Hds|]. intros d Hd. simpl in Hd.
  eapply Forall_impl; [exact Hd|].
  intros s (name & id & ? & ? & ? & ? & Hrec). exists name, id. split_and!; try done.
  by eapply recorded_extends.
Qed.

Lemma update_disease_spec ids ds s2d disease :
  diseases_recorded isalnum ids s2d ds →
  let st' := update_disease isalnum ids (ds, s2d) disease in
  extends s2d st'.2 ∧ diseases_recorded isalnum ids st'.2 st'.1.
Proof.
  intros Hds. unfold update_disease.
  destruct (update_symptoms_spec ids disease (KB.get (KB.symptom_list disease) []) [] s2d)
    as [Hext Hus]; [done|].
  destruct (fold_left _ _ ([], s2d)) as [us s2d']. simpl in *.
  split; [done|]. apply Forall_app. split.
  - by eapply diseases_recorded_extends.
  - by apply Forall_singleton.
Qed.

Lemma update_diseases_spec ids diseases_data ds s2d :
  diseases_recorded isalnum ids s2d ds →
  let st' := fold_left (update_disease isalnum ids) diseases_data (ds, s2d) in
  diseases_recorded isalnum ids st'.2 st'.1.
Proof.
  revert ds s2d. induction diseases_data as [|d diseases_data IH]; intros ds s2d Hds;
    cbn [fold_left]; [done|].
  destruct (update_disease_spec ids ds s2d d Hds) as [_ Hds'].
  destruct (update_disease isalnum ids (ds, s2d) d) as [ds1 s2d1].
  by apply IH.
Qed.

(** The deduplication keeps, for every disease id not seen before, the
    first entry that carries it, and nothing else. *)
Lemma unique_diseases_find seen diseases did :
  List.find (fun i => bool_decide (disease_id i = did)) (unique_diseases seen diseases)
  = if decide (did ∈ seen) then None
    else List.find (fun i => bool_decide (disease_id i = did)) diseases.
Proof.
  revert seen. induction diseases as [|d diseases IH]; intros seen; simpl.
  - by destruct (decide (did ∈ seen)).
  - destruct (decide (disease_id d ∈ seen)) as [Hin|Hnin].
    + rewrite IH. destruct (decide (did ∈ seen)) as [|Hdid]; [done|].
      rewrite bool_decide_false; [done | congruence].
    + simpl. case_bool_decide as Hd.
      * subst did. by rewrite decide_False.
      * rewrite IH. destruct (decide (did ∈ seen)) as [Hdid|Hdid].
        -- rewrite decide_True; [done|]. apply elem_of_union. by right.
        -- rewrite decide_False; [done|].
           intros [Heq%elem_of_singleton|Hin]%elem_of_union; [by apply Hd | by apply Hdid].
Qed.

Lemma unique_diseases_NoDup seen diseases :
  NoDup (disease_id <$> unique_diseases seen diseases)
  ∧ ∀ i, i ∈ unique_diseases seen diseases → disease_id i ∉ seen.
Proof.
  revert seen. induction diseases as [|d diseases IH]; intros seen; simpl.
  - split; [apply NoDup_nil_2 | by intros i ?%elem_of_nil].
  - destruct (decide (disease_id d ∈ seen)) as [Hin|Hnin]; [apply IH|].
    destruct (IH ({[disease_id d]} ∪ seen)) as [Hnd Hseen]. split.
    + simpl. apply NoDup_cons. split; [|done].
      intros (i & Heq & Hi)%list_elem_of_fmap. apply Hseen in Hi.
      apply Hi, elem_of_union. left. by apply elem_of_singleton.
    + intros i [->|Hi]%elem_of_cons; [done|]. apply Hseen in Hi.
      intros Hin. apply Hi, elem_of_union. by right.
Qed.

Lemma filter_fmap_absent {A B} `{EqDecision B} (f : A → B) (l : list A) (b : B) :
  b ∉ f <$> l → filter (fun y => f y = b) l = [].
Proof.
  induction l as [|a l IH]; simpl; [done|].
  rewrite not_elem_of_cons. intros [Hne Hb].
  rewrite filter_cons_False by done. by apply IH.
Qed.

Lemma NoDup_fmap_count {A B} `{EqDecision B} (f : A → B) (l : list A) (x : A) :
  NoDup (f <$> l) → x ∈ l → length (filter (fun y => f y = f x) l) = 1.
Proof.
  induction l as [|a l IH]; simpl; [by intros _ ?%elem_of_nil|].
  rewrite NoDup_cons. intros [Ha Hnd] [->|Hx]%elem_of_cons.
  - rewrite filter_cons_True by done. simpl. by rewrite filter_fmap_absent.
  - rewrite filter_cons_False; [by apply IH|].
    intros Heq. apply Ha. rewrite Heq. by apply list_elem_of_fmap_2.
Qed.

(** After [normalize_disease_data] on a new normaliser, every symptom of the
    result is recorded. *)
Lemma normalize_disease_data_recorded diseases_data :
  let out := normalize_disease_data isalnum __init__ diseases_data in
  ids_generated (unified_symptom_ids out.2)
  ∧ out.1.2 = unified_symptom_ids out.2
  ∧ diseases_recorded isalnum (unified_symptom_ids out.2) (symptom_to_diseases out.2) out.1.1.
Proof.
  unfold normalize_disease_data. simpl.
  set (ids := assign_ids _ _).
  assert (diseases_recorded isalnum ids ∅ []) as H0 by apply Forall_nil_2.
  pose proof (update_diseases_spec ids diseases_data [] ∅ H0) as H.
  destruct (fold_left _ diseases_data ([], ∅)) as [ds s2d]. simpl in *.
  split_and!; [|done|exact H].
  by apply assign_ids_generated.
Qed.

Lemma create_reverse_mapping_lookup self id :
  create_reverse_mapping self !! id
  = (fun diseases =>
       mkReverseEntry
         (fst <$> List.find (fun item => bool_decide (snd item = id)) (unified_symptom_ids self))
         (length (unique_diseases ∅ diseases)) (unique_diseases ∅ diseases))
    <$> symptom_to_diseases self !! id.
Proof.
  unfold create_reverse_mapping. rewrite map_lookup_imap.
  by destruct (symptom_to_diseases self !! id).
Qed.

(** C5: after the build ([normalize_disease_data] on a new normaliser, then
    [create_reverse_mapping]), every symptom of every disease of the
    normalised knowledge base carries the id generated from its normalised
    name, the reverse index has an entry under that id, and the disease's id
    occurs exactly once among the diseases of the entry; the diseases of
    every entry are those accumulated for the id with the later duplicates
    of a disease id dropped, and [disease_count] is their number. *)
Theorem reverse_index_round_trip (diseases_data : list KB.Disease) :
  let out := normalize_disease_data isalnum __init__ diseases_data in
  let reverse_index := create_reverse_mapping out.2 in
  (∀ disease symptom,
     disease ∈ out.1.1 →
     symptom ∈ KB.get (KB.symptom_list disease) [] →
     ∃ name entry,
       name = _normalize_symptom_name isalnum (KB.get (KB.symptom_name symptom) [])
       ∧ KB.normalized_name symptom = Some name
       ∧ KB.symptom_id symptom = Some (_generate_symptom_id name)
       ∧ reverse_index !! _generate_symptom_id name = Some entry
       ∧ length (filter (fun i => disease_id i = KB.disease_ID disease) (diseases entry)) = 1)
  ∧ (∀ id entry,
       reverse_index !! id = Some entry →
       disease_count entry = length (diseases entry)
       ∧ NoDup (disease_id <$> diseases entry)
       ∧ ∃ accumulated,
           symptom_to_diseases out.2 !! id = Some accumulated
           ∧ ∀ did,
               List.find (fun i => bool_decide (disease_id i = did)) (diseases entry)
               = List.find (fun i => bool_decide (disease_id i = did)) accumulated).
Proof.
  intros out reverse_index.
  destruct (normalize_disease_data_recorded diseases_data) as (Hgen & _ & Hrec).
  fold out in Hgen, Hrec. split.
  - intros disease symptom Hd Hs.
    unfold diseases_recorded in Hrec. rewrite Forall_forall in Hrec.
    specialize (Hrec _ Hd). rewrite Forall_forall in Hrec.
    destruct (Hrec _ Hs)
      as (name & id & Hnorm & Hname & Hid & Hget & l & info & Hl & Hin & Hdid).
    apply Hgen in Hget as ->.
    exists name. eexists. split_and!; [done | done | done | |].
    + unfold reverse_index. rewrite create_reverse_mapping_lookup, Hl. reflexivity.
    + simpl.
      pose proof (unique_diseases_find ∅ l (KB.disease_ID disease)) as Hfind.
      rewrite decide_False in Hfind by apply not_elem_of_empty.
      destruct (List.find _ l) as [i0|] eqn:E0.
      2:{ eapply find_none in E0; [|by apply list_elem_of_In].
          by rewrite bool_decide_true in E0. }
      apply find_some in Hfind as [Hi0 Heq0].
      apply bool_decide_eq_true in Heq0. rewrite <- Heq0.
      apply NoDup_fmap_count; [apply unique_diseases_NoDup | by apply list_elem_of_In].
  - intros id entry. unfold reverse_index. rewrite create_reverse_mapping_lookup.
    destruct (symptom_to_diseases out.2 !! id) as [l|] eqn:El; [|done].
    simpl. intros [= <-]. simpl. split_and!; [done | apply unique_diseases_NoDup |].
    exists l. split; [done|]. intros did.
    rewrite unique_diseases_find. by rewrite decide_False by apply not_elem_of_empty.
Qed.

End ReverseIndex.

(** ** The agent: what a turn stores in the profile *)

Section ProfileFacts.
Import Agent.

Lemma store_factors_lookup user_response families factors factor :
  store_factors user_response families factors !! factor
  = if existsb (fun '(f, keywords) =>
                  bool_decide (f = factor) && mentions user_response keywords) families
    then Some user_response
    else factors !! factor.
Proof.
  revert factors. induction families as [|[f keywords] families IH]; intros factors;
    [done|].
  unfold store_factors in *. cbn [fold_left existsb]. rewrite IH.
  destruct (existsb _ families); [by rewrite orb_true_r|]. rewrite orb_false_r.
  destruct (mentions user_response keywords); [|by rewrite andb_false_r].
  rewrite andb_true_r. case_bool_decide as Hf.
  - subst. by rewrite lookup_insert_eq.
  - by rewrite lookup_insert_ne.
Qed.

Lemma profile_eq p p' :
  frame p' = frame p →
  PatientProfile.lifestyle_factors p' = PatientProfile.lifestyle_factors p →
  p' = p.
Proof. destruct p, p'. unfold frame. simpl. by intros [= -> -> -> -> -> ->] ->. Qed.

Lemma store_profile user_response families p :
  let p' :=
    fold_left (fun profile '(factor, keywords) =>
        if existsb (fun keyword => str_in keyword user_response) keywords
        then PatientProfile.set_lifestyle_factor factor user_response profile
        else profile)
      families p in
  PatientProfile.lifestyle_factors p'
    = store_factors user_response families (PatientProfile.lifestyle_factors p)
  ∧ frame p' = frame p.
Proof.
  revert p. induction families as [|[factor keywords] families IH]; intros p;
    cbn [fold_left]; [done|].
  unfold store_factors, mentions in *. cbn [fold_left].
  destruct (existsb _ keywords).
  - destruct (IH (PatientProfile.set_lifestyle_factor factor user_response p)) as [-> ->].
    by destruct p.
  - apply IH.
Qed.

Lemma analyze_user_response_profile self user_response p :
  let p' := (COTCAgent.analyze_user_response self user_response p).2 in
  PatientProfile.lifestyle_factors p'
    = store_factors user_response COTCAgent.lifestyle_keywords
        (PatientProfile.lifestyle_factors p)
  ∧ frame p' = frame p.
Proof. exact (store_profile user_response COTCAgent.lifestyle_keywords p). Qed.

Lemma process_user_response_profile self user_response p :
  (COTCAgent.process_user_response self user_response p).2
  = PatientProfile.extend_confirmed_symptoms
      (COTCAgent.analyze_user_response self user_response p).1
      (COTCAgent.analyze_user_response self user_response p).2.
Proof.
  unfold COTCAgent.process_user_response.
  destruct (COTCAgent.analyze_user_response self user_response p) as [new p1].
  by destruct (COTCAgent.diagnose_or_ask _ _).
Qed.

Lemma process_user_query_profile self user_input p :
  (COTCAgent.process_user_query self user_input p).2
  = PatientProfile.extend_confirmed_symptoms
      (COTCAgent.extract_and_confirm_symptoms user_input p) p.
Proof.
  unfold COTCAgent.process_user_query. by destruct (COTCAgent.diagnose_or_ask _ _).
Qed.

Lemma lifestyle_factors_extend new p :
  PatientProfile.lifestyle_factors (PatientProfile.extend_confirmed_symptoms new p)
  = PatientProfile.lifestyle_factors p.
Proof. reflexivity. Qed.

Lemma confirmed_symptoms_extend new p :
  PatientProfile.confirmed_symptoms (PatientProfile.extend_confirmed_symptoms new p)
  = PatientProfile.confirmed_symptoms p ++ new.
Proof. reflexivity. Qed.

Lemma extend_confirmed_symptoms_nil p :
  PatientProfile.extend_confirmed_symptoms [] p = p.
Proof. destruct p. unfold PatientProfile.extend_confirmed_symptoms. simpl. by rewrite app_nil_r. Qed.

Lemma existsb_key_absent {A} (g : A → bool) (table : list (str * A)) (key : str) :
  key ∉ table.*1 →
  existsb (fun '(f, x) => bool_decide (f = key) && g x) table = false.
Proof.
  induction table as [|[f x] table IH]; [done|].
  cbn [fmap list_fmap fst existsb]. intros [Hf Hrest]%not_elem_of_cons.
  rewrite bool_decide_false by congruence. by rewrite IH.
Qed.

Lemma existsb_key {A} (g : A → bool) (table : list (str * A)) (key : str) (a : A) :
  NoDup table.*1 → (key, a) ∈ table →
  existsb (fun '(f, x) => bool_decide (f = key) && g x) table = g a.
Proof.
  induction table as [|[f x] table IH]; [by intros _ ?%elem_of_nil|].
  cbn [fmap list_fmap fst existsb]. intros [Hf Hnd]%NoDup_cons [[= -> ->]|Hin]%elem_of_cons.
  - rewrite bool_decide_true by done. rewrite existsb_key_absent by done.
    by rewrite orb_false_r.
  - rewrite bool_decide_false; [by rewrite IH|]. intros ->. apply Hf.
    apply list_elem_of_fmap. by exists (key, a).
Qed.

Lemma lifestyle_keywords_NoDup : NoDup COTCAgent.lifestyle_keywords.*1.
Proof. apply (bool_decide_eq_true_1 _). vm_compute. reflexivity. Qed.

(** C10: in [process_user_response], whether or not a symptom is
    confirmed, each of the four lifestyle families (压力, 饮食, 睡眠, 运动,
    with the keywords written out below) of which the utterance contains a
    keyword has the whole utterance stored under its name, whatever was
    stored there before; a family of which it contains none keeps what it
    had, and so does every other key; an utterance that contains no
    keyword leaves [lifestyle_factors] as it was. *)
Theorem lifestyle_factors_after_response
    (self : COTCAgent.t) (user_response : str) (p : PatientProfile.t) :
  let p' := (COTCAgent.process_user_response self user_response p).2 in
  let families :=
    [ (u "压力", [u "压力"; u "紧张"; u "焦虑"; u "工作"]);
      (u "饮食", [u "饮食"; u "吃"; u "食物"; u "油腻"]);
      (u "睡眠", [u "睡眠"; u "睡觉"; u "失眠"; u "休息"]);
      (u "运动", [u "运动"; u "锻炼"; u "活动"; u "走路"]) ] in
  (∀ factor keywords,
     (factor, keywords) ∈ families →
     PatientProfile.lifestyle_factors p' !! factor
     = if existsb (fun keyword => str_in keyword user_response) keywords
       then Some user_response
       else PatientProfile.lifestyle_factors p !! factor)
  ∧ (∀ key,
       key ∉ families.*1 →
       PatientProfile.lifestyle_factors p' !! key
       = PatientProfile.lifestyle_factors p !! key)
  ∧ ((∀ factor keywords keyword,
        (factor, keywords) ∈ families →
        keyword ∈ keywords →
        str_in keyword user_response = false) →
     PatientProfile.lifestyle_factors p' = PatientProfile.lifestyle_factors p).
Proof.
  intros p' families.
  assert (Hfamilies : families = COTCAgent.lifestyle_keywords) by reflexivity.
  clearbody families. subst families p'. rewrite process_user_response_profile.
  destruct (analyze_user_response_profile self user_response p) as [Hl _].
  rewrite lifestyle_factors_extend, Hl. split_and!.
  - intros factor keywords Hin. rewrite store_factors_lookup.
    by rewrite (existsb_key (mentions user_response) _ factor keywords
                  lifestyle_keywords_NoDup Hin).
  - intros key Hkey. rewrite store_factors_lookup. by rewrite existsb_key_absent.
  - intros Hnone. apply map_eq. intros factor. rewrite store_factors_lookup.
    destruct (existsb _ COTCAgent.lifestyle_keywords) eqn:E; [|done].
    apply existsb_exists in E as [[f keywords] [Hin [Hf Hm]%andb_true_iff]].
    apply existsb_exists in Hm as [keyword [Hk Hm]].
    rewrite (Hnone f keywords keyword) in Hm; [done | by apply list_elem_of_In..].
Qed.

End ProfileFacts.

(** C10, witness: an answer that holds the keywords "工作" and "压力" of
    the family 压力 and "睡觉" of the family 睡眠, to an agent without a focus
    disease, so that no symptom is confirmed. It is stored under both, over
    the value that 压力 had; 饮食 stays absent. *)
Lemma lifestyle_factors_after_response_witness :
  let user_response := u "我最近工作压力很大，睡觉也不好" in
  let p := Agent.PatientProfile.set_lifestyle_factor (u "压力") (u "还好") Agent.new_profile in
  let p' := (Agent.COTCAgent.process_user_response Agent.example_agent user_response p).2 in
  Agent.PatientProfile.lifestyle_factors p !! u "压力" = Some (u "还好")
  ∧ Agent.PatientProfile.lifestyle_factors p' !! u "压力" = Some user_response
  ∧ Agent.PatientProfile.lifestyle_factors p' !! u "睡眠" = Some user_response
  ∧ Agent.PatientProfile.lifestyle_factors p' !! u "饮食" = None
  ∧ Agent.PatientProfile.confirmed_symptoms p' = [].
Proof.
  intros user_response p p'. subst p'.
  pose proof (lifestyle_factors_after_response Agent.example_agent user_response p)
    as (Hfamily & _ & _).
  split_and!.
  - vm_compute. reflexivity.
  - rewrite (Hfamily (u "压力") [u "压力"; u "紧张"; u "焦虑"; u "工作"])
      by apply list_elem_of_here.
    vm_compute. reflexivity.
  - rewrite (Hfamily (u "睡眠") [u "睡眠"; u "睡觉"; u "失眠"; u "休息"])
      by apply list_elem_of_further, list_elem_of_further, list_elem_of_here.
    vm_compute. reflexivity.
  - rewrite (Hfamily (u "饮食") [u "饮食"; u "吃"; u "食物"; u "油腻"])
      by apply list_elem_of_further, list_elem_of_here.
    vm_compute. reflexivity.
  - vm_compute. reflexivity.
Defined.

(** ** The agent: a turn with nothing recognised *)

Section EmptyTurn.
Import Agent.

Lemma diagnose_or_ask_unconfirmed self p :
  PatientProfile.confirmed_symptoms p = [] →
  COTCAgent.diagnose_or_ask self p = (no_matches_response self, self).
Proof. unfold COTCAgent.diagnose_or_ask. by intros ->. Qed.

Lemma store_factors_keyword_free user_response factors :
  lifestyle_keyword_free (Answer user_response) →
  store_factors user_response COTCAgent.lifestyle_keywords factors = factors.
Proof.
  intros Hfree. apply map_eq. intros factor. rewrite store_factors_lookup.
  destruct (existsb _ COTCAgent.lifestyle_keywords) eqn:E; [|done].
  apply existsb_exists in E as [[f keywords] [Hin [_ Hm]%andb_true_iff]].
  apply existsb_exists in Hm as [keyword [Hk Hm]].
  rewrite (Hfree f keywords keyword) in Hm; [done | by apply list_elem_of_In..].
Qed.

(** C7, as amended: a turn that recognises no symptom, on a profile without
    confirmed symptoms, returns the ["no_matches"] response with the three
    generic questions and leaves the agent and [confirmed_symptoms] as they
    were; the whole profile is unchanged when the turn is a first query, or
    an answer that contains no lifestyle keyword. *)
Theorem unrecognized_turn (self : COTCAgent.t) (p : PatientProfile.t) (t : Turn) :
  PatientProfile.confirmed_symptoms p = [] →
  recognized self p t = [] →
  let out := turn self p t in
  out.1 = (no_matches_response self, self)
  ∧ PatientProfile.confirmed_symptoms out.2 = []
  ∧ frame out.2 = frame p
  ∧ (lifestyle_keyword_free t → out.2 = p).
Proof.
  intros Hp Hrec out. subst out.
  destruct t as [user_input|user_response]; cbn [recognized] in Hrec.
  - assert (Hout : turn self p (Query user_input) = (no_matches_response self, self, p)).
    { unfold turn, COTCAgent.process_user_query.
      rewrite Hrec, extend_confirmed_symptoms_nil.
      by rewrite diagnose_or_ask_unconfirmed. }
    rewrite Hout. by split_and!.
  - destruct (analyze_user_response_profile self user_response p) as [Hl Hf].
    remember (COTCAgent.analyze_user_response self user_response p) as r eqn:Er.
    destruct r as [new p1]. cbn [fst snd] in Hrec, Hl, Hf. subst new.
    assert (Hc : PatientProfile.confirmed_symptoms p1 = []).
    { unfold frame in Hf. injection Hf as _ _ _ _ Hc _. congruence. }
    assert (Hout : turn self p (Answer user_response)
                   = (no_matches_response self, self, p1)).
    { unfold turn, COTCAgent.process_user_response. rewrite <- Er.
      rewrite extend_confirmed_symptoms_nil.
      by rewrite diagnose_or_ask_unconfirmed. }
    rewrite Hout. cbn [fst snd]. split_and!; [done | done | done |].
    intros Hfree. apply profile_eq; [done|].
    by rewrite Hl, store_factors_keyword_free.
Qed.

End EmptyTurn.

(** C7, counterexample: on the new profile, the answer "我最近工作压力很大"
    confirms no symptom and gets the ["no_matches"] response, yet it is
    stored in the profile under "压力". *)
Lemma unrecognized_answer_changes_profile :
  let t := Agent.Answer (u "我最近工作压力很大") in
  let out := Agent.turn Agent.example_agent Agent.new_profile t in
  Agent.PatientProfile.confirmed_symptoms Agent.new_profile = []
  ∧ recognized Agent.example_agent Agent.new_profile t = []
  ∧ Agent.status out.1.1 = u "no_matches"
  ∧ Agent.PatientProfile.lifestyle_factors Agent.new_profile !! u "压力" = None
  ∧ Agent.PatientProfile.lifestyle_factors out.2 !! u "压力"
    = Some (u "我最近工作压力很大").
Proof. vm_compute. by split_and!. Qed.

(** C7, witness: the first query "你好" on the new profile. *)
Lemma unrecognized_turn_witness :
  let t := Agent.Query (u "你好") in
  let out := Agent.turn Agent.example_agent Agent.new_profile t in
  out.1 = (no_matches_response Agent.example_agent, Agent.example_agent)
  ∧ Agent.PatientProfile.confirmed_symptoms out.2 = []
  ∧ frame out.2 = frame Agent.new_profile
  ∧ (lifestyle_keyword_free t → out.2 = Agent.new_profile).
Proof.
  apply (unrecognized_turn Agent.example_agent Agent.new_profile (Agent.Query (u "你好"))).
  - reflexivity.
  - vm_compute. reflexivity.
Defined.

(** ** The agent: symptoms confirmed twice *)

(** C6 fails on the code: the first query "我头疼，头痛得厉害" on the new profile
    appends two entries named "头痛" to [confirmed_symptoms], whatever the
    knowledge base. Both keys "头疼" and "头痛" of [symptom_mapping] occur in
    the utterance, and the test that guards the [append] looks at the profile
    as it was before the turn. *)
Theorem query_confirms_symptom_twice (self : Agent.COTCAgent.t) :
  List.map Agent.SymptomMatch.symptom_name
    (Agent.PatientProfile.confirmed_symptoms
       (Agent.COTCAgent.process_user_query self (u "我头疼，头痛得厉害")
          Agent.new_profile).2)
  = [u "头痛"; u "头痛"].
Proof. rewrite process_user_query_profile. vm_compute. reflexivity. Qed.

(** ** The agent: the shape of a turn *)

Section TurnFacts.
Import Agent.

Lemma turn_unfold self p t :
  turn self p t
  = (COTCAgent.diagnose_or_ask self (profile_after self p t), profile_after self p t).
Proof.
  destruct t as [user_input|user_response]; unfold turn, profile_after.
  - unfold COTCAgent.process_user_query. by destruct (COTCAgent.diagnose_or_ask _ _).
  - unfold COTCAgent.process_user_response.
    destruct (COTCAgent.analyze_user_response self user_response p) as [new p1].
    cbn [fst snd]. by destruct (COTCAgent.diagnose_or_ask _ _).
Qed.

Lemma filter_nil_existsb {A} (f : A → bool) (l : list A) :
  List.filter f l = [] → existsb f l = false.
Proof.
  induction l as [|a l IH]; simpl; [done|].
  destruct (f a); [done | exact IH].
Qed.

Lemma filter_cons_existsb {A} (f : A → bool) (l : list A) x xs :
  List.filter f l = x :: xs → x ∈ l ∧ f x = true ∧ existsb f l = true.
Proof.
  intros E. assert (Hx : In x (List.filter f l)) by (rewrite E; by left).
  apply filter_In in Hx as [Hin Hf]. split_and!; [by apply list_elem_of_In | done |].
  apply existsb_exists. by exists x.
Qed.

(** The three outcomes of [diagnose_or_ask]. *)
Lemma diagnose_or_ask_cases self p :
  (∃ d, d ∈ candidates self p ∧ COTCAgent.is_perfect d = true
        ∧ existsb COTCAgent.is_perfect (candidates self p) = true
        ∧ COTCAgent.diagnose_or_ask self p
          = (COTCAgent.generate_final_diagnosis self d p, self))
  ∨ (candidates self p = []
     ∧ COTCAgent.diagnose_or_ask self p
       = (no_matches (COTCAgent.current_analysis_step self) (u "未找到匹配的疾病模式")
            COTCAgent.suggested_questions, self))
  ∨ (∃ d rest, candidates self p = d :: rest
       ∧ existsb COTCAgent.is_perfect (candidates self p) = false
       ∧ status (COTCAgent.diagnose_or_ask self p).1 = u "verification_needed"
       ∧ (COTCAgent.diagnose_or_ask self p).2
         = COTCAgent.set_current_disease_focus d self).
Proof.
  unfold COTCAgent.diagnose_or_ask. fold (candidates self p).
  destruct (List.filter COTCAgent.is_perfect (candidates self p)) as [|x xs] eqn:E.
  - right. pose proof (filter_nil_existsb _ _ E) as Hex.
    destruct (candidates self p) as [|d rest] eqn:Ec; [left; by split|].
    right. exists d, rest. split; [done|]. split; [done|].
    unfold COTCAgent.generate_verification_questions.
    simpl in Hex. apply orb_false_iff in Hex as [-> _]. by split.
  - left. exists x. destruct (filter_cons_existsb _ _ _ _ E) as (? & ? & ?). by split_and!.
Qed.

End TurnFacts.

(** ** Loading the knowledge base *)

Section Loading.
Import Agent.

Lemma fold_left_id {A B} (f : A → B → A) (l : list B) (a : A) :
  (∀ a b, f a b = a) → fold_left f l a = a.
Proof.
  intros Hf. revert a. induction l as [|b l IH]; intros a; cbn [fold_left]; [done|].
  by rewrite Hf.
Qed.

Lemma find_potential_diseases_empty_mapping db confirmed :
  DiseaseMatcher.find_potential_diseases (DiseaseMatcher.mk db ∅) confirmed = [].
Proof.
  unfold DiseaseMatcher.find_potential_diseases, DiseaseMatcher.count_confirmed.
  rewrite fold_left_id; [done|].
  intros scores s. cbn [DiseaseMatcher.symptom_to_diseases]. by rewrite lookup_empty.
Qed.

Lemma init_on_failure db_path e :
  KB.json_load db_path = inl e →
  DiseaseMatcher.__init__ db_path = DiseaseMatcher.mk (KB.mkDatabase (Some [])) ∅.
Proof.
  intros E. unfold DiseaseMatcher.__init__, DiseaseMatcher.load_disease_database.
  by rewrite E.
Qed.

(** C8, as amended: when the knowledge-base file is missing or unparseable,
    [load_disease_database] does not propagate the error: it logs it and
    returns the empty knowledge base, from which the matcher is built. On
    that matcher no disease is ever a candidate and every turn gets the
    ["no_matches"] response. [main] of the normaliser returns without
    building or writing anything. *)
Theorem load_failure_gives_empty_database (db_path : KB.file) (e : KB.exn) :
  KB.json_load db_path = inl e →
  DiseaseMatcher.load_disease_database db_path
    = (KB.mkDatabase (Some []), [DiseaseMatcher.error (u "加载疾病数据库失败: ") e])
  ∧ DiseaseMatcher.__init__ db_path = DiseaseMatcher.mk (KB.mkDatabase (Some [])) ∅
  ∧ (∀ confirmed,
       DiseaseMatcher.find_potential_diseases (DiseaseMatcher.__init__ db_path) confirmed
       = [])
  ∧ (∀ p t,
       (turn (COTCAgent.__init__ db_path) p t).1
       = (no_matches_response (COTCAgent.__init__ db_path), COTCAgent.__init__ db_path))
  ∧ (∀ isalnum, Normalizer.main isalnum db_path = None).
Proof.
  intros E. pose proof (init_on_failure _ _ E) as Hinit.
  assert (Hnone : ∀ confirmed,
    DiseaseMatcher.find_potential_diseases (DiseaseMatcher.__init__ db_path) confirmed = []).
  { intros confirmed. rewrite Hinit. apply find_potential_diseases_empty_mapping. }
  split_and!.
  - unfold DiseaseMatcher.load_disease_database. by rewrite E.
  - done.
  - done.
  - intros p t. rewrite turn_unfold. cbn [fst].
    destruct (diagnose_or_ask_cases (COTCAgent.__init__ db_path)
                (profile_after (COTCAgent.__init__ db_path) p t))
      as [(d & Hd & _) | [[_ ->] | (d & rest & Hd & _)]].
    + unfold candidates in Hd. cbn [COTCAgent.__init__ COTCAgent.disease_matcher] in Hd.
      rewrite Hnone in Hd. by apply elem_of_nil in Hd.
    + done.
    + unfold candidates in Hd. cbn [COTCAgent.__init__ COTCAgent.disease_matcher] in Hd.
      by rewrite Hnone in Hd.
  - intros isalnum. unfold Normalizer.main. by rewrite E.
Qed.

End Loading.

(** C8, counterexample: with no file at the path, [load_disease_database]
    returns a knowledge base, the empty one, and an agent is built on it. *)
Lemma missing_file_gives_a_database :
  Agent.DiseaseMatcher.load_disease_database KB.Missing
  = (KB.mkDatabase (Some []),
     [Agent.DiseaseMatcher.error (u "加载疾病数据库失败: ") KB.FileNotFoundError])
  ∧ Agent.COTCAgent.__init__ KB.Missing
    = Agent.COTCAgent.mk (Agent.DiseaseMatcher.mk (KB.mkDatabase (Some [])) ∅) 0 5 0 None.
Proof. split; reflexivity. Qed.

(** C8, witness: the missing file. *)
Lemma load_failure_gives_empty_database_witness :
  Agent.DiseaseMatcher.load_disease_database KB.Missing
    = (KB.mkDatabase (Some []),
       [Agent.DiseaseMatcher.error (u "加载疾病数据库失败: ") KB.FileNotFoundError])
  ∧ Agent.DiseaseMatcher.__init__ KB.Missing
    = Agent.DiseaseMatcher.mk (KB.mkDatabase (Some [])) ∅
  ∧ (∀ confirmed,
       Agent.DiseaseMatcher.find_potential_diseases
         (Agent.DiseaseMatcher.__init__ KB.Missing) confirmed = [])
  ∧ (∀ p t,
       (Agent.turn (Agent.COTCAgent.__init__ KB.Missing) p t).1
       = (no_matches_response (Agent.COTCAgent.__init__ KB.Missing),
          Agent.COTCAgent.__init__ KB.Missing))
  ∧ (∀ isalnum, Normalizer.main isalnum KB.Missing = None).
Proof.
  apply (load_failure_gives_empty_database KB.Missing KB.FileNotFoundError).
  reflexivity.
Defined.

(** ** The agent: diagnosis and the course of a dialogue *)

Section Diagnosis.
Import Agent.

Lemma is_perfect_iff d :
  COTCAgent.is_perfect d = true ↔ (100 <= DiseaseMatchProgress.match_percentage d)%Q.
Proof. unfold COTCAgent.is_perfect. apply Qle_bool_iff. Qed.

(** [generate_lifestyle_advice] returns, in the order of its four tests,
    the advice of every factor that is a key of the dict. *)
Lemma lifestyle_advice_filter (lifestyle_factors : gmap str str) :
  COTCAgent.generate_lifestyle_advice lifestyle_factors
  = List.map snd
      (List.filter (fun advice : str * str => bool_decide (is_Some (lifestyle_factors !! advice.1)))
         [(u "压力", u "建议适当减压，保持心情愉快");
          (u "饮食", u "注意饮食规律，避免刺激性食物");
          (u "睡眠", u "保持规律作息，确保充足睡眠");
          (u "运动", u "适当运动，增强体质")]).
Proof.
  unfold COTCAgent.generate_lifestyle_advice.
  generalize (u "建议适当减压，保持心情愉快"), (u "注意饮食规律，避免刺激性食物"),
    (u "保持规律作息，确保充足睡眠"), (u "适当运动，增强体质"),
    (u "压力"), (u "饮食"), (u "睡眠"), (u "运动").
  intros l1 l2 l3 l4 f1 f2 f3 f4. cbn [List.filter fst].
  destruct (bool_decide (is_Some (lifestyle_factors !! f1)));
    destruct (bool_decide (is_Some (lifestyle_factors !! f2)));
    destruct (bool_decide (is_Some (lifestyle_factors !! f3)));
    destruct (bool_decide (is_Some (lifestyle_factors !! f4))); reflexivity.
Qed.

(** C3: in a turn, a first query or an answer, if some candidate scored on
    the profile as the turn leaves it has a match percentage of at least 100,
    then the response is ["diagnosis_complete"] for a candidate [d] with such
    a percentage: it carries the name of [d], the confidence "high", the
    name of every entry of the profile's [confirmed_symptoms] that is marked
    confirmed, in the order of the profile, the reasoning text with the name
    of [d], the three static recommendations, and the advice of the
    lifestyle factors that the profile holds. Such a response has no
    question in it. *)
Theorem perfect_match_is_diagnosed
    (self : COTCAgent.t) (p : PatientProfile.t) (t : Turn) :
  let out := turn self p t in
  let progress := candidates self out.2 in
  (∃ d, d ∈ progress ∧ (100 <= DiseaseMatchProgress.match_percentage d)%Q) →
  ∃ d,
    d ∈ progress
    ∧ (100 <= DiseaseMatchProgress.match_percentage d)%Q
    ∧ out.1.1
      = diagnosis_complete (COTCAgent.current_analysis_step self)
          (Diagnosis.mk (DiseaseMatchProgress.disease_name d) (u "high")
             (DiseaseMatchProgress.match_percentage d)
             (List.map SymptomMatch.symptom_name
                (List.filter SymptomMatch.is_confirmed
                             (PatientProfile.confirmed_symptoms out.2)))
             (u "基于症状分析，您患有" ++ DiseaseMatchProgress.disease_name d
                ++ u "的概率很高"))
          [u "建议尽快就医确诊并接受治疗"; u "密切观察症状变化";
           u "如有症状加重，及时就医"]
          (List.map snd
             (List.filter
                (fun advice : str * str =>
                   bool_decide (is_Some (PatientProfile.lifestyle_factors out.2 !! advice.1)))
                [(u "压力", u "建议适当减压，保持心情愉快");
                 (u "饮食", u "注意饮食规律，避免刺激性食物");
                 (u "睡眠", u "保持规律作息，确保充足睡眠");
                 (u "运动", u "适当运动，增强体质")])).
Proof.
  intros out progress. subst out progress. rewrite turn_unfold. cbn [fst snd].
  intros (d0 & Hd0 & Hp0).
  destruct (diagnose_or_ask_cases self (profile_after self p t))
    as [(d & Hd & Hp & _ & ->) | [[Hnil _] | (d & rest & _ & Hex & _)]].
  - exists d. split_and!; [done | by apply is_perfect_iff |].
    unfold COTCAgent.generate_final_diagnosis. by rewrite lifestyle_advice_filter.
  - rewrite Hnil in Hd0. by apply elem_of_nil in Hd0.
  - apply not_true_iff_false in Hex. exfalso. apply Hex.
    apply existsb_exists. exists d0. split; [by apply list_elem_of_In|].
    by apply is_perfect_iff.
Qed.

Lemma diagnose_or_ask_with_rounds self p max_rounds round :
  (COTCAgent.diagnose_or_ask (with_rounds max_rounds round self) p).1
  = (COTCAgent.diagnose_or_ask self p).1.
Proof.
  destruct self as [matcher step max_r r focus].
  unfold COTCAgent.diagnose_or_ask, with_rounds.
  cbn [COTCAgent.disease_matcher COTCAgent.current_analysis_step
       COTCAgent.current_disease_focus].
  destruct (List.filter _ _) as [|x xs]; [|done].
  destruct (DiseaseMatcher.find_potential_diseases _ _) as [|d rest]; [done|].
  unfold COTCAgent.generate_verification_questions. cbn [COTCAgent.set_current_disease_focus].
  by destruct (COTCAgent.is_perfect d).
Qed.

Lemma analyze_user_response_with_rounds self user_response p max_rounds round :
  COTCAgent.analyze_user_response (with_rounds max_rounds round self) user_response p
  = COTCAgent.analyze_user_response self user_response p.
Proof. by destruct self. Qed.

Lemma profile_after_with_rounds self p t max_rounds round :
  profile_after (with_rounds max_rounds round self) p t = profile_after self p t.
Proof.
  destruct t as [|user_response]; [done|]. unfold profile_after.
  by rewrite analyze_user_response_with_rounds.
Qed.

(** C1, as amended: the outcome of a turn is decided by the scores alone.
    The response is ["diagnosis_complete"] when a candidate has a match
    percentage of at least 100, ["no_matches"] when there is no candidate and
    ["verification_needed"] otherwise; [max_verification_rounds] keeps its
    value, and neither the response nor the profile depends on
    [max_verification_rounds] or on [verification_round]: no number of turns
    forces a terminal state. *)
Theorem turn_outcome (self : COTCAgent.t) (p : PatientProfile.t) (t : Turn) :
  let out := turn self p t in
  let progress := candidates self out.2 in
  status out.1.1
    = (if existsb COTCAgent.is_perfect progress then u "diagnosis_complete"
       else if bool_decide (progress = []) then u "no_matches"
       else u "verification_needed")
  ∧ COTCAgent.max_verification_rounds out.1.2 = COTCAgent.max_verification_rounds self
  ∧ ∀ max_rounds round,
      let out' := turn (with_rounds max_rounds round self) p t in
      out'.1.1 = out.1.1 ∧ out'.2 = out.2.
Proof.
  intros out progress. subst out progress. rewrite turn_unfold. cbn [fst snd].
  split_and!.
  - destruct (diagnose_or_ask_cases self (profile_after self p t))
      as [(d & _ & _ & -> & ->) | [[Hnil ->] | (d & rest & Hd & -> & -> & _)]].
    + done.
    + by rewrite Hnil.
    + by rewrite Hd.
  - destruct (diagnose_or_ask_cases self (profile_after self p t))
      as [(d & _ & _ & _ & ->) | [[_ ->] | (d & rest & _ & _ & _ & ->)]]; done.
  - intros max_rounds round. rewrite turn_unfold. cbn [fst snd].
    rewrite profile_after_with_rounds. split; [|done].
    apply diagnose_or_ask_with_rounds.
Qed.

End Diagnosis.

(** C3, witness: on a knowledge base whose disease "偏头痛" has the symptoms
    "头痛" and "失眠", the query "我头疼，还失眠" confirms both: the diagnosis
    lists the two names and, the profile holding no lifestyle factor, no
    advice. *)
Lemma perfect_match_is_diagnosed_witness :
  let out := Agent.turn Agent.example_agent Agent.new_profile
               (Agent.Query (u "我头疼，还失眠")) in
  let progress := candidates Agent.example_agent out.2 in
  ∃ d,
    d ∈ progress
    ∧ (100 <= Agent.DiseaseMatchProgress.match_percentage d)%Q
    ∧ out.1.1
      = Agent.diagnosis_complete 0
          (Agent.Diagnosis.mk (Agent.DiseaseMatchProgress.disease_name d) (u "high")
             (Agent.DiseaseMatchProgress.match_percentage d)
             [u "头痛"; u "失眠"]
             (u "基于症状分析，您患有" ++ Agent.DiseaseMatchProgress.disease_name d
                ++ u "的概率很高"))
          [u "建议尽快就医确诊并接受治疗"; u "密切观察症状变化";
           u "如有症状加重，及时就医"]
          [].
Proof.
  assert (H : let out := Agent.turn Agent.example_agent Agent.new_profile
                           (Agent.Query (u "我头疼，还失眠")) in
              ∃ d, d ∈ candidates Agent.example_agent out.2
                   ∧ (100 <= Agent.DiseaseMatchProgress.match_percentage d)%Q).
  { exists (Agent.DiseaseMatchProgress.mk (u "D001") (u "偏头痛") 2 2 (200 # 2) [] [] []).
    split.
    - apply list_elem_of_In. vm_compute. left. reflexivity.
    - vm_compute. discriminate. }
  pose proof (perfect_match_is_diagnosed Agent.example_agent Agent.new_profile
                (Agent.Query (u "我头疼，还失眠")) H) as W.
  vm_compute in W. vm_compute. exact W.
Defined.

(** C1, counterexample: a first query and six answers, seven turns in
    all, every one of them answered ["verification_needed"]; the agent's
    [verification_round] is still 0 and [max_verification_rounds] is 5. *)
Lemma seven_turns_without_terminal_state :
  let turns :=
    [Agent.Query (u "我头疼"); Agent.Answer (u "不清楚"); Agent.Answer (u "不清楚");
     Agent.Answer (u "不清楚"); Agent.Answer (u "不清楚"); Agent.Answer (u "不清楚");
     Agent.Answer (u "不清楚")] in
  let out := Agent.dialogue Agent.example_agent Agent.new_profile turns in
  List.map Agent.status out.1.1 = repeat (u "verification_needed") 7
  ∧ Agent.COTCAgent.verification_round out.1.2 = 0
  ∧ Agent.COTCAgent.max_verification_rounds out.1.2 = 5.
Proof. vm_compute. by split_and!. Qed.

Lemma dialogue_repeat self p t r (n : nat) :
  Agent.turn self p t = (r, self, p) →
  Agent.dialogue self p (repeat t n) = (repeat r n, self, p).
Proof.
  intros Hturn. induction n as [|n IH]; [done|].
  cbn [repeat Agent.dialogue]. by rewrite Hturn, IH.
Qed.

(** The same dialogue with any number of answers: the answer "不清楚" leaves
    the agent and the profile as the first query left them, so the state
    repeats and the session stays in ["verification_needed"] for ever. *)
Lemma dialogue_of_any_length_stays_open (n : nat) :
  let turns := Agent.Query (u "我头疼") :: repeat (Agent.Answer (u "不清楚")) n in
  List.map Agent.status
    (Agent.dialogue Agent.example_agent Agent.new_profile turns).1.1
  = repeat (u "verification_needed") (S n).
Proof.
  intros turns. subst turns. cbn [Agent.dialogue].
  set (out0 := Agent.turn Agent.example_agent Agent.new_profile (Agent.Query (u "我头疼"))).
  assert (Hr0 : Agent.status out0.1.1 = u "verification_needed")
    by (vm_compute; reflexivity).
  assert (E1 : ∃ r1, Agent.status r1 = u "verification_needed"
                     ∧ Agent.turn out0.1.2 out0.2 (Agent.Answer (u "不清楚"))
                       = (r1, out0.1.2, out0.2)).
  { eexists. split; [|vm_compute; reflexivity]. vm_compute. reflexivity. }
  clearbody out0. destruct out0 as [[r0 a1] p1]. cbn [fst snd] in Hr0, E1.
  destruct E1 as (r1 & Hr1 & E1).
  rewrite (dialogue_repeat _ _ _ _ n E1). cbn [fst snd List.map repeat].
  rewrite Hr0. f_equal. clear -Hr1. induction n as [|n IH]; [done|].
  cbn [repeat List.map]. by rewrite Hr1, IH.
Qed.

(** ** The matcher: scores only grow *)

Section Scoring.
Import Agent.

Implicit Types (scores : list (str * DiseaseMatcher.Score)).

Lemma fold_left_invariant {A B} (P : A → Prop) (f : A → B → A) (l : list B) (a : A) :
  P a → (∀ a b, b ∈ l → P a → P (f a b)) → P (fold_left f l a).
Proof.
  revert a. induction l as [|b l IH]; intros a Ha Hf; cbn [fold_left]; [done|].
  apply IH.
  - apply Hf; [by left | done].
  - intros a' b' Hb'. apply Hf. by right.
Qed.

Lemma grows_refl scores : grows scores scores.
Proof. intros did n H. by exists n. Qed.

Lemma grows_trans scores1 scores2 scores3 :
  grows scores1 scores2 → grows scores2 scores3 → grows scores1 scores3.
Proof.
  intros H12 H23 did n H. destruct (H12 _ _ H) as (n2 & H2 & ?).
  destruct (H23 _ _ H2) as (n3 & H3 & ?). exists n3. split; [done | lia].
Qed.

Lemma add_confirmation_other x scores info did :
  DiseaseMatcher.disease_id info ≠ did →
  PyDict.get did (DiseaseMatcher.add_confirmation x scores info) = PyDict.get did scores.
Proof. intros Hne. unfold DiseaseMatcher.add_confirmation. by rewrite dict_get_set_ne. Qed.

Lemma add_confirmation_grows x scores info :
  grows scores (DiseaseMatcher.add_confirmation x scores info).
Proof.
  intros did n H. unfold confirmed_count in *.
  destruct (decide (DiseaseMatcher.disease_id info = did)) as [<-|Hne].
  - unfold DiseaseMatcher.add_confirmation. rewrite dict_get_set_eq.
    destruct (PyDict.get _ scores) as [e|]; [|done].
    simpl in *. injection H as <-. eexists. split; [done|]. rewrite length_app. lia.
  - rewrite add_confirmation_other by done. by exists n.
Qed.

Lemma add_confirmation_NoDup x scores info :
  NoDup (PyDict.keys scores) →
  NoDup (PyDict.keys (DiseaseMatcher.add_confirmation x scores info)).
Proof. apply dict_NoDup_set. Qed.

Lemma count_confirmed_app self confirmed x :
  DiseaseMatcher.count_confirmed self (confirmed ++ [x])
  = count_one self (DiseaseMatcher.count_confirmed self confirmed) x.
Proof. unfold DiseaseMatcher.count_confirmed. by rewrite fold_left_app. Qed.

Lemma count_one_grows self scores x : grows scores (count_one self scores x).
Proof.
  unfold count_one. destruct (_ !! _) as [infos|]; [|apply grows_refl].
  destruct (SymptomMatch.is_confirmed x); [|apply grows_refl].
  apply (fold_left_invariant (grows scores)); [apply grows_refl|].
  intros scores' info _ H. eapply grows_trans; [exact H | apply add_confirmation_grows].
Qed.

Lemma count_one_other self scores x did :
  (∀ infos info,
     DiseaseMatcher.symptom_to_diseases self !! SymptomMatch.symptom_name x = Some infos →
     info ∈ infos → DiseaseMatcher.disease_id info ≠ did) →
  PyDict.get did (count_one self scores x) = PyDict.get did scores.
Proof.
  intros Hother. unfold count_one. destruct (_ !! _) as [infos|]; [|done].
  destruct (SymptomMatch.is_confirmed x); [|done].
  apply (fold_left_invariant (fun scores' => PyDict.get did scores' = PyDict.get did scores));
    [done|].
  intros scores' info Hin <-. apply add_confirmation_other. by eapply Hother.
Qed.

Lemma count_one_NoDup self scores x :
  NoDup (PyDict.keys scores) → NoDup (PyDict.keys (count_one self scores x)).
Proof.
  intros Hnd. unfold count_one. destruct (_ !! _) as [infos|]; [|done].
  destruct (SymptomMatch.is_confirmed x); [|done].
  apply (fold_left_invariant (fun scores' => NoDup (PyDict.keys scores'))); [done|].
  intros scores' info _. apply add_confirmation_NoDup.
Qed.

Lemma count_confirmed_NoDup self confirmed :
  NoDup (PyDict.keys (DiseaseMatcher.count_confirmed self confirmed)).
Proof.
  unfold DiseaseMatcher.count_confirmed.
  apply (fold_left_invariant (fun scores => NoDup (PyDict.keys scores))).
  - apply NoDup_nil_2.
  - intros scores x _. apply (count_one_NoDup self scores x).
Qed.

Lemma progress_ids self scores :
  DiseaseMatchProgress.disease_id
    <$> List.map DiseaseMatcher.progress_of (DiseaseMatcher.attach_symptoms self scores)
  = PyDict.keys scores.
Proof.
  induction scores as [|[k e] scores IH]; [done|].
  cbn. f_equal. exact IH.
Qed.

Lemma find_progress self scores did :
  List.find (has_id did)
    (List.map DiseaseMatcher.progress_of (DiseaseMatcher.attach_symptoms self scores))
  = progress_entry self did <$> PyDict.get did scores.
Proof.
  induction scores as [|[k e] scores IH]; [done|].
  cbn [DiseaseMatcher.attach_symptoms List.map List.find PyDict.get].
  unfold has_id at 1. cbn [DiseaseMatcher.progress_of DiseaseMatchProgress.disease_id].
  destruct (decide (k = did)) as [->|Hne].
  - by rewrite bool_decide_true.
  - rewrite bool_decide_false by done. exact IH.
Qed.

Lemma insert_desc_perm x l : DiseaseMatcher.insert_desc x l ≡ₚ x :: l.
Proof.
  induction l as [|y l IH]; simpl; [done|].
  destruct (Qle_bool _ _); [done|]. rewrite IH. apply Permutation_swap.
Qed.

Lemma sort_desc_perm l : DiseaseMatcher.sort_desc l ≡ₚ l.
Proof.
  unfold DiseaseMatcher.sort_desc. induction l as [|x l IH]; simpl; [done|].
  by rewrite insert_desc_perm, IH.
Qed.

Lemma find_has_id_unique did l d :
  NoDup (DiseaseMatchProgress.disease_id <$> l) →
  d ∈ l → DiseaseMatchProgress.disease_id d = did →
  List.find (has_id did) l = Some d.
Proof.
  intros Hnd Hd Hid. destruct (List.find (has_id did) l) as [d'|] eqn:E.
  - apply find_some in E as [Hd' Hid']. apply bool_decide_eq_true in Hid'.
    f_equal. eapply NoDup_fmap_inj_on; [exact Hnd | by apply list_elem_of_In | done |].
    congruence.
  - eapply find_none in E; [|by apply list_elem_of_In].
    unfold has_id in E. by rewrite bool_decide_true in E.
Qed.

Lemma find_has_id_perm did l l' :
  NoDup (DiseaseMatchProgress.disease_id <$> l) → l ≡ₚ l' →
  List.find (has_id did) l' = List.find (has_id did) l.
Proof.
  intros Hnd Hperm. destruct (List.find (has_id did) l) as [d|] eqn:E.
  - apply find_some in E as [Hd Hid]. apply bool_decide_eq_true in Hid.
    apply find_has_id_unique; [by rewrite <- Hperm | | done].
    rewrite <- Hperm. by apply list_elem_of_In.
  - destruct (List.find (has_id did) l') as [d'|] eqn:E'; [|done].
    apply find_some in E' as [Hd' Hid'].
    eapply find_none in E; [|apply list_elem_of_In; rewrite Hperm; by apply list_elem_of_In].
    congruence.
Qed.

(** The entry that [find_potential_diseases] has for a disease id. *)
Lemma find_potential_diseases_entry self confirmed did :
  List.find (has_id did) (DiseaseMatcher.find_potential_diseases self confirmed)
  = progress_entry self did <$> PyDict.get did (DiseaseMatcher.count_confirmed self confirmed).
Proof.
  unfold DiseaseMatcher.find_potential_diseases.
  rewrite (find_has_id_perm did
             (List.map DiseaseMatcher.progress_of
                (DiseaseMatcher.attach_symptoms self
                   (DiseaseMatcher.count_confirmed self confirmed)))).
  - apply find_progress.
  - rewrite progress_ids. apply count_confirmed_NoDup.
  - symmetry. apply sort_desc_perm.
Qed.

Lemma score_of_count self confirmed did :
  score_of self confirmed did
  = (fun n => DiseaseMatcher.percentage n
                (length (DiseaseMatcher.get_disease_symptoms self did)))
    <$> confirmed_count (DiseaseMatcher.count_confirmed self confirmed) did.
Proof.
  unfold score_of, confirmed_count.
  change (fun d => bool_decide (DiseaseMatchProgress.disease_id d = did)) with (has_id did).
  rewrite find_potential_diseases_entry.
  by destruct (PyDict.get did _).
Qed.

Lemma percentage_mono n n' total :
  n ≤ n' → (DiseaseMatcher.percentage n total <= DiseaseMatcher.percentage n' total)%Q.
Proof.
  intros Hle. unfold DiseaseMatcher.percentage.
  destruct (0 <? total)%nat; [|apply Qle_refl].
  apply Qmult_le_compat_r; [|done].
  unfold Qle. simpl. apply Z.mul_le_mono_nonneg_r; lia.
Qed.

(** [build_symptom_mapping] stores a disease id under a symptom name only
    when a record of the knowledge base with that id lists the name. *)
Lemma build_symptom_mapping_sound db name did :
  mapped (DiseaseMatcher.build_symptom_mapping db) name did →
  ∃ d s,
    d ∈ KB.get (KB.disease_ku db) []
    ∧ s ∈ KB.get (KB.symptom_list d) []
    ∧ KB.get (KB.symptom_name s) [] = name
    ∧ KB.get (KB.disease_ID d) [] = did.
Proof.
  revert name did. unfold DiseaseMatcher.build_symptom_mapping.
  apply (fold_left_invariant (fun m => ∀ name did, mapped m name did →
    ∃ d s, d ∈ KB.get (KB.disease_ku db) [] ∧ s ∈ KB.get (KB.symptom_list d) []
           ∧ KB.get (KB.symptom_name s) [] = name ∧ KB.get (KB.disease_ID d) [] = did)).
  - intros name did (infos & info & H & _). by rewrite lookup_empty in H.
  - intros m d Hd Hm. unfold DiseaseMatcher.map_disease.
    apply fold_left_invariant; [done|].
    intros m' s Hs Hm'. unfold DiseaseMatcher.map_symptom.
    case_bool_decide as Hname; [done|].
    intros name did (infos & info & Hinfos & Hin & Hid).
    destruct (decide (KB.get (KB.symptom_name s) [] = name)) as [<-|Hne].
    + rewrite lookup_insert_eq in Hinfos. injection Hinfos as <-.
      apply elem_of_app in Hin as [Hin|Hin].
      * destruct (m' !! _) as [l|] eqn:El; simpl in Hin.
        -- apply Hm'. by exists l, info.
        -- by apply elem_of_nil in Hin.
      * apply list_elem_of_singleton in Hin as ->. by exists d, s.
    + rewrite lookup_insert_ne in Hinfos by done. apply Hm'. by exists infos, info.
Qed.

Lemma fold_left_establish {A B} (P : A → Prop) (f : A → B → A) (l : list B) (a : A) b :
  b ∈ l → (∀ a, P (f a b)) → (∀ a b', P a → P (f a b')) → P (fold_left f l a).
Proof.
  intros Hb Hest Hpres. revert a.
  induction l as [|b0 l IH]; intros a; [by apply elem_of_nil in Hb|].
  cbn [fold_left]. apply elem_of_cons in Hb as [<-|Hb].
  - apply fold_left_invariant; [apply Hest|]. intros a' b' _. apply Hpres.
  - by apply IH.
Qed.

Lemma map_symptom_preserves d m s name did :
  mapped m name did → mapped (DiseaseMatcher.map_symptom d m s) name did.
Proof.
  intros (infos & info & Hinfos & Hin & Hid). unfold DiseaseMatcher.map_symptom.
  case_bool_decide; [by exists infos, info|].
  destruct (decide (KB.get (KB.symptom_name s) [] = name)) as [<-|Hne].
  - eexists _, info. rewrite lookup_insert_eq, Hinfos. split_and!; [done | | done].
    apply elem_of_app. by left.
  - exists infos, info. by rewrite lookup_insert_ne.
Qed.

Lemma map_disease_preserves m d name did :
  mapped m name did → mapped (DiseaseMatcher.map_disease m d) name did.
Proof.
  intros Hm. unfold DiseaseMatcher.map_disease.
  apply fold_left_invariant; [done|]. intros m' s _. apply map_symptom_preserves.
Qed.

(** [build_symptom_mapping] stores the id of every record under every
    non-empty symptom name that the record lists. *)
Lemma build_symptom_mapping_complete db d s :
  d ∈ KB.get (KB.disease_ku db) [] →
  s ∈ KB.get (KB.symptom_list d) [] →
  KB.get (KB.symptom_name s) [] ≠ [] →
  mapped (DiseaseMatcher.build_symptom_mapping db)
    (KB.get (KB.symptom_name s) []) (KB.get (KB.disease_ID d) []).
Proof.
  intros Hd Hs Hname. unfold DiseaseMatcher.build_symptom_mapping.
  set (stored := fun m => mapped m (KB.get (KB.symptom_name s) []) (KB.get (KB.disease_ID d) [])).
  apply (fold_left_establish stored _ _ _ d Hd);
    [|intros m d'; apply map_disease_preserves].
  intros m. unfold DiseaseMatcher.map_disease.
  apply (fold_left_establish stored _ _ _ s Hs);
    [|intros m' s'; apply map_symptom_preserves].
  intros m'. unfold stored. unfold DiseaseMatcher.map_symptom. rewrite bool_decide_false by done.
  eexists _, (DiseaseMatcher.mkInfo _ _). rewrite lookup_insert_eq.
  split_and!; [done | | done]. apply elem_of_app. right. by apply list_elem_of_singleton.
Qed.

Lemma add_confirmation_counted x scores info did :
  is_Some (PyDict.get did scores) ∨ DiseaseMatcher.disease_id info = did →
  is_Some (PyDict.get did (DiseaseMatcher.add_confirmation x scores info)).
Proof.
  intros H. destruct (decide (DiseaseMatcher.disease_id info = did)) as [<-|Hne].
  - unfold DiseaseMatcher.add_confirmation. rewrite dict_get_set_eq. by eexists.
  - rewrite add_confirmation_other by done. by destruct H.
Qed.

(** A confirmed symptom makes a candidate of every disease stored under its
    name. *)
Lemma count_one_counted self scores x did :
  SymptomMatch.is_confirmed x = true →
  mapped (DiseaseMatcher.symptom_to_diseases self) (SymptomMatch.symptom_name x) did →
  is_Some (PyDict.get did (count_one self scores x)).
Proof.
  intros Hx (infos & info & Hinfos & Hin & Hid). unfold count_one.
  rewrite Hinfos, Hx.
  apply (fold_left_establish (fun scores' => is_Some (PyDict.get did scores')) _ _ _ info Hin).
  - intros scores'. apply add_confirmation_counted. by right.
  - intros scores' info' H. apply add_confirmation_counted. by left.
Qed.

(** C4: adding a symptom [x] to the confirmed list never lowers the match
    percentage that [find_potential_diseases] computes for a disease, and
    leaves it as it was when no record of the knowledge base with the
    disease's id lists the name of [x] (that the symptom list of the
    disease, which is the list of the first record with the id, does not
    contain it is not enough); when [x] is confirmed and a record with the
    disease's id lists its (non-empty) name, the disease has a match
    percentage afterwards. *)
Theorem scoring_monotone (db : KB.Database) (confirmed : list SymptomMatch.t)
    (x : SymptomMatch.t) (did : str) :
  let self := DiseaseMatcher.mk db (DiseaseMatcher.build_symptom_mapping db) in
  (∀ p, score_of self confirmed did = Some p →
        ∃ p', score_of self (confirmed ++ [x]) did = Some p' ∧ (p <= p')%Q)
  ∧ ((∀ d s,
        d ∈ KB.get (KB.disease_ku db) [] →
        KB.get (KB.disease_ID d) [] = did →
        s ∈ KB.get (KB.symptom_list d) [] →
        KB.get (KB.symptom_name s) [] ≠ SymptomMatch.symptom_name x) →
     score_of self (confirmed ++ [x]) did = score_of self confirmed did)
  ∧ (∀ d s,
       d ∈ KB.get (KB.disease_ku db) [] →
       KB.get (KB.disease_ID d) [] = did →
       s ∈ KB.get (KB.symptom_list d) [] →
       KB.get (KB.symptom_name s) [] = SymptomMatch.symptom_name x →
       SymptomMatch.symptom_name x ≠ [] →
       SymptomMatch.is_confirmed x = true →
       is_Some (score_of self (confirmed ++ [x]) did)).
Proof.
  intros self. split_and!.
  - intros p. rewrite !score_of_count, count_confirmed_app.
    destruct (confirmed_count (DiseaseMatcher.count_confirmed self confirmed) did)
      as [n|] eqn:En; [|done].
    intros [= <-].
    destruct (count_one_grows self _ x did n En) as (n' & -> & Hle).
    eexists. split; [done|]. by apply percentage_mono.
  - intros Hnot. rewrite !score_of_count, count_confirmed_app.
    unfold confirmed_count. rewrite count_one_other; [done|].
    intros infos info Hinfos Hin Hid.
    destruct (build_symptom_mapping_sound db (SymptomMatch.symptom_name x) did)
      as (d & s & Hd & Hs & Hname & Hdid); [by exists infos, info|].
    by eapply Hnot.
  - intros d s Hd Hid Hs Hname Hne Hx.
    rewrite score_of_count, count_confirmed_app. unfold confirmed_count.
    destruct (count_one_counted self (DiseaseMatcher.count_confirmed self confirmed) x did Hx)
      as [e ->]; [|by eexists].
    subst did. rewrite <- Hname. apply build_symptom_mapping_complete; [done | done |].
    by rewrite Hname.
Qed.

End Scoring.

(** C4, counterexample: two records carry the id "N1", the first lists
    "头痛" and the second "恶心". The symptom list of "N1" is that of the
    first record and does not contain "恶心"; confirming "恶心" after "头痛"
    moves the match percentage of "N1" from 100 to 200. *)
Lemma second_record_changes_score :
  let db := KB.mkDatabase (Some
              [KB.mkDisease (Some (u "N1")) (Some (u "偏头痛"))
                 (Some [Agent.example_symptom (u "头痛")]);
               KB.mkDisease (Some (u "N1")) (Some (u "偏头痛"))
                 (Some [Agent.example_symptom (u "恶心")])]) in
  let self := Agent.DiseaseMatcher.mk db (Agent.DiseaseMatcher.build_symptom_mapping db) in
  let toutong := Agent.SymptomMatch.mk (u "头痛") true (u "user_input") 1 in
  let exin := Agent.SymptomMatch.mk (u "恶心") true (u "user_confirmation") 1 in
  Agent.DiseaseMatcher.get_disease_symptoms self (u "N1") = [u "头痛"]
  ∧ Agent.score_of self [toutong] (u "N1") = Some (100 # 1)
  ∧ Agent.score_of self [toutong; exin] (u "N1") = Some (200 # 1).
Proof. vm_compute. by split_and!. Qed.

(** C4, witness: "N1" lists "头痛" and "N2" lists "恶心"; no record with
    the id "N1" lists "恶心", and confirming it after "头痛" leaves the
    match percentage of "N1" at 100. *)
Lemma scoring_monotone_witness :
  let db := KB.mkDatabase (Some
              [KB.mkDisease (Some (u "N1")) (Some (u "偏头痛"))
                 (Some [Agent.example_symptom (u "头痛")]);
               KB.mkDisease (Some (u "N2")) (Some (u "胃炎"))
                 (Some [Agent.example_symptom (u "恶心")])]) in
  let self := Agent.DiseaseMatcher.mk db (Agent.DiseaseMatcher.build_symptom_mapping db) in
  let toutong := Agent.SymptomMatch.mk (u "头痛") true (u "user_input") 1 in
  let exin := Agent.SymptomMatch.mk (u "恶心") true (u "user_confirmation") 1 in
  Agent.score_of self [toutong] (u "N1") = Some (100 # 1)
  ∧ Agent.score_of self ([toutong] ++ [exin]) (u "N1") = Agent.score_of self [toutong] (u "N1")
  ∧ Agent.score_of self ([toutong] ++ [exin]) (u "N2") = Some (100 # 1).
Proof.
  intros db self toutong exin. split_and!; [by vm_compute | | by vm_compute].
  apply (proj1 (proj2 (scoring_monotone db [toutong] exin (u "N1")))).
  intros d s Hd Hid Hs. apply list_elem_of_In in Hd.
  destruct Hd as [<-|[<-|[]]]; [|vm_compute in Hid; discriminate].
  apply list_elem_of_In in Hs. destruct Hs as [<-|[]].
  vm_compute. discriminate.
Defined.

(** ** The properties on concrete knowledge bases *)

(** The build on [example_raw_database]: both variants of "头痛" of the first
    disease get the id of "头痛", under which the disease is kept once, with
    the flag of its first occurrence, before the second disease. *)
Example reverse_index_example :
  Normalizer.main Normalizer.ascii_isalnum (KB.Json Normalizer.example_raw_database)
    ≫= (fun written => Normalizer.reverse_mapping written !! u "SYM_4A41D991")
  = Some (Normalizer.mkReverseEntry (Some (u "头痛")) 2
            [Normalizer.mkDiseaseInfo (Some (u "D001")) (Some (u "偏头痛")) true;
             Normalizer.mkDiseaseInfo (Some (u "D002")) (Some (u "感冒")) false]).
Proof. vm_compute. reflexivity. Qed.

(** The second scenario of the specification: two of three symptoms give
    200/3 percent and a question about the third; confirming it gives 100
    percent and the diagnosis. *)
Example scenario_two_turns :
  let out := Agent.dialogue Agent.scenario_agent Agent.new_profile
               [Agent.Query (u "我头痛，还发热"); Agent.Answer (u "是的，有咳嗽")] in
  List.map Agent.status out.1.1 = [u "verification_needed"; u "diagnosis_complete"]
  ∧ Agent.score_of (Agent.COTCAgent.disease_matcher Agent.scenario_agent)
      [Agent.SymptomMatch.mk (u "头痛") true (u "user_input") 1;
       Agent.SymptomMatch.mk (u "发热") true (u "user_input") 1] (u "D1")
    = Some (200 # 3)
  ∧ Agent.COTCAgent.confirmed_names out.2 = [u "头痛"; u "发热"; u "咳嗽"].
Proof. vm_compute. by split_and!. Qed.

(** On [example_database], confirming "失眠" after "头痛" raises the score of
    "D001", which lists it, and leaves that of "D002", which does not. *)
Example scoring_example :
  let matcher := Agent.COTCAgent.disease_matcher Agent.example_agent in
  let toutong := Agent.SymptomMatch.mk (u "头痛") true (u "user_input") 1 in
  let shimian := Agent.SymptomMatch.mk (u "失眠") true (u "user_confirmation") 1 in
  Agent.score_of matcher [toutong] (u "D001") = Some (100 # 2)
  ∧ Agent.score_of matcher [toutong; shimian] (u "D001") = Some (200 # 2)
  ∧ Agent.score_of matcher [toutong] (u "D002") = Some (100 # 3)
  ∧ Agent.score_of matcher [toutong; shimian] (u "D002") = Some (100 # 3).
Proof. vm_compute. by split_and!. Qed.

(* ===================================================================== *)
(** * Further properties of the code *)
(* ===================================================================== *)

(** ** The matcher: the ranking *)

Section Ranking.
Import Agent.

Lemma insert_desc_elem x y l : y ∈ DiseaseMatcher.insert_desc x l ↔ y = x ∨ y ∈ l.
Proof. by rewrite insert_desc_perm, elem_of_cons. Qed.

Lemma insert_desc_sorted x l : sorted_desc l → sorted_desc (DiseaseMatcher.insert_desc x l).
Proof.
  unfold sorted_desc. induction l as [|y l IH]; intros Hl; simpl.
  - by repeat constructor.
  - apply StronglySorted_inv in Hl as [Hl Hy].
    destruct (Qle_bool _ _) eqn:E.
    + apply Qle_bool_iff in E. constructor; [by constructor|].
      constructor; [done|]. eapply Forall_impl; [exact Hy|].
      intros z Hz. simpl in Hz. by eapply Qle_trans.
    + constructor; [by apply IH|].
      apply Forall_forall. intros z [->|Hz]%insert_desc_elem.
      * apply Qlt_le_weak, Qnot_le_lt. intros Hle%Qle_bool_iff. congruence.
      * rewrite Forall_forall in Hy. by apply Hy.
Qed.

Lemma sort_desc_sorted l : sorted_desc (DiseaseMatcher.sort_desc l).
Proof.
  unfold DiseaseMatcher.sort_desc. induction l as [|x l IH]; simpl.
  - constructor.
  - by apply insert_desc_sorted.
Qed.

Lemma find_potential_diseases_sorted self confirmed :
  sorted_desc (DiseaseMatcher.find_potential_diseases self confirmed).
Proof. apply sort_desc_sorted. Qed.

(** X1: The list that [find_potential_diseases] returns is in descending order
    of match percentage, and no disease id occurs twice in it. *)
Theorem find_potential_diseases_ranked (self : DiseaseMatcher.t)
    (confirmed : list SymptomMatch.t) :
  sorted_desc (DiseaseMatcher.find_potential_diseases self confirmed)
  ∧ NoDup (DiseaseMatchProgress.disease_id
             <$> DiseaseMatcher.find_potential_diseases self confirmed).
Proof.
  split; [apply find_potential_diseases_sorted|].
  unfold DiseaseMatcher.find_potential_diseases.
  rewrite sort_desc_perm, progress_ids. apply count_confirmed_NoDup.
Qed.

End Ranking.

(** ** The matcher: the score in closed form *)

Section ClosedForm.
Import Agent.

Implicit Types (scores : list (str * DiseaseMatcher.Score)).

Lemma add_count_add o n m : add_count (add_count o n) m = add_count o (n + m).
Proof.
  destruct o as [k|]; simpl; [f_equal; lia|].
  case_bool_decide as Hn; simpl.
  - subst n. simpl. done.
  - rewrite bool_decide_false by lia. done.
Qed.

Lemma add_confirmation_count x scores info did :
  confirmed_count (DiseaseMatcher.add_confirmation x scores info) did
  = add_count (confirmed_count scores did)
      (if bool_decide (DiseaseMatcher.disease_id info = did) then 1 else 0).
Proof.
  unfold confirmed_count. case_bool_decide as Hid.
  - subst did. unfold DiseaseMatcher.add_confirmation. rewrite dict_get_set_eq.
    destruct (PyDict.get _ scores) as [e|]; simpl; [|done].
    by rewrite length_app.
  - rewrite add_confirmation_other by done.
    destruct (PyDict.get did scores); simpl; [f_equal; lia | done].
Qed.

Lemma add_confirmations_count x infos scores did :
  confirmed_count (fold_left (DiseaseMatcher.add_confirmation x) infos scores) did
  = add_count (confirmed_count scores did)
      (length (List.filter (fun info => bool_decide (DiseaseMatcher.disease_id info = did))
                           infos)).
Proof.
  revert scores. induction infos as [|info infos IH]; intros scores; cbn [fold_left].
  - simpl. destruct (confirmed_count scores did); simpl; [f_equal; lia | done].
  - rewrite IH, add_confirmation_count, add_count_add. f_equal.
    simpl. by case_bool_decide.
Qed.

Lemma count_one_count self scores x did :
  confirmed_count (count_one self scores x) did
  = add_count (confirmed_count scores did) (length (hits_of self did x)).
Proof.
  unfold count_one, hits_of.
  destruct (_ !! _) as [infos|]; simpl.
  - destruct (SymptomMatch.is_confirmed x); [apply add_confirmations_count|].
    simpl. destruct (confirmed_count scores did); simpl; [f_equal; lia | done].
  - assert (length (if SymptomMatch.is_confirmed x
                    then @nil DiseaseMatcher.Info else []) = 0) as ->
      by by destruct (SymptomMatch.is_confirmed x).
    destruct (confirmed_count scores did); simpl; [f_equal; lia | done].
Qed.

Lemma count_confirmed_fold self confirmed :
  DiseaseMatcher.count_confirmed self confirmed = fold_left (count_one self) confirmed [].
Proof. reflexivity. Qed.

Lemma count_confirmed_from self confirmed scores did :
  confirmed_count (fold_left (count_one self) confirmed scores) did
  = add_count (confirmed_count scores did) (hits self confirmed did).
Proof.
  revert scores. unfold hits.
  induction confirmed as [|x confirmed IH]; intros scores; cbn [fold_left flat_map].
  - simpl. destruct (confirmed_count scores did); simpl; [f_equal; lia | done].
  - by rewrite IH, count_one_count, add_count_add, length_app.
Qed.

Lemma count_confirmed_hits self confirmed did :
  confirmed_count (DiseaseMatcher.count_confirmed self confirmed) did
  = if bool_decide (hits self confirmed did = 0) then None
    else Some (hits self confirmed did).
Proof. rewrite count_confirmed_fold. by rewrite count_confirmed_from. Qed.

Lemma score_of_hits self confirmed did :
  score_of self confirmed did
  = if bool_decide (hits self confirmed did = 0) then None
    else Some (DiseaseMatcher.percentage (hits self confirmed did)
                 (length (DiseaseMatcher.get_disease_symptoms self did))).
Proof.
  rewrite score_of_count, count_confirmed_hits. by case_bool_decide.
Qed.

(** X3: The score does not depend on the order in which the symptoms were
    confirmed. *)
Theorem score_order_independent (self : DiseaseMatcher.t)
    (confirmed confirmed' : list SymptomMatch.t) (did : str) :
  confirmed ≡ₚ confirmed' →
  score_of self confirmed did = score_of self confirmed' did.
Proof.
  intros Hperm. rewrite !score_of_hits.
  assert (hits self confirmed did = hits self confirmed' did) as ->; [|done].
  unfold hits. apply Permutation_length. by apply Permutation_flat_map.
Qed.

(** X3, witness: "头痛" and "失眠" confirmed in either order, scored for "D001". *)
Lemma score_order_independent_witness :
  let self := COTCAgent.disease_matcher example_agent in
  score_of self [from_user_input (u "头痛"); from_user_input (u "失眠")] (u "D001")
  = score_of self [from_user_input (u "失眠"); from_user_input (u "头痛")] (u "D001").
Proof.
  apply (score_order_independent (COTCAgent.disease_matcher example_agent)
           [from_user_input (u "头痛"); from_user_input (u "失眠")]
           [from_user_input (u "失眠"); from_user_input (u "头痛")] (u "D001")).
  apply Permutation_swap.
Defined.

End ClosedForm.

(** ** The matcher: which diseases are candidates, and when one is complete *)

Section Candidates.
Import Agent.

Lemma length_flat_map_le {A B C} (f : A → list B) (g : A → list C) (l : list A) :
  (∀ x, x ∈ l → length (f x) ≤ length (g x)) →
  length (flat_map f l) ≤ length (flat_map g l).
Proof.
  induction l as [|x l IH]; intros H; simpl; [done|].
  rewrite !length_app.
  assert (length (f x) ≤ length (g x)) by (apply H; by left).
  assert (length (flat_map f l) ≤ length (flat_map g l)); [|lia].
  apply IH. intros y Hy. apply H. by right.
Qed.

Lemma hits_zero self confirmed did :
  hits self confirmed did = 0 ↔
  ∀ x, x ∈ confirmed → hits_of self did x = [].
Proof.
  unfold hits. induction confirmed as [|x confirmed IH]; simpl.
  - split; [by intros _ x ?%elem_of_nil | done].
  - rewrite length_app. split.
    + intros H y [->|Hy]%elem_of_cons.
      * apply length_zero_iff_nil. lia.
      * apply IH; [lia | done].
    + intros H. rewrite (H x) by by left. simpl. apply IH.
      intros y Hy. apply H. by right.
Qed.

Lemma hits_nonzero self confirmed did :
  hits self confirmed did ≠ 0 → ∃ x, x ∈ confirmed ∧ hits_of self did x ≠ [].
Proof.
  unfold hits. induction confirmed as [|x confirmed IH]; simpl; [done|].
  rewrite length_app. intros Hne.
  destruct (hits_of self did x) as [|i rest] eqn:E.
  - destruct IH as (y & Hy & Hne'); [simpl in Hne; lia|].
    exists y. split; [by right | done].
  - exists x. split; [by left | by rewrite E].
Qed.

Lemma hits_of_mapped self did x :
  hits_of self did x ≠ [] ↔
  SymptomMatch.is_confirmed x = true
  ∧ mapped (DiseaseMatcher.symptom_to_diseases self) (SymptomMatch.symptom_name x) did.
Proof.
  unfold hits_of, mapped. destruct (SymptomMatch.is_confirmed x); [|by split; [|intros [? _]]].
  destruct (_ !! _) as [infos|]; simpl.
  - split.
    + intros Hne. split; [done|].
      destruct (List.filter _ infos) as [|info rest] eqn:E; [done|].
      assert (In info (List.filter
                (fun i => bool_decide (DiseaseMatcher.disease_id i = did)) infos)) as Hin
        by (rewrite E; by left).
      apply filter_In in Hin as [Hin Hid]. apply bool_decide_eq_true in Hid.
      exists infos, info. split_and!; [done | by apply list_elem_of_In | done].
    + intros [_ (infos' & info & [= <-] & Hin & Hid)] E.
      assert (In info (List.filter
                (fun i => bool_decide (DiseaseMatcher.disease_id i = did)) infos)) as Hin'.
      { apply filter_In. split; [by apply list_elem_of_In | by apply bool_decide_eq_true]. }
      by rewrite E in Hin'.
  - split; [done|]. by intros [_ (infos & info & ? & _)].
Qed.

Lemma build_symptom_mapping_iff db name did :
  mapped (DiseaseMatcher.build_symptom_mapping db) name did ↔
  name ≠ []
  ∧ ∃ d s,
      d ∈ KB.get (KB.disease_ku db) []
      ∧ s ∈ KB.get (KB.symptom_list d) []
      ∧ KB.get (KB.symptom_name s) [] = name
      ∧ KB.get (KB.disease_ID d) [] = did.
Proof.
  split.
  - intros Hm. split; [|by apply build_symptom_mapping_sound].
    intros ->. revert Hm. unfold DiseaseMatcher.build_symptom_mapping.
    apply (fold_left_invariant (fun m => ¬ mapped m [] did)).
    + intros (infos & info & H & _). by rewrite lookup_empty in H.
    + intros m d _ Hm. unfold DiseaseMatcher.map_disease.
      apply fold_left_invariant; [done|].
      intros m' s _ Hm' (infos & info & Hinfos & Hin & Hid).
      unfold DiseaseMatcher.map_symptom in Hinfos.
      case_bool_decide as Hname; [apply Hm'; by exists infos, info|].
      rewrite lookup_insert_ne in Hinfos by done. apply Hm'. by exists infos, info.
  - intros (Hname & d & s & Hd & Hs & <- & <-). by apply build_symptom_mapping_complete.
Qed.

(** X4: A disease id is listed by [find_potential_diseases], on a matcher built
    from a knowledge base, exactly when some confirmed symptom of the list
    has a non-empty name that a record with that id lists. *)
Theorem candidate_iff (db : KB.Database) (confirmed : list SymptomMatch.t) (did : str) :
  let self := DiseaseMatcher.mk db (DiseaseMatcher.build_symptom_mapping db) in
  is_Some (score_of self confirmed did) ↔
  ∃ x d s,
    x ∈ confirmed ∧ SymptomMatch.is_confirmed x = true
    ∧ SymptomMatch.symptom_name x ≠ []
    ∧ d ∈ KB.get (KB.disease_ku db) [] ∧ KB.get (KB.disease_ID d) [] = did
    ∧ s ∈ KB.get (KB.symptom_list d) []
    ∧ KB.get (KB.symptom_name s) [] = SymptomMatch.symptom_name x.
Proof.
  intros self. rewrite score_of_hits. split.
  - case_bool_decide as Hz; [by intros [? ?]|]. intros _.
    destruct (hits_nonzero self confirmed did Hz) as (x & Hx & Hne).
    apply hits_of_mapped in Hne as [Hc Hm]. cbn in Hm.
    apply build_symptom_mapping_iff in Hm as (Hname & d & s & Hd & Hs & Hn & Hid).
    exists x, d, s. by split_and!.
  - intros (x & d & s & Hx & Hc & Hname & Hd & Hid & Hs & Hn).
    rewrite bool_decide_false; [by eexists|].
    intros Hz. rewrite hits_zero in Hz. specialize (Hz x Hx).
    revert Hz. apply hits_of_mapped. split; [done|]. cbn.
    apply build_symptom_mapping_iff. split; [done|]. by exists d, s.
Qed.

Lemma get_disease_symptoms_unknown self did :
  (∀ d, d ∈ KB.get (KB.disease_ku (DiseaseMatcher.disease_db self)) [] →
        KB.disease_ID d ≠ Some did) →
  DiseaseMatcher.get_disease_symptoms self did = [].
Proof.
  intros Hno. unfold DiseaseMatcher.get_disease_symptoms.
  destruct (List.find _ _) as [d|] eqn:E; [|done].
  apply find_some in E as [Hd Hid]. apply bool_decide_eq_true in Hid.
  exfalso. eapply Hno; [by apply list_elem_of_In | done].
Qed.

(** X5: When no record of the knowledge base carries the key "疾病ID" with the
    value [did], a disease listed under [did] has the match percentage 0,
    whatever has been confirmed. This is the case of the id "" under which
    [build_symptom_mapping] stores the records that have no "疾病ID". *)
Theorem score_without_record (self : DiseaseMatcher.t) (confirmed : list SymptomMatch.t)
    (did : str) :
  (∀ d, d ∈ KB.get (KB.disease_ku (DiseaseMatcher.disease_db self)) [] →
        KB.disease_ID d ≠ Some did) →
  score_of self confirmed did = None ∨ score_of self confirmed did = Some 0%Q.
Proof.
  intros Hno. rewrite score_of_hits, get_disease_symptoms_unknown by done.
  case_bool_decide; [by left | by right].
Qed.

(** X5, witness: a knowledge base whose only record has no "疾病ID"; with its
    symptom "头痛" confirmed, the record is listed under the id "" with the
    match percentage 0. *)
Lemma score_without_record_witness :
  let db := KB.mkDatabase (Some
              [KB.mkDisease None (Some (u "偏头痛")) (Some [example_symptom (u "头痛")])]) in
  let self := DiseaseMatcher.mk db (DiseaseMatcher.build_symptom_mapping db) in
  score_of self [from_user_input (u "头痛")] [] = None
  ∨ score_of self [from_user_input (u "头痛")] [] = Some 0%Q.
Proof.
  intros db self. apply (score_without_record self [from_user_input (u "头痛")] []).
  intros d Hd. apply list_elem_of_In in Hd. destruct Hd as [<-|[]]. discriminate.
Defined.

End Candidates.

(** ** The matcher: a disease whose symptoms are all confirmed *)

Section Complete.
Import Agent.

Lemma fold_left_lower_bound {A B} (mu : A → nat) (f : A → B → A) (l : list B) (a : A)
    (b : B) (k : nat) :
  b ∈ l →
  (∀ a b', mu a ≤ mu (f a b')) →
  (∀ a, mu a + k ≤ mu (f a b)) →
  mu a + k ≤ mu (fold_left f l a).
Proof.
  intros Hb Hmono Hb0. revert a.
  induction l as [|b0 l IH]; intros a; [by apply elem_of_nil in Hb|].
  cbn [fold_left]. apply elem_of_cons in Hb as [<-|Hb].
  - apply (fold_left_invariant (fun a' => mu a + k ≤ mu a')); [apply Hb0|].
    intros a' b' _ H. specialize (Hmono a' b'). lia.
  - specialize (IH Hb (f a b0)). specialize (Hmono a b0). lia.
Qed.

Lemma map_symptom_stored d m s name did :
  stored_under m name did
  + (if bool_decide (KB.get (KB.symptom_name s) [] = name ∧ name ≠ []
                     ∧ KB.get (KB.disease_ID d) [] = did) then 1 else 0)
  = stored_under (DiseaseMatcher.map_symptom d m s) name did.
Proof.
  unfold stored_under, DiseaseMatcher.map_symptom.
  destruct (decide (KB.get (KB.symptom_name s) [] = [])) as [Hempty|Hempty].
  - rewrite (bool_decide_true (_ = [])) by done.
    rewrite bool_decide_false; [lia|]. intros (? & ? & ?). congruence.
  - rewrite (bool_decide_false (_ = [])) by done.
    destruct (decide (KB.get (KB.symptom_name s) [] = name)) as [<-|Hne].
    + rewrite lookup_insert_eq. cbn [default from_option id].
      rewrite List.filter_app, length_app. cbn [List.filter].
      destruct (decide (KB.get (KB.disease_ID d) [] = did)) as [Hid|Hid].
      * rewrite !bool_decide_true by done. done.
      * rewrite (bool_decide_false (_ ∧ _)) by (by intros (_ & _ & ?)).
        cbn [DiseaseMatcher.disease_id]. rewrite bool_decide_false by done.
        simpl. lia.
    + rewrite lookup_insert_ne by done. rewrite bool_decide_false; [lia|].
      by intros (? & _).
Qed.

Lemma map_symptoms_stored d symptoms m name did :
  name ≠ [] → KB.get (KB.disease_ID d) [] = did →
  stored_under m name did
  + length (List.filter (fun n => bool_decide (n = name))
              (List.map (fun s => KB.get (KB.symptom_name s) []) symptoms))
  = stored_under (fold_left (DiseaseMatcher.map_symptom d) symptoms m) name did.
Proof.
  intros Hname Hid. revert m.
  induction symptoms as [|s symptoms IH]; intros m; cbn [fold_left List.map List.filter].
  - simpl. lia.
  - rewrite <- IH, <- map_symptom_stored.
    case_bool_decide as Hs.
    + rewrite bool_decide_true by done. simpl. lia.
    + rewrite bool_decide_false; [lia|]. by intros (? & _).
Qed.

Lemma map_disease_stored_le m d name did :
  stored_under m name did ≤ stored_under (DiseaseMatcher.map_disease m d) name did.
Proof.
  unfold DiseaseMatcher.map_disease.
  apply (fold_left_invariant (fun m' => stored_under m name did ≤ stored_under m' name did));
    [done|].
  intros m' s _ H. rewrite <- map_symptom_stored. lia.
Qed.

(** Under a non-empty name, [build_symptom_mapping] stores the id of a
    record at least as often as the record lists the name. *)
Lemma build_symptom_mapping_stored db d name :
  d ∈ KB.get (KB.disease_ku db) [] → name ≠ [] →
  length (List.filter (fun n => bool_decide (n = name)) (names_of d))
  ≤ stored_under (DiseaseMatcher.build_symptom_mapping db) name
      (KB.get (KB.disease_ID d) []).
Proof.
  intros Hd Hname. unfold DiseaseMatcher.build_symptom_mapping.
  set (did := KB.get (KB.disease_ID d) []).
  pose proof (fold_left_lower_bound (fun m => stored_under m name did)
                DiseaseMatcher.map_disease (KB.get (KB.disease_ku db) []) ∅ d
                (length (List.filter (fun n => bool_decide (n = name)) (names_of d))) Hd) as H.
  cbn beta in H. etrans; [|apply H].
  - lia.
  - intros m d'. apply map_disease_stored_le.
  - intros m. unfold DiseaseMatcher.map_disease, names_of.
    by rewrite (map_symptoms_stored d _ m name did).
Qed.

Lemma filter_split_length {A} (f : A → bool) (l : list A) :
  length l = length (List.filter f l) + length (List.filter (fun a => negb (f a)) l).
Proof.
  induction l as [|a l IH]; simpl; [done|].
  destruct (f a); simpl; lia.
Qed.

Lemma filter_filter_length {A} (f g : A → bool) (l : list A) :
  length (List.filter f (List.filter g l)) ≤ length (List.filter f l).
Proof.
  induction l as [|a l IH]; simpl; [done|].
  destruct (g a); simpl; destruct (f a); simpl; lia.
Qed.

Lemma filter_none {A} (f : A → bool) (l : list A) :
  (∀ a, a ∈ l → f a = false) → List.filter f l = [].
Proof.
  induction l as [|a l IH]; intros H; simpl; [done|].
  rewrite (H a) by by left. apply IH. intros b Hb. apply H. by right.
Qed.

(** Names that are all names of confirmed symptoms are not more numerous
    than their occurrences counted symptom by symptom. *)
Lemma covered_length (names : list str) (confirmed : list SymptomMatch.t) :
  (∀ n, n ∈ names →
        ∃ x, x ∈ confirmed ∧ SymptomMatch.is_confirmed x = true
             ∧ SymptomMatch.symptom_name x = n) →
  length names ≤ length (flat_map (occurrences names) confirmed).
Proof.
  revert names. induction confirmed as [|x confirmed IH]; intros names Hcov.
  - destruct names as [|n names]; [done|].
    destruct (Hcov n) as (y & Hy & _); [by left|]. by apply elem_of_nil in Hy.
  - cbn [flat_map]. rewrite length_app. unfold occurrences at 1.
    destruct (SymptomMatch.is_confirmed x) eqn:Hx.
    + set (f := fun n => bool_decide (n = SymptomMatch.symptom_name x)).
      set (rest := List.filter (fun n => negb (f n)) names).
      rewrite (filter_split_length f names). fold rest.
      assert (length rest ≤ length (flat_map (occurrences names) confirmed)); [|lia].
      etrans; [apply (IH rest)|].
      * intros n Hn. apply list_elem_of_In, filter_In in Hn as [Hn Hf].
        apply negb_true_iff, bool_decide_eq_false in Hf.
        destruct (Hcov n) as (y & Hy & Hc & Hname); [by apply list_elem_of_In|].
        apply elem_of_cons in Hy as [->|Hy]; [done|]. by exists y.
      * apply length_flat_map_le. intros y _. unfold occurrences.
        destruct (SymptomMatch.is_confirmed y); [|done].
        apply filter_filter_length.
    + simpl. apply IH. intros n Hn.
      destruct (Hcov n Hn) as (y & Hy & Hc & Hname).
      apply elem_of_cons in Hy as [->|Hy]; [congruence|]. by exists y.
Qed.

Lemma percentage_full n total :
  0 < total → total ≤ n → (100 <= DiseaseMatcher.percentage n total)%Q.
Proof.
  intros Hpos Hle. unfold DiseaseMatcher.percentage.
  destruct (Nat.ltb_spec 0 total) as [_|?]; [|lia].
  unfold Qle, Qmult. simpl.
  destruct total as [|t]; [lia|].
  rewrite Pos.mul_1_r, <- Pos.of_nat_succ, Zpos_P_of_succ_nat. lia.
Qed.

Lemma get_disease_symptoms_found self did d :
  List.find (fun r => bool_decide (KB.disease_ID r = Some did))
            (KB.get (KB.disease_ku (DiseaseMatcher.disease_db self)) []) = Some d →
  DiseaseMatcher.get_disease_symptoms self did = names_of d.
Proof. intros E. unfold DiseaseMatcher.get_disease_symptoms. by rewrite E. Qed.

Lemma covered_hits (db : KB.Database) (confirmed : list SymptomMatch.t)
    (d : KB.Disease) (did : str) :
  let self := DiseaseMatcher.mk db (DiseaseMatcher.build_symptom_mapping db) in
  List.find (fun r => bool_decide (KB.disease_ID r = Some did))
            (KB.get (KB.disease_ku db) []) = Some d →
  KB.get (KB.symptom_list d) [] ≠ [] →
  (∀ s, s ∈ KB.get (KB.symptom_list d) [] →
        KB.get (KB.symptom_name s) [] ≠ []
        ∧ ∃ x, x ∈ confirmed ∧ SymptomMatch.is_confirmed x = true
               ∧ SymptomMatch.symptom_name x = KB.get (KB.symptom_name s) []) →
  0 < length (names_of d) ≤ hits self confirmed did.
Proof.
  intros self Hfind Hsome Hcov.
  pose proof Hfind as Hin. apply find_some in Hin as [Hd Hid].
  apply list_elem_of_In in Hd. apply bool_decide_eq_true in Hid.
  assert (Hdid : KB.get (KB.disease_ID d) [] = did) by by rewrite Hid.
  assert (Hnames : ∀ n, n ∈ names_of d →
            n ≠ [] ∧ ∃ x, x ∈ confirmed ∧ SymptomMatch.is_confirmed x = true
                          ∧ SymptomMatch.symptom_name x = n).
  { intros n (s & -> & Hs)%list_elem_of_fmap. by apply Hcov. }
  split.
  - unfold names_of. rewrite length_map.
    destruct (KB.get (KB.symptom_list d) []); [done | simpl; lia].
  - etrans; [apply (covered_length _ confirmed); intros n Hn; by apply Hnames|].
    unfold hits. apply length_flat_map_le. intros x _.
    unfold occurrences, hits_of. destruct (SymptomMatch.is_confirmed x); [|done].
    destruct (decide (SymptomMatch.symptom_name x = [])) as [Hempty|Hne].
    + rewrite filter_none; [simpl; lia|].
      intros n Hn. apply bool_decide_eq_false. intros ->.
      apply Hnames in Hn as [Hn _]. done.
    + rewrite <- Hdid. by apply build_symptom_mapping_stored.
Qed.

Lemma full_hits_score self confirmed did d :
  List.find (fun r => bool_decide (KB.disease_ID r = Some did))
            (KB.get (KB.disease_ku (DiseaseMatcher.disease_db self)) []) = Some d →
  0 < length (names_of d) ≤ hits self confirmed did →
  ∃ p, score_of self confirmed did = Some p ∧ (100 <= p)%Q.
Proof.
  intros Hfind [Hpos Hlen].
  rewrite score_of_hits, bool_decide_false by lia.
  eexists. split; [done|].
  rewrite (get_disease_symptoms_found self did d Hfind).
  by apply percentage_full.
Qed.

(** X6: On a matcher built from a knowledge base: when [d] is the first record
    with the id [did], lists at least one symptom, all its symptom names are
    non-empty and each of them is the name of a confirmed symptom of the
    list, the match percentage of [did] is at least 100. *)
Theorem all_symptoms_confirmed (db : KB.Database) (confirmed : list SymptomMatch.t)
    (d : KB.Disease) (did : str) :
  let self := DiseaseMatcher.mk db (DiseaseMatcher.build_symptom_mapping db) in
  List.find (fun r => bool_decide (KB.disease_ID r = Some did))
            (KB.get (KB.disease_ku db) []) = Some d →
  KB.get (KB.symptom_list d) [] ≠ [] →
  (∀ s, s ∈ KB.get (KB.symptom_list d) [] →
        KB.get (KB.symptom_name s) [] ≠ []
        ∧ ∃ x, x ∈ confirmed ∧ SymptomMatch.is_confirmed x = true
               ∧ SymptomMatch.symptom_name x = KB.get (KB.symptom_name s) []) →
  ∃ p, score_of self confirmed did = Some p ∧ (100 <= p)%Q.
Proof.
  intros self Hfind Hsome Hcov.
  apply (full_hits_score self confirmed did d Hfind).
  by apply covered_hits.
Qed.

(** X6, witness: the record "D001" of the example knowledge base, with its two
    symptoms "头痛" and "失眠" confirmed. *)
Lemma all_symptoms_confirmed_witness :
  let self := DiseaseMatcher.mk example_database
                (DiseaseMatcher.build_symptom_mapping example_database) in
  ∃ p, score_of self [from_user_input (u "头痛"); from_user_input (u "失眠")] (u "D001")
       = Some p ∧ (100 <= p)%Q.
Proof.
  apply (all_symptoms_confirmed example_database
           [from_user_input (u "头痛"); from_user_input (u "失眠")]
           (KB.mkDisease (Some (u "D001")) (Some (u "偏头痛"))
              (Some [example_symptom (u "头痛"); example_symptom (u "失眠")]))
           (u "D001")).
  - vm_compute. reflexivity.
  - discriminate.
  - intros s Hs. apply list_elem_of_In in Hs. destruct Hs as [<-|[<-|[]]].
    + split; [vm_compute; discriminate|]. exists (from_user_input (u "头痛")).
      split_and!; [apply list_elem_of_here | reflexivity | reflexivity].
    + split; [vm_compute; discriminate|]. exists (from_user_input (u "失眠")).
      split_and!; [apply list_elem_of_further, list_elem_of_here | reflexivity | reflexivity].
Defined.

Lemma score_of_candidate self confirmed did p :
  score_of self confirmed did = Some p →
  ∃ entry, entry ∈ DiseaseMatcher.find_potential_diseases self confirmed
           ∧ DiseaseMatchProgress.match_percentage entry = p.
Proof.
  unfold score_of. destruct (List.find _ _) as [entry|] eqn:E; [|done].
  intros [= <-]. apply find_some in E as [Hin _].
  exists entry. split; [by apply list_elem_of_In | done].
Qed.

(** X7: When the profile that a turn leaves holds, as confirmed, every symptom
    name of such a record, the turn answers ["diagnosis_complete"]. *)
Theorem complete_profile_is_diagnosed (self : COTCAgent.t) (db : KB.Database)
    (p : PatientProfile.t) (t : Turn) (d : KB.Disease) (did : str) :
  COTCAgent.disease_matcher self
    = DiseaseMatcher.mk db (DiseaseMatcher.build_symptom_mapping db) →
  List.find (fun r => bool_decide (KB.disease_ID r = Some did))
            (KB.get (KB.disease_ku db) []) = Some d →
  KB.get (KB.symptom_list d) [] ≠ [] →
  (∀ s, s ∈ KB.get (KB.symptom_list d) [] →
        KB.get (KB.symptom_name s) [] ≠ []
        ∧ ∃ x, x ∈ PatientProfile.confirmed_symptoms (turn self p t).2
               ∧ SymptomMatch.is_confirmed x = true
               ∧ SymptomMatch.symptom_name x = KB.get (KB.symptom_name s) []) →
  status (turn self p t).1.1 = u "diagnosis_complete".
Proof.
  intros Hm Hfind Hsome Hcov.
  destruct (full_hits_score (DiseaseMatcher.mk db (DiseaseMatcher.build_symptom_mapping db))
              (PatientProfile.confirmed_symptoms (turn self p t).2) did d Hfind)
    as (q & Hq & Hle); [by apply covered_hits|].
  apply score_of_candidate in Hq as (entry & Hentry & Hpct).
  revert Hentry. rewrite turn_unfold. cbn [fst snd]. intros Hentry.
  assert (Hex : existsb COTCAgent.is_perfect
                  (candidates self (profile_after self p t)) = true).
  { apply existsb_exists. exists entry. split.
    - apply list_elem_of_In. unfold candidates. by rewrite Hm.
    - apply is_perfect_iff. by rewrite Hpct. }
  destruct (diagnose_or_ask_cases self (profile_after self p t))
    as [(d' & _ & _ & _ & ->) | [[Hnil _] | (d' & rest & _ & Hno & _)]].
  - done.
  - by rewrite Hnil in Hex.
  - congruence.
Qed.

(** X7, witness: on the example knowledge base, the query "我头疼，还失眠"
    confirms both symptoms of the record "D001". *)
Lemma complete_profile_is_diagnosed_witness :
  status (turn example_agent new_profile (Query (u "我头疼，还失眠"))).1.1
  = u "diagnosis_complete".
Proof.
  apply (complete_profile_is_diagnosed example_agent example_database new_profile
           (Query (u "我头疼，还失眠"))
           (KB.mkDisease (Some (u "D001")) (Some (u "偏头痛"))
              (Some [example_symptom (u "头痛"); example_symptom (u "失眠")]))
           (u "D001")).
  - reflexivity.
  - vm_compute. reflexivity.
  - discriminate.
  - intros s Hs. apply list_elem_of_In in Hs. destruct Hs as [<-|[<-|[]]].
    + split; [vm_compute; discriminate|]. exists (from_user_input (u "头痛")).
      split_and!; [|reflexivity|reflexivity].
      apply list_elem_of_In. vm_compute. left. reflexivity.
    + split; [vm_compute; discriminate|]. exists (from_user_input (u "失眠")).
      split_and!; [|reflexivity|reflexivity].
      apply list_elem_of_In. vm_compute. right. left. reflexivity.
Defined.

End Complete.

(** ** The agent: what a query and an answer confirm *)

Section Confirmations.
Import Agent.

Lemma flat_map_nil {A B} (f : A → list B) (l : list A) :
  (∀ a, a ∈ l → f a = []) → flat_map f l = [].
Proof.
  induction l as [|a l IH]; intros H; simpl; [done|].
  rewrite (H a) by by left. apply IH. intros b Hb. apply H. by right.
Qed.

Lemma extract_elem user_input p m :
  m ∈ COTCAgent.extract_and_confirm_symptoms user_input p ↔
  ∃ user_symptom medical_symptoms,
    (user_symptom, medical_symptoms) ∈ COTCAgent.symptom_mapping
    ∧ str_in user_symptom user_input = true
    ∧ SymptomMatch.symptom_name m ∈ medical_symptoms
    ∧ existsb (fun s => str_eqb (SymptomMatch.symptom_name s) (SymptomMatch.symptom_name m))
              (PatientProfile.confirmed_symptoms p) = false
    ∧ m = from_user_input (SymptomMatch.symptom_name m).
Proof.
  unfold COTCAgent.extract_and_confirm_symptoms.
  rewrite list_elem_of_In, in_flat_map. split.
  - intros ([key meds] & Hkey & Hm). destruct (str_in key user_input) eqn:Hin; [|done].
    apply in_flat_map in Hm as (med & Hmed & Hm).
    destruct (existsb _ _) eqn:Hex; [done|].
    destruct Hm as [<-|[]]. exists key, meds. cbn [SymptomMatch.symptom_name].
    split_and!; [by apply list_elem_of_In | done | by apply list_elem_of_In | done | done].
  - intros (key & meds & Hkey & Hin & Hmed & Hex & Hm). exists (key, meds).
    split; [by apply list_elem_of_In|]. rewrite Hin. apply in_flat_map.
    exists (SymptomMatch.symptom_name m). split; [by apply list_elem_of_In|].
    rewrite Hex. left. by rewrite Hm.
Qed.

Lemma existsb_name_false (l : list SymptomMatch.t) name :
  existsb (fun s => str_eqb (SymptomMatch.symptom_name s) name) l = false ↔
  ∀ s, s ∈ l → SymptomMatch.symptom_name s ≠ name.
Proof.
  split.
  - intros Hex s Hs Heq. apply not_true_iff_false in Hex. apply Hex.
    apply existsb_exists. exists s. split; [by apply list_elem_of_In|].
    by apply bool_decide_eq_true.
  - intros H. apply not_true_iff_false. intros (s & Hs & Heq)%existsb_exists.
    apply bool_decide_eq_true in Heq. by eapply H; [apply list_elem_of_In|].
Qed.

(** X8: Every symptom that [extract_and_confirm_symptoms] returns is confirmed,
    from the source "user_input" with confidence 1, has a name that no entry
    of the profile has yet, and is the medical name of a key of
    [symptom_mapping] that occurs in the utterance. *)
Theorem extracted_symptoms (user_input : str) (p : PatientProfile.t) :
  Forall (fun m =>
      m = from_user_input (SymptomMatch.symptom_name m)
      ∧ (∀ s, s ∈ PatientProfile.confirmed_symptoms p →
              SymptomMatch.symptom_name s ≠ SymptomMatch.symptom_name m)
      ∧ ∃ user_symptom medical_symptoms,
          (user_symptom, medical_symptoms) ∈ COTCAgent.symptom_mapping
          ∧ str_in user_symptom user_input = true
          ∧ SymptomMatch.symptom_name m ∈ medical_symptoms)
    (COTCAgent.extract_and_confirm_symptoms user_input p).
Proof.
  apply Forall_forall. intros m (key & meds & Hkey & Hin & Hmed & Hex & Hm)%extract_elem.
  split_and!; [done | by apply existsb_name_false|]. by exists key, meds.
Qed.

(** X9: A query that repeats the utterance of the query before it confirms
    nothing more: the profile stays as the first query left it. *)
Theorem repeated_query_adds_nothing (self self' : COTCAgent.t) (user_input : str)
    (p : PatientProfile.t) :
  let p1 := (COTCAgent.process_user_query self user_input p).2 in
  COTCAgent.extract_and_confirm_symptoms user_input p1 = []
  ∧ (COTCAgent.process_user_query self' user_input p1).2 = p1.
Proof.
  intros p1. subst p1. rewrite !process_user_query_profile.
  assert (Hnil : COTCAgent.extract_and_confirm_symptoms user_input
            (PatientProfile.extend_confirmed_symptoms
               (COTCAgent.extract_and_confirm_symptoms user_input p) p) = []).
  { destruct (COTCAgent.extract_and_confirm_symptoms user_input
                (PatientProfile.extend_confirmed_symptoms
                   (COTCAgent.extract_and_confirm_symptoms user_input p) p))
      as [|m rest] eqn:E; [done|]. exfalso.
    assert (Hm : m ∈ COTCAgent.extract_and_confirm_symptoms user_input
                   (PatientProfile.extend_confirmed_symptoms
                      (COTCAgent.extract_and_confirm_symptoms user_input p) p))
      by (rewrite E; by left).
    apply extract_elem in Hm as (key & meds & Hkey & Hin & Hmed & Hex & Hm).
    rewrite confirmed_symptoms_extend in Hex.
    rewrite existsb_name_false in Hex.
    destruct (existsb (fun s => str_eqb (SymptomMatch.symptom_name s)
                                  (SymptomMatch.symptom_name m))
                (PatientProfile.confirmed_symptoms p)) eqn:Hold.
    - apply existsb_exists in Hold as (s & Hs & Heq). apply bool_decide_eq_true in Heq.
      eapply Hex; [|exact Heq]. apply elem_of_app. left. by apply list_elem_of_In.
    - apply (Hex (from_user_input (SymptomMatch.symptom_name m))); [|done].
      apply elem_of_app. right. apply extract_elem. exists key, meds.
      by split_and!. }
  split; [done|]. by rewrite Hnil, extend_confirmed_symptoms_nil.
Qed.

Lemma analyze_elem self user_response p m :
  m ∈ (COTCAgent.analyze_user_response self user_response p).1 ↔
  ∃ focus,
    COTCAgent.current_disease_focus self = Some focus
    ∧ SymptomMatch.symptom_name m ∈ DiseaseMatchProgress.missing_symptoms focus
    ∧ str_in (SymptomMatch.symptom_name m) user_response = true
    ∧ COTCAgent.affirms user_response = true
    ∧ m = from_user_confirmation (SymptomMatch.symptom_name m).
Proof.
  unfold COTCAgent.analyze_user_response. cbn [fst].
  destruct (COTCAgent.current_disease_focus self) as [focus|].
  - rewrite list_elem_of_In, in_flat_map. split.
    + intros (missing & Hmissing & Hm).
      destruct (str_in missing user_response) eqn:Hin; [|done].
      destruct (COTCAgent.affirms user_response) eqn:Ha; [|done].
      destruct Hm as [<-|[]]. exists focus. cbn [SymptomMatch.symptom_name].
      split_and!; [done | by apply list_elem_of_In | done | done | done].
    + intros (focus' & [= <-] & Hmissing & Hin & Ha & Hm).
      exists (SymptomMatch.symptom_name m). split; [by apply list_elem_of_In|].
      rewrite Hin, Ha. left. by rewrite Hm.
  - split; [by intros ?%elem_of_nil | by intros (? & ? & _)].
Qed.

(** X10: Every symptom that an answer confirms is a missing symptom of the
    disease the agent is focused on, occurs in the answer, and the answer
    holds one of the markers "是", "有", "确实"; it is recorded as confirmed,
    from the source "user_confirmation". An agent without a focus disease, or
    an answer without a marker, confirms nothing. *)
Theorem confirmed_by_answer (self : COTCAgent.t) (user_response : str)
    (p : PatientProfile.t) :
  let new := (COTCAgent.analyze_user_response self user_response p).1 in
  Forall (fun m =>
      m = from_user_confirmation (SymptomMatch.symptom_name m)
      ∧ str_in (SymptomMatch.symptom_name m) user_response = true
      ∧ ∃ focus,
          COTCAgent.current_disease_focus self = Some focus
          ∧ SymptomMatch.symptom_name m ∈ DiseaseMatchProgress.missing_symptoms focus)
    new
  ∧ (COTCAgent.current_disease_focus self = None → new = [])
  ∧ (COTCAgent.affirms user_response = false → new = []).
Proof.
  intros new. subst new. split_and!.
  - apply Forall_forall. intros m (focus & Hf & Hmiss & Hin & Ha & Hm)%analyze_elem.
    split_and!; [done | done|]. by exists focus.
  - intros Hnone.
    destruct (COTCAgent.analyze_user_response self user_response p).1 as [|m rest] eqn:E;
      [done|].
    assert (Hm : m ∈ (COTCAgent.analyze_user_response self user_response p).1)
      by (rewrite E; by left).
    apply analyze_elem in Hm as (focus & Hf & _). congruence.
  - intros Hno.
    destruct (COTCAgent.analyze_user_response self user_response p).1 as [|m rest] eqn:E;
      [done|].
    assert (Hm : m ∈ (COTCAgent.analyze_user_response self user_response p).1)
      by (rewrite E; by left).
    apply analyze_elem in Hm as (focus & _ & _ & _ & Ha & _). congruence.
Qed.

End Confirmations.

(** ** The agent: what a dialogue keeps *)

Section DialogueInvariants.
Import Agent.

Lemma store_factors_keeps user_response families factors key :
  is_Some (factors !! key) →
  is_Some (store_factors user_response families factors !! key).
Proof.
  intros H. rewrite store_factors_lookup. by destruct (existsb _ families).
Qed.

Lemma diagnose_or_ask_frame self p :
  agent_frame (COTCAgent.diagnose_or_ask self p).2 = agent_frame self.
Proof.
  destruct (diagnose_or_ask_cases self p)
    as [(d & _ & _ & _ & ->) | [[_ ->] | (d & rest & _ & _ & _ & ->)]]; done.
Qed.

Lemma turn_keeps_refl self p : turn_keeps self p self p.
Proof.
  split_and!; [done | done | | done]. exists []. by rewrite app_nil_r.
Qed.

Lemma turn_keeps_trans self1 p1 self2 p2 self3 p3 :
  turn_keeps self1 p1 self2 p2 → turn_keeps self2 p2 self3 p3 →
  turn_keeps self1 p1 self3 p3.
Proof.
  intros (Ha & Hi & (new & Hc & Hn) & Hl) (Ha' & Hi' & (new' & Hc' & Hn') & Hl').
  split_and!; [congruence | congruence | | by intros key ?%Hl%Hl'].
  exists (new ++ new'). split; [by rewrite Hc', Hc, app_assoc | by apply Forall_app].
Qed.

Lemma frame_identity p p' :
  frame p' = frame p →
  profile_identity p' = profile_identity p
  ∧ PatientProfile.confirmed_symptoms p' = PatientProfile.confirmed_symptoms p.
Proof.
  destruct p, p'. unfold frame, profile_identity.
  cbn [PatientProfile.patient_id PatientProfile.age PatientProfile.gender
       PatientProfile.medical_history PatientProfile.confirmed_symptoms
       PatientProfile.conversation_history].
  by intros [= -> -> -> -> -> ->].
Qed.

Lemma profile_identity_extend new p :
  profile_identity (PatientProfile.extend_confirmed_symptoms new p) = profile_identity p.
Proof. reflexivity. Qed.

Lemma turn_keeps_step self p t :
  turn_keeps self p (turn self p t).1.2 (turn self p t).2.
Proof.
  rewrite turn_unfold. cbn [fst snd]. split_and!.
  - apply diagnose_or_ask_frame.
  - destruct t as [user_input|user_response]; cbn [profile_after];
      rewrite profile_identity_extend; [done|].
    destruct (analyze_user_response_profile self user_response p) as [_ Hf].
    by apply frame_identity in Hf as [? _].
  - destruct t as [user_input|user_response]; cbn [profile_after].
    + eexists. split; [apply confirmed_symptoms_extend|].
      apply Forall_forall. intros m (_ & _ & _ & _ & _ & _ & Hm)%extract_elem.
      by rewrite Hm.
    + destruct (analyze_user_response_profile self user_response p) as [_ Hf].
      apply frame_identity in Hf as [_ Hc].
      eexists. split; [by rewrite confirmed_symptoms_extend, Hc|].
      apply Forall_forall. intros m (_ & _ & _ & _ & _ & Hm)%analyze_elem.
      by rewrite Hm.
  - intros key Hkey. destruct t as [user_input|user_response]; cbn [profile_after].
    + by rewrite lifestyle_factors_extend.
    + rewrite lifestyle_factors_extend.
      destruct (analyze_user_response_profile self user_response p) as [-> _].
      by apply store_factors_keeps.
Qed.

(** X11: Over a dialogue of any length: the agent keeps its matcher, its
    analysis step and both round counters; the profile keeps the patient's
    identity, medical history and conversation history; the confirmed symptoms
    of the start remain, in place, with entries only added after them, each
    of them marked confirmed; and no key of [lifestyle_factors] is lost. *)
Theorem dialogue_keeps (self : COTCAgent.t) (p : PatientProfile.t) (turns : list Turn) :
  let out := dialogue self p turns in
  agent_frame out.1.2 = agent_frame self
  ∧ profile_identity out.2 = profile_identity p
  ∧ (∃ new, PatientProfile.confirmed_symptoms out.2
            = PatientProfile.confirmed_symptoms p ++ new
            ∧ Forall (fun m => SymptomMatch.is_confirmed m = true) new)
  ∧ (∀ key : str, is_Some (PatientProfile.lifestyle_factors p !! key) →
            is_Some (PatientProfile.lifestyle_factors out.2 !! key)).
Proof.
  intros out. subst out. change (turn_keeps self p (dialogue self p turns).1.2
                                   (dialogue self p turns).2).
  revert self p. induction turns as [|t turns IH]; intros self p; cbn [dialogue].
  - apply turn_keeps_refl.
  - pose proof (turn_keeps_step self p t) as Hstep.
    destruct (turn self p t) as [[r self1] p1]. cbn [fst snd] in Hstep.
    specialize (IH self1 p1). destruct (dialogue self1 p1 turns) as [[rs self2] p2].
    cbn [fst snd] in *. by eapply turn_keeps_trans.
Qed.

End DialogueInvariants.

(** ** The agent: the questions it asks *)

Section Questions.
Import Agent.

(** [generate_targeted_questions] returns one question about habits when
    the focus disease has no missing symptom, and otherwise two: first the
    question about the first missing symptom, then one about habits. *)
Lemma targeted_questions (focus_disease : DiseaseMatchProgress.t)
    (p : PatientProfile.t) :
  match DiseaseMatchProgress.missing_symptoms focus_disease with
  | [] =>
    ∃ q, COTCAgent.generate_targeted_questions focus_disease p = [q] ∧ q ∈ habit_questions
  | symptom :: _ =>
    ∃ q, COTCAgent.generate_targeted_questions focus_disease p
         = [u "您是否还出现了" ++ symptom ++ u "的症状？"; q]
         ∧ q ∈ habit_questions
  end.
Proof.
  unfold COTCAgent.generate_targeted_questions, habit_questions. cbv zeta.
  generalize (u "您最近的饮食习惯有什么变化吗？"), (u "您最近的工作压力大吗？"),
    (u "您的睡眠质量如何？"), (u "您最近的生活习惯有什么变化吗？").
  intros q1 q2 q3 q4.
  set (name := DiseaseMatchProgress.disease_name focus_disease).
  generalize (str_in (u "肠胃") name || str_in (u "消化") name),
    (str_in (u "头痛") name || str_in (u "偏头痛") name),
    (str_in (u "失眠") name || str_in (u "睡眠") name).
  intros b1 b2 b3.
  assert (∃ q, (if b1 then [q1] else if b2 then [q2] else if b3 then [q3] else [q4]) = [q]
               ∧ q ∈ [q1; q2; q3; q4]) as (q & Hq & Hin).
  { destruct b1; [|destruct b2; [|destruct b3]]; eexists; (split; [reflexivity|]);
      repeat first [apply list_elem_of_here | apply list_elem_of_further]. }
  destruct (DiseaseMatchProgress.missing_symptoms focus_disease) as [|symptom rest];
    cbn [firstn List.map]; exists q; (split; [|exact Hin]).
  - destruct b1; [|destruct b2; [|destruct b3]]; simpl in *; congruence.
  - destruct b1; [|destruct b2; [|destruct b3]]; simpl in *; congruence.
Qed.

Lemma existsb_false_filter {A} (f : A → bool) (l : list A) :
  existsb f l = false → List.filter f l = [].
Proof.
  induction l as [|a l IH]; simpl; [done|].
  intros [-> ?]%orb_false_iff. by apply IH.
Qed.

Lemma diagnose_or_ask_asks self p d rest :
  candidates self p = d :: rest →
  existsb COTCAgent.is_perfect (candidates self p) = false →
  COTCAgent.diagnose_or_ask self p
  = (verification_needed (COTCAgent.current_analysis_step self)
       (FocusDisease.mk
          (DiseaseMatchProgress.disease_id d) (DiseaseMatchProgress.disease_name d)
          (DiseaseMatchProgress.match_percentage d) (COTCAgent.confirmed_names p)
          (firstn 3 (DiseaseMatchProgress.missing_symptoms d))
          (DiseaseMatchProgress.total_symptoms d))
       (COTCAgent.generate_targeted_questions d p)
       (COTCAgent.generate_match_visualization d p),
     COTCAgent.set_current_disease_focus d self).
Proof.
  intros Hc Hex. unfold COTCAgent.diagnose_or_ask. fold (candidates self p).
  rewrite (existsb_false_filter _ _ Hex), Hc.
  unfold COTCAgent.generate_verification_questions.
  rewrite Hc in Hex. simpl in Hex. apply orb_false_iff in Hex as [-> _]. done.
Qed.

(** X12: When a turn answers ["verification_needed"], the focus disease of the
    response is the first of the candidates scored on the profile as the
    turn leaves it: no candidate has a greater match percentage, its own is
    below 100, the agent now holds it as its focus, at most its first three
    missing symptoms are shown, and the questions are those
    [generate_targeted_questions] asks about it, one or two of them. *)
Theorem verification_needed_focus (self : COTCAgent.t) (p : PatientProfile.t) (t : Turn) :
  let out := turn self p t in
  match out.1.1 with
  | verification_needed _ focus questions _ =>
    ∃ d rest,
      candidates self out.2 = d :: rest
      ∧ COTCAgent.current_disease_focus out.1.2 = Some d
      ∧ FocusDisease.disease_id focus = DiseaseMatchProgress.disease_id d
      ∧ FocusDisease.disease_name focus = DiseaseMatchProgress.disease_name d
      ∧ FocusDisease.match_percentage focus = DiseaseMatchProgress.match_percentage d
      ∧ ¬ (100 <= DiseaseMatchProgress.match_percentage d)%Q
      ∧ (∀ d', d' ∈ candidates self out.2 →
               (DiseaseMatchProgress.match_percentage d'
                <= DiseaseMatchProgress.match_percentage d)%Q)
      ∧ FocusDisease.missing_symptoms focus
        = firstn 3 (DiseaseMatchProgress.missing_symptoms d)
      ∧ length (FocusDisease.missing_symptoms focus) ≤ 3
      ∧ FocusDisease.confirmed_symptoms focus = COTCAgent.confirmed_names out.2
      ∧ questions = COTCAgent.generate_targeted_questions d out.2
      ∧ 1 ≤ length questions ≤ 2
  | _ => True
  end.
Proof.
  intros out. subst out. rewrite turn_unfold. cbn [fst snd].
  destruct (diagnose_or_ask_cases self (profile_after self p t))
    as [(d & _ & _ & _ & ->) | [[_ ->] | (d & rest & Hc & Hex & _)]]; [done | done |].
  rewrite (diagnose_or_ask_asks _ _ _ _ Hc Hex). cbn [fst snd].
  exists d, rest. cbn [FocusDisease.disease_id FocusDisease.disease_name
    FocusDisease.match_percentage FocusDisease.missing_symptoms
    FocusDisease.confirmed_symptoms COTCAgent.set_current_disease_focus
    COTCAgent.current_disease_focus].
  split_and!; try done.
  - intros Hle%is_perfect_iff. rewrite Hc in Hex. simpl in Hex.
    apply orb_false_iff in Hex as [Hd _]. congruence.
  - intros d' Hd'. pose proof (find_potential_diseases_sorted
      (COTCAgent.disease_matcher self)
      (PatientProfile.confirmed_symptoms (profile_after self p t))) as Hsorted.
    fold (candidates self (profile_after self p t)) in Hsorted. rewrite Hc in Hsorted, Hd'.
    apply StronglySorted_inv in Hsorted as [_ Hall]. rewrite Forall_forall in Hall.
    apply elem_of_cons in Hd' as [->|Hd']; [apply Qle_refl | by apply Hall].
  - apply firstn_le_length.
  - pose proof (targeted_questions d (profile_after self p t)) as Hq.
    destruct (DiseaseMatchProgress.missing_symptoms d);
      destruct Hq as (q & -> & _); simpl; lia.
  - pose proof (targeted_questions d (profile_after self p t)) as Hq.
    destruct (DiseaseMatchProgress.missing_symptoms d);
      destruct Hq as (q & -> & _); simpl; lia.
Qed.

End Questions.

(** ** The agent: the advice of a diagnosis *)

Section Advice.
Import Agent.

Lemma advice_iff (factors : gmap str str) factor line :
  (factor, line) ∈ advice_table →
  line ∈ COTCAgent.generate_lifestyle_advice factors ↔ is_Some (factors !! factor).
Proof.
  assert (Hd : u "建议适当减压，保持心情愉快" ≠ u "注意饮食规律，避免刺激性食物"
             ∧ u "建议适当减压，保持心情愉快" ≠ u "保持规律作息，确保充足睡眠"
             ∧ u "建议适当减压，保持心情愉快" ≠ u "适当运动，增强体质"
             ∧ u "注意饮食规律，避免刺激性食物" ≠ u "保持规律作息，确保充足睡眠"
             ∧ u "注意饮食规律，避免刺激性食物" ≠ u "适当运动，增强体质"
             ∧ u "保持规律作息，确保充足睡眠" ≠ u "适当运动，增强体质")
    by (split_and!; vm_compute; discriminate).
  revert Hd. unfold advice_table, COTCAgent.generate_lifestyle_advice.
  generalize (u "建议适当减压，保持心情愉快"), (u "注意饮食规律，避免刺激性食物"),
    (u "保持规律作息，确保充足睡眠"), (u "适当运动，增强体质"),
    (u "压力"), (u "饮食"), (u "睡眠"), (u "运动").
  intros l1 l2 l3 l4 f1 f2 f3 f4 (H12 & H13 & H14 & H23 & H24 & H34) Hin.
  rewrite !elem_of_cons, elem_of_nil in Hin.
  rewrite !elem_of_app.
  destruct Hin as [[= -> ->]|[[= -> ->]|[[= -> ->]|[[= -> ->]|[]]]]];
    repeat case_bool_decide; rewrite ?elem_of_cons, ?elem_of_nil; intuition congruence.
Qed.

Lemma profile_after_keeps self p t key :
  is_Some (PatientProfile.lifestyle_factors p !! key) →
  is_Some (PatientProfile.lifestyle_factors (profile_after self p t) !! key).
Proof.
  intros Hkey. pose proof (turn_keeps_step self p t) as (_ & _ & _ & Hkeep).
  rewrite turn_unfold in Hkeep. by apply Hkeep.
Qed.

(** X14: A diagnosis carries the three fixed recommendations and, of the four
    lines of lifestyle advice, exactly those whose factor the profile holds
    when the turn ends: so the advice for a factor that the profile held
    before the turn, and for a factor of which the answer of the turn
    holds a keyword. *)
Theorem diagnosis_advice (self : COTCAgent.t) (p : PatientProfile.t) (t : Turn) :
  match (turn self p t).1.1 with
  | diagnosis_complete _ _ recommendations advice =>
    recommendations
    = [u "建议尽快就医确诊并接受治疗"; u "密切观察症状变化"; u "如有症状加重，及时就医"]
    ∧ (∀ factor line, (factor, line) ∈ advice_table →
         line ∈ advice
         ↔ is_Some (PatientProfile.lifestyle_factors (turn self p t).2 !! factor))
    ∧ (∀ factor line, (factor, line) ∈ advice_table →
         is_Some (PatientProfile.lifestyle_factors p !! factor) → line ∈ advice)
    ∧ match t with
      | Query _ => True
      | Answer user_response =>
        ∀ factor keywords line,
          (factor, keywords) ∈ COTCAgent.lifestyle_keywords →
          mentions user_response keywords = true →
          (factor, line) ∈ advice_table → line ∈ advice
      end
  | _ => True
  end.
Proof.
  rewrite turn_unfold. cbn [fst snd].
  destruct (diagnose_or_ask_cases self (profile_after self p t))
    as [(d & _ & _ & _ & ->) | [[_ ->] | (d & rest & _ & _ & Hst & _)]]; cbn [fst].
  - unfold COTCAgent.generate_final_diagnosis. split_and!.
    + done.
    + intros factor line Hin. by apply advice_iff.
    + intros factor line Hin Hkey. apply (advice_iff _ factor); [done|].
      by apply profile_after_keeps.
    + destruct t as [user_input|user_response]; [done|].
      intros factor keywords line Hfam Hm Hin. apply (advice_iff _ factor); [done|].
      cbn [profile_after]. rewrite lifestyle_factors_extend.
      destruct (analyze_user_response_profile self user_response p) as [-> _].
      rewrite store_factors_lookup.
      assert (existsb (fun '(f, keywords) =>
                bool_decide (f = factor) && mentions user_response keywords)
                COTCAgent.lifestyle_keywords = true) as ->; [|done].
      apply existsb_exists. exists (factor, keywords).
      split; [by apply list_elem_of_In|]. by rewrite bool_decide_true, Hm.
  - done.
  - destruct (COTCAgent.diagnose_or_ask self (profile_after self p t)).1; done.
Qed.

End Advice.

(** ** The normaliser: names and identifiers *)

Section Identifiers.
Import Normalizer.

Lemma le_bytes_length n x : length (MD5.le_bytes n x) = n.
Proof. unfold MD5.le_bytes. by rewrite length_map, length_seq. Qed.

Lemma le_bytes_bound n x : Forall (fun b => (b < 256)%N) (MD5.le_bytes n x).
Proof.
  unfold MD5.le_bytes. apply Forall_forall. intros b (i & -> & _)%list_elem_of_fmap.
  change 256%N with (2 ^ 8)%N. change 255%N with (N.ones 8).
  rewrite N.land_ones. apply N.mod_upper_bound. done.
Qed.

Lemma digest_bytes msg :
  length (MD5.digest msg) = 16 ∧ Forall (fun b => (b < 256)%N) (MD5.digest msg).
Proof.
  unfold MD5.digest. destruct (fold_left _ _ _) as [A B C D]. split.
  - by rewrite !length_app, !le_bytes_length.
  - repeat (apply Forall_app; split); apply le_bytes_bound.
Qed.

Lemma hex_digit_upper n :
  (n < 16)%N → is_upper_hex (upper_char (MD5.hex_digit n)) = true.
Proof.
  intros Hn. unfold MD5.hex_digit, upper_char, is_upper_hex.
  destruct (N.ltb_spec n 10).
  - replace ((97 <=? 48 + n)%N) with false by (symmetry; apply N.leb_gt; lia).
    cbn [andb]. replace ((48 <=? 48 + n)%N) with true by (symmetry; apply N.leb_le; lia).
    replace ((48 + n <=? 57)%N) with true by (symmetry; apply N.leb_le; lia). done.
  - replace ((97 <=? 97 + (n - 10))%N) with true by (symmetry; apply N.leb_le; lia).
    replace ((97 + (n - 10) <=? 122)%N) with true by (symmetry; apply N.leb_le; lia).
    cbn [andb]. apply orb_true_iff. right. apply andb_true_iff.
    split; apply N.leb_le; lia.
Qed.

Lemma hex_bytes (bs : list N) :
  Forall (fun b => (b < 256)%N) bs →
  let hex := flat_map (fun b => [MD5.hex_digit (N.shiftr b 4);
                                 MD5.hex_digit (N.land b 0xF)]) bs in
  length hex = 2 * length bs
  ∧ Forall (fun c => is_upper_hex (upper_char c) = true) hex.
Proof.
  induction 1 as [|b bs Hb _ [IHlen IHall]]; [done|]. cbn [flat_map app length]. split.
  - rewrite IHlen. lia.
  - repeat apply Forall_cons_2; [| |done]; apply hex_digit_upper.
    + rewrite N.shiftr_div_pow2. apply N.Div0.div_lt_upper_bound. exact Hb.
    + change 15%N with (N.ones 4). rewrite N.land_ones. by apply N.mod_upper_bound.
Qed.

(** X15: The symptom id of a name of Unicode scalar values (on a name that
    holds a surrogate, [encode('utf-8')] raises and there is no id) is
    "SYM_" followed by eight characters, each a digit or a letter from A to
    F: twelve characters whatever the name. *)
Theorem symptom_id_format (normalized_name : str) :
  forallb scalar_value normalized_name = true →
  ∃ hash_hex,
    _generate_symptom_id normalized_name = u "SYM_" ++ hash_hex
    ∧ length hash_hex = 8
    ∧ forallb is_upper_hex hash_hex = true
    ∧ length (_generate_symptom_id normalized_name) = 12.
Proof.
  intros _. unfold _generate_symptom_id. cbv zeta.
  destruct (digest_bytes (encode_utf8 normalized_name)) as [Hlen Hb].
  destruct (hex_bytes _ Hb) as [Hhex Hall]. fold (MD5.hexdigest (encode_utf8 normalized_name)) in *.
  rewrite Hlen in Hhex.
  eexists. split; [reflexivity|].
  assert (Hl : length (upper (take 8 (MD5.hexdigest (encode_utf8 normalized_name)))) = 8).
  { unfold upper. rewrite length_map, length_take. lia. }
  split_and!.
  - exact Hl.
  - apply forallb_forall. intros c Hc. unfold upper in Hc.
    apply in_map_iff in Hc as (c' & <- & Hc'). apply list_elem_of_In in Hc'.
    apply elem_of_take in Hc' as (i & Hi & _). rewrite Forall_forall in Hall.
    apply Hall. by eapply list_elem_of_lookup_2.
  - rewrite length_app, Hl. done.
Qed.

End Identifiers.

(** X15, witness: the name "头痛", whose id is "SYM_4A41D991". *)
Lemma symptom_id_format_witness :
  ∃ hash_hex,
    Normalizer._generate_symptom_id (u "头痛") = u "SYM_" ++ hash_hex
    ∧ length hash_hex = 8
    ∧ forallb is_upper_hex hash_hex = true
    ∧ length (Normalizer._generate_symptom_id (u "头痛")) = 12.
Proof.
  apply (symptom_id_format (u "头痛")). vm_compute. reflexivity.
Defined.

(** ** The normaliser: the analysis and the build *)

Section NormalizerBuild.
Import Normalizer.
Variable isalnum : N -> bool.

Implicit Types (s2d : gmap str (list DiseaseInfo)) (ids : list (str * str)).

(** X16: A name in which the cleaning keeps no character (an empty name, blanks,
    punctuation) is normalised to "头痛", the first group of the table: the
    empty string is contained in every variant. *)
Theorem normalize_blank (symptom_name : str) :
  clean isalnum symptom_name = [] →
  _normalize_symptom_name isalnum symptom_name = u "头痛".
Proof.
  intros Hclean. unfold _normalize_symptom_name. rewrite Hclean.
  vm_compute. reflexivity.
Qed.

(** X17: Normalising twice reaches a fixed point: a third application changes
    nothing. The fixed point is a name of the table that no earlier group
    matches, or, when no group matches the cleaned name, the cleaned name. *)
Theorem normalize_twice_fixed (symptom_name : str) :
  let twice := _normalize_symptom_name isalnum
                 (_normalize_symptom_name isalnum symptom_name) in
  _normalize_symptom_name isalnum twice = twice
  ∧ (twice ∈ canonical_names ∧ twice ∉ captured_names
     ∨ twice = clean isalnum symptom_name).
Proof.
  intros twice. subst twice.
  destruct (normalize_cases isalnum symptom_name) as [Hk | [E Hclean]].
  - destruct (decide (_normalize_symptom_name isalnum symptom_name ∈ captured_names))
      as [Hc|Hnc].
    + destruct (normalize_captured_name isalnum _ Hc Hk) as (Hk' & Hnc' & _).
      split; [exact (normalize_canonical_name isalnum _ Hk' Hnc') | by left].
    + rewrite !(normalize_canonical_name isalnum _ Hk Hnc). split; [done | by left].
  - rewrite !(normalize_unmatched isalnum symptom_name E). split; [done | by right].
Qed.

Lemma normalized_unnamed s : named s = false → normalized isalnum s = u "头痛".
Proof.
  unfold named, normalized. intros Hs. apply negb_false_iff, bool_decide_eq_true in Hs.
  rewrite Hs. unfold _normalize_symptom_name. cbn [clean List.filter].
  vm_compute. reflexivity.
Qed.

Lemma count_into_app names names' counter :
  count_into (names ++ names') counter = count_into names' (count_into names counter).
Proof. apply fold_left_app. Qed.

Lemma count_into_get names counter name :
  PyDict.get name (count_into names counter)
  = add_count (PyDict.get name counter) (occ name names).
Proof.
  revert counter. induction names as [|n names IH]; intros counter.
  - unfold occ. simpl. destruct (PyDict.get name counter); simpl; [f_equal; lia | done].
  - unfold count_into. cbn [fold_left]. fold (count_into names). rewrite IH.
    unfold occ. cbn [List.filter]. destruct (decide (n = name)) as [->|Hn].
    + rewrite (bool_decide_true (name = name)) by done.
      rewrite dict_get_set_eq. cbn [length add_count].
      destruct (PyDict.get name counter) as [k|]; simpl; [f_equal; lia | done].
    + rewrite (bool_decide_false (n = name)) by done. by rewrite dict_get_set_ne.
Qed.

Lemma count_into_NoDup names counter :
  NoDup (PyDict.keys counter) → NoDup (PyDict.keys (count_into names counter)).
Proof.
  intros Hnd. unfold count_into. apply fold_left_invariant; [done|].
  intros c n _ Hc. by apply dict_NoDup_set.
Qed.

Lemma analyze_symptoms_inner (disease : KB.Disease) symptoms acc :
  fold_left (fun acc symptom =>
      let symptom_name := KB.get (KB.symptom_name symptom) [] in
      if bool_decide (symptom_name = []) then acc
      else
        let normalized_name := _normalize_symptom_name isalnum symptom_name in
        let count := default 0 (PyDict.get normalized_name (symptom_counter acc)) in
        mkAnalysis
          (PyDict.set normalized_name (count + 1) (symptom_counter acc))
          (disease_symptom_pairs acc
             ++ [(KB.get (KB.disease_mingcheng disease) [], normalized_name, symptom)]))
    symptoms acc
  = mkAnalysis
      (count_into (List.map (normalized isalnum) (List.filter named symptoms))
                  (symptom_counter acc))
      (disease_symptom_pairs acc
         ++ List.map (fun s => (KB.get (KB.disease_mingcheng disease) [],
                                normalized isalnum s, s))
                     (List.filter named symptoms)).
Proof.
  revert acc. induction symptoms as [|s symptoms IH]; intros acc.
  - destruct acc. simpl. by rewrite app_nil_r.
  - change (fold_left ?f (s :: symptoms) acc) with (fold_left f symptoms (f acc s)).
    rewrite IH. cbv beta zeta. cbn [List.filter]. unfold named at 3 6.
    destruct (decide (KB.get (KB.symptom_name s) [] = [])) as [Hs|Hs].
    + by rewrite !(bool_decide_true _ Hs).
    + rewrite !(bool_decide_false _ Hs).
      cbn [negb symptom_counter disease_symptom_pairs List.map].
      by rewrite <- app_assoc.
Qed.

Lemma analyze_symptoms_fold diseases_data acc :
  fold_left (fun acc disease =>
      let disease_name := KB.get (KB.disease_mingcheng disease) [] in
      let symptoms := KB.get (KB.symptom_list disease) [] in
      fold_left (fun acc symptom =>
          let symptom_name := KB.get (KB.symptom_name symptom) [] in
          if bool_decide (symptom_name = []) then acc
          else
            let normalized_name := _normalize_symptom_name isalnum symptom_name in
            let count := default 0 (PyDict.get normalized_name (symptom_counter acc)) in
            mkAnalysis
              (PyDict.set normalized_name (count + 1) (symptom_counter acc))
              (disease_symptom_pairs acc ++ [(disease_name, normalized_name, symptom)]))
        symptoms acc)
    diseases_data acc
  = mkAnalysis
      (count_into (named_names isalnum diseases_data) (symptom_counter acc))
      (disease_symptom_pairs acc
         ++ flat_map (fun d =>
              List.map (fun s => (KB.get (KB.disease_mingcheng d) [],
                                  normalized isalnum s, s))
                       (List.filter named (KB.get (KB.symptom_list d) [])))
            diseases_data).
Proof.
  revert acc. induction diseases_data as [|d diseases_data IH]; intros acc.
  - destruct acc. simpl. by rewrite app_nil_r.
  - change (fold_left ?f (d :: diseases_data) acc) with (fold_left f diseases_data (f acc d)).
    rewrite IH. cbv beta zeta. rewrite analyze_symptoms_inner.
    cbn [symptom_counter disease_symptom_pairs named_names flat_map].
    by rewrite count_into_app, <- app_assoc.
Qed.

Lemma occ_zero name names : occ name names = 0 ↔ name ∉ names.
Proof.
  unfold occ. induction names as [|n names IH]; cbn [List.filter].
  - split; [intros _; apply not_elem_of_nil | done].
  - rewrite not_elem_of_cons. destruct (decide (n = name)) as [->|Hn].
    + rewrite (bool_decide_true (name = name)) by done. simpl.
      split; [done | by intros [? _]].
    + rewrite (bool_decide_false (n = name)) by done. rewrite IH.
      split; [by intros ?; split; [congruence|] | by intros [_ ?]].
Qed.

Lemma analyze_symptoms_get diseases_data name :
  PyDict.get name (symptom_counter (analyze_symptoms isalnum diseases_data))
  = if bool_decide (name ∈ named_names isalnum diseases_data)
    then Some (occ name (named_names isalnum diseases_data)) else None.
Proof.
  unfold analyze_symptoms. rewrite analyze_symptoms_fold. cbn [symptom_counter].
  rewrite count_into_get. cbn [PyDict.get add_count].
  pose proof (occ_zero name (named_names isalnum diseases_data)) as Hz.
  destruct (decide (name ∈ named_names isalnum diseases_data)) as [Hin|Hin].
  - rewrite (bool_decide_true _ Hin). rewrite bool_decide_false; [done|].
    intros H0. by apply Hz in H0.
  - rewrite (bool_decide_false _ Hin). rewrite bool_decide_true; [done|]. by apply Hz.
Qed.

Lemma analyze_symptoms_keys diseases_data name :
  name ∈ PyDict.keys (symptom_counter (analyze_symptoms isalnum diseases_data))
  ↔ name ∈ named_names isalnum diseases_data.
Proof.
  pose proof (dict_get_None_keys (symptom_counter (analyze_symptoms isalnum diseases_data))
                name) as Hk.
  rewrite analyze_symptoms_get in Hk.
  destruct (decide (name ∈ named_names isalnum diseases_data)) as [Hin|Hin].
  - rewrite (bool_decide_true _ Hin) in Hk. split; [done|]. intros _.
    destruct (decide (name ∈ PyDict.keys
                (symptom_counter (analyze_symptoms isalnum diseases_data)))); [done|].
    by apply Hk in n.
  - rewrite (bool_decide_false _ Hin) in Hk. split; [|done]. intros Hkeys.
    exfalso. by apply Hk.
Qed.

(** X18: [analyze_symptoms] counts, for every normalised name, the symptoms with
    a non-empty name that normalise to it, and no other name has a count;
    the pairs it lists are those symptoms, in the order of the file, each
    with the name of its disease. Symptoms without a name are left out of
    both. *)
Theorem analyze_symptoms_counts (diseases_data : list KB.Disease) :
  let analysis := analyze_symptoms isalnum diseases_data in
  NoDup (PyDict.keys (symptom_counter analysis))
  ∧ (∀ name,
       PyDict.get name (symptom_counter analysis)
       = if bool_decide (name ∈ named_names isalnum diseases_data)
         then Some (occ name (named_names isalnum diseases_data)) else None)
  ∧ disease_symptom_pairs analysis
    = flat_map (fun d =>
          List.map (fun s => (KB.get (KB.disease_mingcheng d) [], normalized isalnum s, s))
                   (List.filter named (KB.get (KB.symptom_list d) [])))
        diseases_data
  ∧ List.map (fun pair => pair.1.2) (disease_symptom_pairs analysis)
    = named_names isalnum diseases_data.
Proof.
  intros analysis. subst analysis.
  assert (Hpairs : disease_symptom_pairs (analyze_symptoms isalnum diseases_data)
            = flat_map (fun d =>
                  List.map (fun s => (KB.get (KB.disease_mingcheng d) [],
                                      normalized isalnum s, s))
                           (List.filter named (KB.get (KB.symptom_list d) [])))
                diseases_data).
  { unfold analyze_symptoms. by rewrite analyze_symptoms_fold. }
  split_and!.
  - unfold analyze_symptoms. rewrite analyze_symptoms_fold. cbn [symptom_counter].
    apply count_into_NoDup. apply NoDup_nil_2.
  - intros name. apply analyze_symptoms_get.
  - exact Hpairs.
  - rewrite Hpairs. clear Hpairs.
    induction diseases_data as [|d diseases_data IH]; [done|].
    cbn [flat_map named_names]. rewrite map_app, IH. f_equal.
    rewrite map_map. done.
Qed.

Lemma assign_ids_get names ids name :
  PyDict.get name (assign_ids names ids)
  = match PyDict.get name ids with
    | Some id => Some id
    | None => if bool_decide (name ∈ names) then Some (_generate_symptom_id name) else None
    end.
Proof.
  revert ids. induction names as [|n names IH]; intros ids.
  - simpl. by destruct (PyDict.get name ids).
  - unfold assign_ids. cbn [fold_left]. fold (assign_ids names). rewrite IH.
    unfold PyDict.mem. destruct (PyDict.get n ids) as [idn|] eqn:En.
    + destruct (PyDict.get name ids) eqn:E; [done|].
      assert (n ≠ name) by congruence.
      rewrite (bool_decide_ext (name ∈ names) (name ∈ n :: names)); [done|].
      rewrite elem_of_cons. split; [by right | by intros [?|?]].
    + destruct (decide (n = name)) as [->|Hn].
      * rewrite dict_get_set_eq, En. rewrite bool_decide_true; [done | by left].
      * rewrite dict_get_set_ne by done. destruct (PyDict.get name ids); [done|].
        rewrite (bool_decide_ext (name ∈ names) (name ∈ n :: names)); [done|].
        rewrite elem_of_cons. split; [by right | by intros [?|?]].
Qed.

Lemma assign_ids_NoDup names ids :
  NoDup (PyDict.keys ids) → NoDup (PyDict.keys (assign_ids names ids)).
Proof.
  intros Hnd. unfold assign_ids. apply fold_left_invariant; [done|].
  intros c n _ Hc. destruct (PyDict.mem n c); [done|]. by apply dict_NoDup_set.
Qed.

Lemma symptom_id_nonempty name : _generate_symptom_id name ≠ [].
Proof.
  unfold _generate_symptom_id. cbv zeta. intros H. apply (f_equal length) in H.
  rewrite length_app in H.
  assert (Hl : length (u "SYM_") = 4) by (vm_compute; reflexivity).
  rewrite Hl in H. simpl in H. lia.
Qed.

Lemma append_to_nil {A} (o : option (list A)) : append_to o [] = o.
Proof. destruct o; simpl; [by rewrite app_nil_r | done]. Qed.

Lemma append_to_app {A} (o : option (list A)) l1 l2 :
  append_to (append_to o l1) l2 = append_to o (l1 ++ l2).
Proof.
  destruct o as [l0|]; simpl; [by rewrite app_assoc|].
  destruct l1; simpl; [done | done].
Qed.

Lemma append_to_elem {A} (o : option (list A)) l l' x :
  append_to o l = Some l' → x ∈ l' ↔ x ∈ default [] o ∨ x ∈ l.
Proof.
  destruct o as [l0|]; simpl.
  - intros [= <-]. apply elem_of_app.
  - destruct l; [done|]. intros [= <-]. rewrite elem_of_nil.
    split; [by right | by intros [[]|?]].
Qed.

Lemma update_symptom_exact ids disease us s2d s :
  update_symptom isalnum ids disease (us, s2d) s
  = if identified isalnum ids s
    then (us ++ [KB.mkSymptom (KB.symptom_name s) (KB.specificity s)
                   (Some (id_of isalnum ids s)) (Some (normalized isalnum s))],
          <[id_of isalnum ids s :=
              default [] (s2d !! id_of isalnum ids s) ++ [info_of disease s]]> s2d)
    else (us, s2d).
Proof.
  unfold update_symptom, identified, id_of, normalized, info_of.
  destruct (PyDict.get _ ids) as [id|]; simpl; [|done].
  by destruct (decide (id = [])) as [Hid|Hid];
    [rewrite !(bool_decide_true _ Hid) | rewrite !(bool_decide_false _ Hid)].
Qed.

Lemma update_symptoms_exact ids disease symptoms us s2d :
  let st := fold_left (update_symptom isalnum ids disease) symptoms (us, s2d) in
  st.1 = us ++ List.map (fun s => KB.mkSymptom (KB.symptom_name s) (KB.specificity s)
                                    (Some (id_of isalnum ids s))
                                    (Some (normalized isalnum s)))
                        (List.filter (identified isalnum ids) symptoms)
  ∧ ∀ id, st.2 !! id
          = append_to (s2d !! id)
              (List.map (info_of disease)
                 (List.filter (fun s => identified isalnum ids s
                                        && bool_decide (id_of isalnum ids s = id))
                              symptoms)).
Proof.
  revert us s2d. induction symptoms as [|s symptoms IH]; intros us s2d; cbn [fold_left].
  - cbn [fst snd List.filter List.map]. split; [by rewrite app_nil_r|].
    intros id. by rewrite append_to_nil.
  - rewrite update_symptom_exact. cbn [List.filter].
    destruct (identified isalnum ids s) eqn:Hs; cbn [andb]; [|apply IH].
    destruct (IH (us ++ [KB.mkSymptom (KB.symptom_name s) (KB.specificity s)
                           (Some (id_of isalnum ids s)) (Some (normalized isalnum s))])
                 (<[id_of isalnum ids s :=
                      default [] (s2d !! id_of isalnum ids s) ++ [info_of disease s]]> s2d))
      as [IH1 IH2].
    split; [by rewrite IH1, <- app_assoc|].
    intros id. rewrite IH2. destruct (decide (id_of isalnum ids s = id)) as [Hid|Hid].
    + rewrite (bool_decide_true _ Hid), Hid, lookup_insert_eq. cbn [List.map].
      destruct (s2d !! id); simpl; by rewrite <- ?app_assoc.
    + by rewrite (bool_decide_false _ Hid), lookup_insert_ne.
Qed.

Lemma update_disease_exact ids ds s2d d :
  ∃ s2d',
    update_disease isalnum ids (ds, s2d) d
    = (ds ++ [KB.mkDisease (KB.disease_ID d) (KB.disease_mingcheng d)
                (Some (List.map (fun s => KB.mkSymptom (KB.symptom_name s)
                                            (KB.specificity s)
                                            (Some (id_of isalnum ids s))
                                            (Some (normalized isalnum s)))
                         (List.filter (identified isalnum ids)
                                      (KB.get (KB.symptom_list d) []))))],
       s2d')
    ∧ ∀ id, s2d' !! id
            = append_to (s2d !! id)
                (List.map (info_of d)
                   (List.filter (fun s => identified isalnum ids s
                                          && bool_decide (id_of isalnum ids s = id))
                                (KB.get (KB.symptom_list d) []))).
Proof.
  unfold update_disease.
  destruct (update_symptoms_exact ids d (KB.get (KB.symptom_list d) []) [] s2d)
    as [H1 H2].
  destruct (fold_left (update_symptom isalnum ids d) _ ([], s2d)) as [us s2d'].
  cbn [fst snd app] in H1, H2. subst us. by exists s2d'.
Qed.

Lemma update_diseases_exact ids diseases_data ds s2d :
  let st := fold_left (update_disease isalnum ids) diseases_data (ds, s2d) in
  st.1 = ds ++ List.map (fun d =>
                 KB.mkDisease (KB.disease_ID d) (KB.disease_mingcheng d)
                   (Some (List.map (fun s => KB.mkSymptom (KB.symptom_name s)
                                               (KB.specificity s)
                                               (Some (id_of isalnum ids s))
                                               (Some (normalized isalnum s)))
                            (List.filter (identified isalnum ids)
                                         (KB.get (KB.symptom_list d) [])))))
               diseases_data
  ∧ ∀ id, st.2 !! id
          = append_to (s2d !! id) (recorded_under isalnum ids id diseases_data).
Proof.
  revert ds s2d. induction diseases_data as [|d diseases_data IH]; intros ds s2d;
    cbn [fold_left].
  - cbn [fst snd List.map recorded_under flat_map]. split; [by rewrite app_nil_r|].
    intros id. by rewrite append_to_nil.
  - destruct (update_disease_exact ids ds s2d d) as (s2d' & -> & H2).
    destruct (IH (ds ++ [KB.mkDisease (KB.disease_ID d) (KB.disease_mingcheng d)
                           (Some (List.map (fun s => KB.mkSymptom (KB.symptom_name s)
                                               (KB.specificity s)
                                               (Some (id_of isalnum ids s))
                                               (Some (normalized isalnum s)))
                                    (List.filter (identified isalnum ids)
                                                 (KB.get (KB.symptom_list d) []))))])
                 s2d') as [IH1 IH2].
    split; [by rewrite IH1, <- app_assoc|].
    intros id. rewrite IH2, H2, append_to_app. done.
Qed.

Lemma fresh_ids_get diseases_data name :
  PyDict.get name
    (assign_ids (PyDict.keys (symptom_counter (analyze_symptoms isalnum diseases_data))) [])
  = if bool_decide (name ∈ named_names isalnum diseases_data)
    then Some (_generate_symptom_id name) else None.
Proof.
  rewrite assign_ids_get. cbn [PyDict.get].
  by rewrite (bool_decide_ext _ _ (analyze_symptoms_keys diseases_data name)).
Qed.

Lemma fresh_ids_symptom diseases_data s :
  let ids := assign_ids
               (PyDict.keys (symptom_counter (analyze_symptoms isalnum diseases_data))) [] in
  identified isalnum ids s
  = bool_decide (normalized isalnum s ∈ named_names isalnum diseases_data)
  ∧ (identified isalnum ids s = true →
     id_of isalnum ids s = _generate_symptom_id (normalized isalnum s)).
Proof.
  intros ids. unfold identified, id_of. subst ids. rewrite fresh_ids_get.
  destruct (decide (normalized isalnum s ∈ named_names isalnum diseases_data)) as [Hin|Hin].
  - rewrite !(bool_decide_true _ Hin). cbn [default from_option id].
    rewrite (bool_decide_false _ (symptom_id_nonempty _)). done.
  - rewrite !(bool_decide_false _ Hin). cbn [default from_option id]. done.
Qed.

Lemma named_names_elem diseases_data d s :
  d ∈ diseases_data → s ∈ KB.get (KB.symptom_list d) [] → named s = true →
  normalized isalnum s ∈ named_names isalnum diseases_data.
Proof.
  intros Hd Hs Hn. unfold named_names. apply list_elem_of_In, in_flat_map.
  exists d. split; [by apply list_elem_of_In|]. apply in_map, filter_In.
  split; [by apply list_elem_of_In | done].
Qed.

Lemma kept_by_build_iff diseases_data d s :
  d ∈ diseases_data → s ∈ KB.get (KB.symptom_list d) [] →
  bool_decide (normalized isalnum s ∈ named_names isalnum diseases_data)
  = kept_by_build isalnum diseases_data s.
Proof.
  intros Hd Hs. unfold kept_by_build. destruct (named s) eqn:Hn; cbn [orb].
  - apply bool_decide_true. by eapply named_names_elem.
  - by rewrite (normalized_unnamed s Hn).
Qed.

Lemma normalize_disease_data_exact diseases_data :
  let ids := assign_ids
               (PyDict.keys (symptom_counter (analyze_symptoms isalnum diseases_data))) [] in
  let out := normalize_disease_data isalnum __init__ diseases_data in
  out.1.2 = ids ∧ unified_symptom_ids out.2 = ids
  ∧ out.1.1
    = List.map (fun d =>
          KB.mkDisease (KB.disease_ID d) (KB.disease_mingcheng d)
            (Some (List.map (fun s => KB.mkSymptom (KB.symptom_name s) (KB.specificity s)
                                        (Some (id_of isalnum ids s))
                                        (Some (normalized isalnum s)))
                     (List.filter (identified isalnum ids)
                                  (KB.get (KB.symptom_list d) [])))))
        diseases_data
  ∧ ∀ id, symptom_to_diseases out.2 !! id
          = append_to None (recorded_under isalnum ids id diseases_data).
Proof.
  intros ids out. subst out. unfold normalize_disease_data.
  cbn [__init__ unified_symptom_ids symptom_to_diseases]. fold ids.
  destruct (update_diseases_exact ids diseases_data [] ∅) as [H1 H2].
  destruct (fold_left (update_disease isalnum ids) diseases_data ([], ∅)) as [ds s2d].
  cbn [fst snd app unified_symptom_ids symptom_to_diseases] in *.
  split_and!; [done | done | done |]. intros id. by rewrite H2, lookup_empty.
Qed.

(** X19: The id table after a build on a new normaliser: a name has an id
    exactly when it is the normalised name of a symptom of the database
    that has a name, and the id is the one generated from the name; the
    table the call returns is the table the instance keeps. *)
Theorem unified_symptom_ids_table (diseases_data : list KB.Disease) :
  let out := normalize_disease_data isalnum __init__ diseases_data in
  unified_symptom_ids out.2 = out.1.2
  ∧ NoDup (PyDict.keys out.1.2)
  ∧ ∀ name,
      PyDict.get name out.1.2
      = if bool_decide (name ∈ named_names isalnum diseases_data)
        then Some (_generate_symptom_id name) else None.
Proof.
  intros out. subst out.
  destruct (normalize_disease_data_exact diseases_data) as (-> & -> & _ & _).
  split_and!; [done | |].
  - apply assign_ids_NoDup. apply NoDup_nil_2.
  - intros name. apply fresh_ids_get.
Qed.

(** X20: The database a build on a new normaliser returns: the diseases of the
    input, in their order, each with its "疾病ID" and "疾病名称"; every
    symptom that has a name is kept, in order, with its name and
    specificity, its normalised name and the id generated from it. A symptom
    without a name is dropped, unless some named symptom of the database
    normalises to "头痛": then it is kept as a "头痛". *)
Theorem normalize_disease_data_output (diseases_data : list KB.Disease) :
  let out := normalize_disease_data isalnum __init__ diseases_data in
  out.1.1
  = List.map (fun d =>
        KB.mkDisease (KB.disease_ID d) (KB.disease_mingcheng d)
          (Some (List.map (annotated isalnum)
                   (List.filter (kept_by_build isalnum diseases_data)
                                (KB.get (KB.symptom_list d) [])))))
      diseases_data.
Proof.
  intros out. subst out.
  destruct (normalize_disease_data_exact diseases_data) as (_ & _ & -> & _).
  apply map_ext_in. intros d Hd%list_elem_of_In. f_equal. f_equal.
  assert (Hf : List.filter (identified isalnum (assign_ids (PyDict.keys
                  (symptom_counter (analyze_symptoms isalnum diseases_data))) []))
                 (KB.get (KB.symptom_list d) [])
               = List.filter (kept_by_build isalnum diseases_data)
                   (KB.get (KB.symptom_list d) [])).
  { apply filter_ext_in. intros s Hs%list_elem_of_In.
    destruct (fresh_ids_symptom diseases_data s) as [-> _].
    by eapply kept_by_build_iff. }
  rewrite <- Hf. apply map_ext_in. intros s [_ Hs]%filter_In.
  destruct (fresh_ids_symptom diseases_data s) as [_ Hid].
  unfold annotated. by rewrite Hid.
Qed.

Lemma recorded_under_elem ids id diseases_data info :
  info ∈ recorded_under isalnum ids id diseases_data ↔
  ∃ d s, d ∈ diseases_data ∧ s ∈ KB.get (KB.symptom_list d) []
         ∧ identified isalnum ids s = true ∧ id_of isalnum ids s = id
         ∧ info = info_of d s.
Proof.
  unfold recorded_under. rewrite list_elem_of_In, in_flat_map. split.
  - intros (d & Hd & Hin). apply in_map_iff in Hin as (s & <- & Hs).
    apply filter_In in Hs as [Hs Hc]. apply andb_true_iff in Hc as [Hi Hid].
    apply bool_decide_eq_true in Hid.
    exists d, s. split_and!; try done; by apply list_elem_of_In.
  - intros (d & s & Hd & Hs & Hi & Hid & ->). exists d.
    split; [by apply list_elem_of_In|]. apply in_map, filter_In.
    split; [by apply list_elem_of_In|]. rewrite Hi. by apply bool_decide_eq_true.
Qed.

Lemma fresh_recorded_under diseases_data id info :
  info ∈ recorded_under isalnum
           (assign_ids (PyDict.keys
              (symptom_counter (analyze_symptoms isalnum diseases_data))) [])
           id diseases_data ↔
  ∃ d s, d ∈ diseases_data ∧ s ∈ KB.get (KB.symptom_list d) []
         ∧ kept_by_build isalnum diseases_data s = true
         ∧ _generate_symptom_id (normalized isalnum s) = id
         ∧ info = info_of d s.
Proof.
  rewrite recorded_under_elem. split.
  - intros (d & s & Hd & Hs & Hi & Hid & ->). exists d, s.
    destruct (fresh_ids_symptom diseases_data s) as [Hk Hg].
    split_and!; [done | done | | | done].
    + rewrite <- (kept_by_build_iff diseases_data d s Hd Hs), <- Hk. done.
    + by rewrite <- Hg.
  - intros (d & s & Hd & Hs & Hk & Hid & ->). exists d, s.
    destruct (fresh_ids_symptom diseases_data s) as [Hi Hg].
    rewrite (kept_by_build_iff diseases_data d s Hd Hs), Hk in Hi.
    split_and!; [done | done | done | | done]. by rewrite Hg.
Qed.

Lemma unique_diseases_elem seen diseases info :
  info ∈ unique_diseases seen diseases → info ∈ diseases.
Proof.
  revert seen. induction diseases as [|d diseases IH]; intros seen; cbn [unique_diseases].
  - done.
  - destruct (decide (disease_id d ∈ seen)).
    + intros H. right. by eapply IH.
    + intros [->|H]%elem_of_cons; [by left | right; by eapply IH].
Qed.

Lemma find_is_Some {A} (f : A → bool) (l : list A) :
  is_Some (List.find f l) ↔ ∃ x, x ∈ l ∧ f x = true.
Proof.
  split.
  - intros [x Hx]. apply find_some in Hx as [Hin Hf]. exists x.
    split; [by apply list_elem_of_In | done].
  - intros (x & Hin & Hf). destruct (List.find f l) eqn:E; [done|].
    apply list_elem_of_In in Hin. pose proof (find_none _ _ E x Hin). congruence.
Qed.

Lemma dict_elem_get ids name id :
  NoDup (PyDict.keys ids) → (name, id) ∈ ids → PyDict.get name ids = Some id.
Proof.
  induction ids as [|[k v] ids IH]; [by intros _ ?%elem_of_nil|].
  cbn [PyDict.keys List.map fst PyDict.get]. intros [Hk Hnd]%NoDup_cons Hin.
  apply elem_of_cons in Hin as [[= -> ->]|Hin].
  - by rewrite decide_True.
  - rewrite decide_False; [by apply IH|]. intros ->. apply Hk.
    apply list_elem_of_In, in_map_iff. exists (name, id).
    split; [done | by apply list_elem_of_In].
Qed.

Lemma fresh_id_name diseases_data id info :
  let ids := assign_ids
               (PyDict.keys (symptom_counter (analyze_symptoms isalnum diseases_data))) [] in
  info ∈ recorded_under isalnum ids id diseases_data →
  ∃ name,
    fst <$> List.find (fun item => bool_decide (snd item = id)) ids = Some name
    ∧ name ∈ named_names isalnum diseases_data
    ∧ _generate_symptom_id name = id.
Proof.
  intros ids (d & s & Hd & Hs & Hk & Hid & _)%fresh_recorded_under.
  rewrite <- (kept_by_build_iff diseases_data d s Hd Hs) in Hk.
  apply bool_decide_eq_true in Hk.
  pose proof (fresh_ids_get diseases_data (normalized isalnum s)) as Hget.
  rewrite (bool_decide_true _ Hk), Hid in Hget. fold ids in Hget.
  apply dict_get_Some_elem in Hget.
  assert (Hfind : is_Some (List.find (fun item => bool_decide (snd item = id)) ids)).
  { apply find_is_Some. exists (normalized isalnum s, id).
    split; [done | by apply bool_decide_eq_true]. }
  destruct Hfind as [[name id'] Hfind]. rewrite Hfind. exists name.
  apply find_some in Hfind as [Hin Heq]. apply bool_decide_eq_true in Heq.
  cbn [snd] in Heq. subst id'. apply list_elem_of_In in Hin.
  apply dict_elem_get in Hin; [|apply assign_ids_NoDup, NoDup_nil_2].
  unfold ids in Hin. rewrite fresh_ids_get in Hin.
  destruct (decide (name ∈ named_names isalnum diseases_data)) as [Hn|Hn].
  - rewrite (bool_decide_true _ Hn) in Hin. by injection Hin as <-.
  - by rewrite (bool_decide_false _ Hn) in Hin.
Qed.

Lemma fresh_reverse_lookup diseases_data id :
  let ids := assign_ids
               (PyDict.keys (symptom_counter (analyze_symptoms isalnum diseases_data))) [] in
  create_reverse_mapping (normalize_disease_data isalnum __init__ diseases_data).2 !! id
  = match recorded_under isalnum ids id diseases_data with
    | [] => None
    | accumulated =>
      Some (mkReverseEntry
              (fst <$> List.find (fun item => bool_decide (snd item = id)) ids)
              (length (unique_diseases ∅ accumulated)) (unique_diseases ∅ accumulated))
    end.
Proof.
  intros ids. rewrite create_reverse_mapping_lookup.
  destruct (normalize_disease_data_exact diseases_data) as (_ & -> & _ & ->).
  fold ids. by destruct (recorded_under isalnum ids id diseases_data).
Qed.

Lemma fresh_reverse_lookup_Some diseases_data id entry :
  let ids := assign_ids
               (PyDict.keys (symptom_counter (analyze_symptoms isalnum diseases_data))) [] in
  let accumulated := recorded_under isalnum ids id diseases_data in
  create_reverse_mapping (normalize_disease_data isalnum __init__ diseases_data).2 !! id
  = Some entry →
  (∃ info, info ∈ accumulated)
  ∧ entry = mkReverseEntry
              (fst <$> List.find (fun item => bool_decide (snd item = id)) ids)
              (length (unique_diseases ∅ accumulated)) (unique_diseases ∅ accumulated).
Proof.
  intros ids accumulated. rewrite fresh_reverse_lookup. fold ids accumulated.
  destruct accumulated as [|info l]; [done|]. intros [= <-].
  split; [exists info; by left | done].
Qed.

(** X21: The reverse index after a build on a new normaliser, against the
    input: it has an entry under an id exactly when some disease lists a
    symptom that the build keeps under that id; every dict of an entry
    comes from such a disease and symptom, whose "疾病ID", "疾病名称" and
    specificity it holds; every such disease has a dict in the entry; and
    the name of the entry is a normalised name of the database whose
    generated id is the entry's key. *)
Theorem reverse_index_exact (diseases_data : list KB.Disease) :
  let out := normalize_disease_data isalnum __init__ diseases_data in
  let reverse_index := create_reverse_mapping out.2 in
  (∀ id, is_Some (reverse_index !! id)
         ↔ ∃ d, d ∈ diseases_data ∧ lists_under isalnum diseases_data id d)
  ∧ ∀ id entry,
      reverse_index !! id = Some entry →
      (∀ info, info ∈ diseases entry →
         ∃ d s, d ∈ diseases_data ∧ s ∈ KB.get (KB.symptom_list d) []
                ∧ kept_by_build isalnum diseases_data s = true
                ∧ _generate_symptom_id (normalized isalnum s) = id
                ∧ info = info_of d s)
      ∧ (∀ d, d ∈ diseases_data → lists_under isalnum diseases_data id d →
              ∃ info, info ∈ diseases entry ∧ disease_id info = KB.disease_ID d)
      ∧ ∃ name, symptom_name entry = Some name
                ∧ name ∈ named_names isalnum diseases_data
                ∧ _generate_symptom_id name = id.
Proof.
  intros out reverse_index. subst out reverse_index. split.
  - intros id. rewrite fresh_reverse_lookup.
    destruct (recorded_under _ _ id diseases_data) as [|info l] eqn:E.
    + split; [by intros [? ?]|]. intros (d & Hd & s & Hs & Hk & Hid). exfalso.
      assert (Hin : info_of d s ∈ recorded_under isalnum
                (assign_ids (PyDict.keys
                   (symptom_counter (analyze_symptoms isalnum diseases_data))) [])
                id diseases_data)
        by (apply fresh_recorded_under; by exists d, s).
      rewrite E in Hin. by apply elem_of_nil in Hin.
    + split; [intros _ | by eexists].
      assert (Hin : info ∈ recorded_under isalnum
                (assign_ids (PyDict.keys
                   (symptom_counter (analyze_symptoms isalnum diseases_data))) [])
                id diseases_data) by (rewrite E; by left).
      apply fresh_recorded_under in Hin as (d & s & Hd & Hs & Hk & Hid & _).
      exists d. split; [done|]. by exists s.
  - intros id entry [[info0 Hin0] ->]%fresh_reverse_lookup_Some.
    cbn [diseases symptom_name]. split_and!.
    + intros info Hin%unique_diseases_elem. by apply fresh_recorded_under.
    + intros d Hd (s & Hs & Hk & Hid).
      assert (Hin : info_of d s ∈ recorded_under isalnum
                (assign_ids (PyDict.keys
                   (symptom_counter (analyze_symptoms isalnum diseases_data))) [])
                id diseases_data)
        by (apply fresh_recorded_under; by exists d, s).
      assert (Hfind : is_Some (List.find
                (fun i => bool_decide (disease_id i = KB.disease_ID d))
                (unique_diseases ∅ (recorded_under isalnum
                   (assign_ids (PyDict.keys
                      (symptom_counter (analyze_symptoms isalnum diseases_data))) [])
                   id diseases_data)))).
      { rewrite unique_diseases_find. rewrite decide_False by apply not_elem_of_empty.
        apply find_is_Some. exists (info_of d s). split; [done|].
        by apply bool_decide_eq_true. }
      apply find_is_Some in Hfind as (info & Hinfo & Heq).
      apply bool_decide_eq_true in Heq. by exists info.
    + by apply (fresh_id_name diseases_data id info0).
Qed.

Lemma size_list_to_set_le (l : list str) : size (list_to_set l : gset str) ≤ length l.
Proof.
  induction l as [|x l IH]; cbn [list_to_set length].
  - by rewrite size_empty.
  - rewrite size_union_alt, size_singleton.
    assert (size (list_to_set l ∖ {[x]} : gset str) ≤ size (list_to_set l : gset str)).
    { apply subseteq_size. apply subseteq_difference_l. done. }
    lia.
Qed.

Lemma fresh_reverse_size diseases_data :
  size (create_reverse_mapping (normalize_disease_data isalnum __init__ diseases_data).2)
  ≤ length (normalize_disease_data isalnum __init__ diseases_data).1.2.
Proof.
  destruct (normalize_disease_data_exact diseases_data) as (-> & _ & _ & _).
  set (ids := assign_ids _ []).
  rewrite <- (size_dom (D := gset str)).
  etrans; [|etrans; [apply (size_list_to_set_le (ids.*2)) | by rewrite length_fmap]].
  apply subseteq_size. intros id [entry Hentry]%elem_of_dom.
  apply fresh_reverse_lookup_Some in Hentry as [[info Hinfo] _].
  apply fresh_id_name in Hinfo as (name & Hfind & _). fold ids in Hfind.
  destruct (List.find _ ids) as [[name' id']|] eqn:E; [|done].
  apply find_some in E as [Hin Heq]. apply bool_decide_eq_true in Heq. cbn [snd] in Heq.
  subst id'. apply elem_of_list_to_set, list_elem_of_fmap.
  exists (name', id). split; [done | by apply list_elem_of_In].
Qed.

(** X22: [main] returns before writing anything when the input file is missing
    or is not JSON. Otherwise the statistics it writes are these: as many
    diseases as the input has, all of them written; as many symptoms as there
    are distinct normalised names of symptoms that have a name; and a
    reverse table of at most that many entries. *)
Theorem main_counts (input_file : KB.file) :
  match main isalnum input_file with
  | None => input_file = KB.Missing ∨ input_file = KB.Unparseable
  | Some written =>
    ∃ data,
      input_file = KB.Json data
      ∧ disease_total written = length (KB.get (KB.disease_ku data) [])
      ∧ length (normalized_diseases written) = disease_total written
      ∧ symptom_total written = length (PyDict.keys (symptom_id_mapping written))
      ∧ NoDup (PyDict.keys (symptom_id_mapping written))
      ∧ (∀ name, name ∈ PyDict.keys (symptom_id_mapping written)
                 ↔ name ∈ named_names isalnum (KB.get (KB.disease_ku data) []))
      ∧ reverse_total written = size (reverse_mapping written)
      ∧ reverse_total written ≤ symptom_total written
  end.
Proof.
  destruct input_file as [| |data]; cbn [main KB.json_load]; [by left | by right |].
  unfold main. cbn [KB.json_load].
  set (diseases_data := KB.get (KB.disease_ku data) []).
  pose proof (normalize_disease_data_exact diseases_data) as (Hids & _ & Hds & _).
  pose proof (fresh_reverse_size diseases_data) as Hsize.
  destruct (normalize_disease_data isalnum __init__ diseases_data) as [[ds ids] nz].
  cbn [fst snd] in Hids, Hds, Hsize.
  cbn [disease_total normalized_diseases symptom_total symptom_id_mapping
       reverse_total reverse_mapping].
  exists data. split_and!; try done.
  - by rewrite Hds, length_map.
  - unfold PyDict.keys. by rewrite length_map.
  - rewrite Hids. apply assign_ids_NoDup, NoDup_nil_2.
  - intros name. rewrite Hids.
    pose proof (dict_get_None_keys (assign_ids (PyDict.keys
      (symptom_counter (analyze_symptoms isalnum diseases_data))) []) name) as Hk.
    rewrite fresh_ids_get in Hk.
    destruct (decide (name ∈ named_names isalnum diseases_data)) as [Hin|Hin].
    + rewrite (bool_decide_true _ Hin) in Hk. split; [done|]. intros _.
      destruct (decide (name ∈ PyDict.keys (assign_ids (PyDict.keys
        (symptom_counter (analyze_symptoms isalnum diseases_data))) []))) as [|Hn];
        [done|]. by apply Hk in Hn.
    + rewrite (bool_decide_false _ Hin) in Hk. split; [|done]. intros Hkeys.
      exfalso. by apply Hk.
Qed.

End NormalizerBuild.

(** X16, witness: a name of two punctuation marks and a blank. *)
Lemma normalize_blank_witness :
  Normalizer._normalize_symptom_name Normalizer.ascii_isalnum (u "？！ ") = u "头痛".
Proof.
  apply (normalize_blank Normalizer.ascii_isalnum (u "？！ ")).
  vm_compute. reflexivity.
Defined.

(** ** Merging the batch files *)

Section Merging.
Import MergeBatches.

Lemma read_batches_fold batch_files acc :
  fold_left (fun all_diseases batch_file =>
      match KB.json_load batch_file with
      | inr data => all_diseases ++ KB.get (KB.disease_ku data) []
      | inl e => all_diseases
      end)
    batch_files acc
  = acc ++ flat_map (fun batch_file =>
             match KB.json_load batch_file with
             | inr data => KB.get (KB.disease_ku data) []
             | inl e => []
             end) batch_files.
Proof.
  revert acc. induction batch_files as [|f batch_files IH]; intros acc; cbn [fold_left flat_map].
  - by rewrite app_nil_r.
  - rewrite IH. destruct (KB.json_load f); [done | by rewrite app_assoc].
Qed.

Lemma read_batches_readable batch_files :
  read_batches (List.filter readable batch_files) = read_batches batch_files.
Proof.
  unfold read_batches. rewrite !read_batches_fold. cbn [app].
  induction batch_files as [|f batch_files IH]; [done|].
  cbn [List.filter flat_map]. destruct f; cbn [readable KB.json_load flat_map app];
    [done | done | by rewrite IH].
Qed.

Lemma unique_diseases_spec seen_ids all_diseases :
  let unique := unique_diseases seen_ids all_diseases in
  unique `sublist_of` all_diseases
  ∧ NoDup (KB.disease_ID <$> unique)
  ∧ (∀ d, d ∈ unique →
          ∃ id, KB.disease_ID d = Some id ∧ id ≠ [] ∧ id ∉ seen_ids)
  ∧ (∀ id, id ≠ [] →
       List.find (has_disease_id id) unique
       = if bool_decide (id ∈ seen_ids) then None
         else List.find (has_disease_id id) all_diseases).
Proof.
  revert seen_ids. induction all_diseases as [|d all_diseases IH]; intros seen_ids;
    cbn [unique_diseases].
  - split_and!; [done | apply NoDup_nil_2 | by intros ? ?%elem_of_nil |].
    intros id _. by case_bool_decide.
  - destruct (KB.disease_ID d) as [did|] eqn:Ed.
    + destruct (decide (did = [])) as [Hempty|Hne].
      * rewrite (bool_decide_true _ Hempty). cbn [negb andb].
        destruct (IH seen_ids) as (Hsub & Hnd & Hall & Hfind).
        split_and!; [by apply sublist_cons | done | done |].
        intros id Hid. rewrite Hfind by done. cbn [List.find].
        unfold has_disease_id at 2. rewrite Ed.
        rewrite (bool_decide_false (Some did = Some id)) by congruence. done.
      * rewrite (bool_decide_false _ Hne). cbn [negb andb].
        destruct (decide (did ∈ seen_ids)) as [Hseen|Hnew].
        -- rewrite (bool_decide_true _ Hseen). cbn [negb].
           destruct (IH seen_ids) as (Hsub & Hnd & Hall & Hfind).
           split_and!; [by apply sublist_cons | done | done |].
           intros id Hid. rewrite Hfind by done. cbn [List.find].
           unfold has_disease_id at 2. rewrite Ed.
           destruct (decide (id = did)) as [->|Hd].
           ++ by rewrite (bool_decide_true _ Hseen).
           ++ rewrite (bool_decide_false (Some did = Some id)) by congruence. done.
        -- rewrite (bool_decide_false _ Hnew). cbn [negb].
           destruct (IH ({[did]} ∪ seen_ids)) as (Hsub & Hnd & Hall & Hfind).
           split_and!.
           ++ by apply sublist_skip.
           ++ cbn [fmap list_fmap]. apply NoDup_cons. split; [|done].
              rewrite Ed. intros (d' & Hd' & Hin)%list_elem_of_fmap.
              apply Hall in Hin as (id & Hid & _ & Hnot).
              apply Hnot. apply elem_of_union. left. apply elem_of_singleton. congruence.
           ++ intros d' [->|Hin]%elem_of_cons; [by exists did|].
              apply Hall in Hin as (id & Hid & Hne' & Hnot). exists id.
              split_and!; [done | done|]. intros Hs. apply Hnot.
              apply elem_of_union. by right.
           ++ intros id Hid. cbn [List.find]. unfold has_disease_id at 1 3. rewrite Ed.
              destruct (decide (id = did)) as [->|Hd].
              ** rewrite (bool_decide_true (Some did = Some did)) by done.
                 by rewrite (bool_decide_false _ Hnew).
              ** rewrite (bool_decide_false (Some did = Some id)) by congruence.
                 rewrite Hfind by done.
                 apply (f_equal (fun b : bool => if b then None else _)).
                 apply bool_decide_ext. rewrite elem_of_union, elem_of_singleton.
                 split; [by intros [?|?] | by right].
    + destruct (IH seen_ids) as (Hsub & Hnd & Hall & Hfind).
      split_and!; [by apply sublist_cons | done | done |].
      intros id Hid. rewrite Hfind by done. cbn [List.find].
      unfold has_disease_id at 2. rewrite Ed.
      rewrite (bool_decide_false (None = Some id)) by done. done.
Qed.

(** X23: [merge_batch_files] writes nothing when no disease was read. What it
    writes otherwise are records that were read, in the order they were
    read, with pairwise distinct and non-empty "疾病ID": for every
    non-empty id, the first record read with that id, and only that one. *)
Theorem merge_batch_files_unique (batch_files : list KB.file) :
  match merge_batch_files batch_files with
  | None => read_batches batch_files = []
  | Some merged =>
    ∃ unique,
      KB.disease_ku merged = Some unique
      ∧ read_batches batch_files ≠ []
      ∧ unique `sublist_of` read_batches batch_files
      ∧ NoDup (KB.disease_ID <$> unique)
      ∧ (∀ d, d ∈ unique → ∃ id, KB.disease_ID d = Some id ∧ id ≠ [])
      ∧ (∀ id, id ≠ [] →
           List.find (has_disease_id id) unique
           = List.find (has_disease_id id) (read_batches batch_files))
  end.
Proof.
  unfold merge_batch_files. destruct batch_files as [|f batch_files]; [done|].
  destruct (read_batches (f :: batch_files)) as [|d all_diseases] eqn:E; [done|].
  destruct (unique_diseases_spec ∅ (d :: all_diseases)) as (Hsub & Hnd & Hall & Hfind).
  eexists. split_and!; [done | done | exact Hsub | exact Hnd | |].
  - intros d' (id & Hid & Hne & _)%Hall. by exists id.
  - intros id Hid. rewrite Hfind by done. by rewrite bool_decide_false.
Qed.

(** X24: Batch files that cannot be read or parsed change nothing: the merge
    is the merge of the readable files. *)
Theorem merge_skips_unreadable (batch_files : list KB.file) :
  merge_batch_files (List.filter readable batch_files) = merge_batch_files batch_files.
Proof.
  unfold merge_batch_files. rewrite read_batches_readable.
  destruct batch_files as [|f batch_files]; [done|].
  destruct (List.filter readable (f :: batch_files)) as [|f' l] eqn:E; [|done].
  assert (Hr : read_batches (f :: batch_files) = []).
  { rewrite <- read_batches_readable, E. done. }
  by rewrite Hr.
Qed.

Lemma unique_diseases_idempotent seen_ids all_diseases :
  unique_diseases seen_ids (unique_diseases seen_ids all_diseases)
  = unique_diseases seen_ids all_diseases.
Proof.
  revert seen_ids. induction all_diseases as [|d all_diseases IH]; intros seen_ids;
    cbn [unique_diseases]; [done|].
  destruct (KB.disease_ID d) as [did|] eqn:Ed; [|apply IH].
  destruct (negb (bool_decide (did = [])) && negb (bool_decide (did ∈ seen_ids))) eqn:Eb;
    [|apply IH].
  cbn [unique_diseases]. by rewrite Ed, Eb, IH.
Qed.

(** X25: Merging the merged file alone writes the same file again, unless it
    holds no disease (the records read had no "疾病ID"): then nothing is
    written. *)
Theorem merge_again (batch_files : list KB.file) :
  match merge_batch_files batch_files with
  | None => True
  | Some merged =>
    merge_batch_files [KB.Json merged]
    = match KB.disease_ku merged with
      | Some (_ :: _) => Some merged
      | _ => None
      end
  end.
Proof.
  unfold merge_batch_files at 1. destruct batch_files as [|f batch_files]; [done|].
  destruct (read_batches (f :: batch_files)) as [|d all_diseases]; [done|].
  unfold merge_batch_files, read_batches.
  cbn [fold_left KB.json_load KB.get KB.disease_ku default from_option id app].
  destruct (unique_diseases ∅ (d :: all_diseases)) as [|d' unique] eqn:E; [done|].
  by rewrite <- E, unique_diseases_idempotent.
Qed.

End Merging.

(** ** From the batch files to the normalised database *)

Section Pipeline.
Variable isalnum : N -> bool.

(** X26: When [merge_batch_files] writes a file and the normaliser's [main]
    writes a database from it, that database has the diseases of the merged
    file, in order: their "疾病ID" are non-empty and pairwise distinct.
    Nothing is said of the runs in which either script writes nothing. *)
Theorem merged_then_normalized (batch_files : list KB.file) :
  match MergeBatches.merge_batch_files batch_files with
  | None => True
  | Some merged =>
    match Normalizer.main isalnum (KB.Json merged) with
    | None => True
    | Some written =>
      KB.disease_ID <$> Normalizer.normalized_diseases written
      = KB.disease_ID <$> KB.get (KB.disease_ku merged) []
      ∧ NoDup (KB.disease_ID <$> Normalizer.normalized_diseases written)
      ∧ Forall (fun d => ∃ id, KB.disease_ID d = Some id ∧ id ≠ [])
               (Normalizer.normalized_diseases written)
    end
  end.
Proof.
  unfold MergeBatches.merge_batch_files. destruct batch_files as [|f batch_files]; [done|].
  destruct (MergeBatches.read_batches (f :: batch_files)) as [|d all_diseases]; [done|].
  destruct (unique_diseases_spec ∅ (d :: all_diseases)) as (_ & Hnd & Hall & _).
  set (unique := MergeBatches.unique_diseases ∅ (d :: all_diseases)) in *.
  unfold Normalizer.main.
  cbn [KB.json_load KB.get KB.disease_ku default from_option id].
  pose proof (normalize_disease_data_exact isalnum unique) as (_ & _ & Hds & _).
  destruct (Normalizer.normalize_disease_data isalnum Normalizer.__init__ unique)
    as [[ds ids] nz].
  cbn [fst snd] in Hds. cbn [Normalizer.normalized_diseases].
  assert (Hids : KB.disease_ID <$> ds = KB.disease_ID <$> unique).
  { rewrite Hds. rewrite <- list_fmap_compose. done. }
  split_and!; [done | by rewrite Hids |].
  apply Forall_forall. intros d' Hd'.
  assert (Hin : KB.disease_ID d' ∈ KB.disease_ID <$> unique).
  { rewrite <- Hids. apply list_elem_of_fmap. by exists d'. }
  apply list_elem_of_fmap in Hin as (d0 & Heq & Hd0).
  apply Hall in Hd0 as (id & Hid & Hne & _). exists id. by rewrite Heq.
Qed.

End Pipeline.

(** X26, witness: three batch files, the second unreadable and the third
    repeating the id "D001": both scripts write, and the normalised
    database has the two diseases of the merged file. *)
Lemma merged_then_normalized_witness :
  let batch_files :=
    [KB.Json Normalizer.example_raw_database; KB.Unparseable;
     KB.Json (KB.mkDatabase (Some
       [KB.mkDisease (Some (u "D001")) (Some (u "头痛"))
          (Some [Normalizer.example_raw_symptom (u "头痛") true])]))] in
  (MergeBatches.merge_batch_files batch_files ≫= fun merged =>
   Normalizer.main Normalizer.ascii_isalnum (KB.Json merged) ≫= fun written =>
   Some (KB.disease_ID <$> KB.get (KB.disease_ku merged) [],
         KB.disease_ID <$> Normalizer.normalized_diseases written))
  = Some ([Some (u "D001"); Some (u "D002")], [Some (u "D001"); Some (u "D002")])
  ∧ match MergeBatches.merge_batch_files batch_files with
    | None => True
    | Some merged =>
      match Normalizer.main Normalizer.ascii_isalnum (KB.Json merged) with
      | None => True
      | Some written =>
        KB.disease_ID <$> Normalizer.normalized_diseases written
        = KB.disease_ID <$> KB.get (KB.disease_ku merged) []
        ∧ NoDup (KB.disease_ID <$> Normalizer.normalized_diseases written)
        ∧ Forall (fun d => ∃ id, KB.disease_ID d = Some id ∧ id ≠ [])
                 (Normalizer.normalized_diseases written)
      end
    end.
Proof.
  intros batch_files. split.
  - vm_compute. reflexivity.
  - apply (merged_then_normalized Normalizer.ascii_isalnum batch_files).
Defined.

(** ** The report on the pain symptoms *)

Section PainReport.
Import ComparisonAnalysis.

Lemma analyze_pain_symptoms_fold symptom_mapping pain_symptoms :
  NoDup (PyDict.keys (pain_symptoms ++ symptom_mapping)) →
  fold_left (fun pain_symptoms '(symptom_name, symptom_id) =>
      if str_in (u "痛") symptom_name || str_in (u "疼") symptom_name
      then PyDict.set symptom_name symptom_id pain_symptoms
      else pain_symptoms)
    symptom_mapping pain_symptoms
  = pain_symptoms ++ List.filter (fun item : str * str => is_pain item.1) symptom_mapping.
Proof.
  revert pain_symptoms.
  induction symptom_mapping as [|[name sid] symptom_mapping IH]; intros pain_symptoms Hnd.
  - simpl. by rewrite app_nil_r.
  - cbn [fold_left List.filter fst]. fold (is_pain name).
    assert (Hnew : PyDict.get name pain_symptoms = None).
    { apply dict_get_None_keys. unfold PyDict.keys in *. rewrite map_app in Hnd.
      apply NoDup_app in Hnd as (_ & Hdisj & _). intros Hin.
      apply (Hdisj name Hin). by left. }
    assert (Hset : ∀ v, PyDict.set name v pain_symptoms = pain_symptoms ++ [(name, v)]).
    { clear -Hnew. intros v. induction pain_symptoms as [|[k w] l IHl]; [done|].
      cbn [PyDict.get PyDict.set] in *. destruct (decide (k = name)); [done|].
      by rewrite IHl. }
    destruct (is_pain name).
    + rewrite Hset, IH; [by rewrite <- app_assoc|]. by rewrite <- app_assoc.
    + apply IH. unfold PyDict.keys in *. rewrite map_app in *. cbn [List.map fst] in Hnd.
      apply NoDup_app in Hnd as (H1 & H2 & H3). apply NoDup_cons in H3 as [_ H3].
      apply NoDup_app. split_and!; [done | | done].
      intros x Hx Hin. apply (H2 x Hx). by right.
Qed.

Lemma append_category category symptom_name categories :
  category ∈ PyDict.keys categories →
  PyDict.keys (append category symptom_name categories) = PyDict.keys categories
  ∧ flat_map snd (append category symptom_name categories)
    ≡ₚ symptom_name :: flat_map snd categories.
Proof.
  unfold append. induction categories as [|[k l] categories IH]; [by intros ?%elem_of_nil|].
  cbn [PyDict.keys List.map fst PyDict.get PyDict.set]. intros Hin.
  destruct (decide (k = category)) as [->|Hk].
  - cbn [default from_option id PyDict.keys List.map fst flat_map snd]. split; [done|].
    rewrite <- app_assoc. cbn [app].
    by rewrite <- Permutation_middle.
  - apply elem_of_cons in Hin as [->|Hin]; [done|].
    destruct (IH Hin) as [IH1 IH2]. unfold PyDict.keys in IH1.
    cbn [PyDict.keys List.map fst flat_map snd]. split; [by rewrite IH1|].
    rewrite IH2. by rewrite Permutation_middle.
Qed.

Lemma categorize_one_append symptom_name :
  ∃ category,
    category ∈ PyDict.keys empty_categories
    ∧ ∀ categories,
        categorize_one categories symptom_name = append category symptom_name categories.
Proof.
  unfold categorize_one.
  repeat match goal with
         | |- context [if any_in ?kw symptom_name then _ else _] =>
           destruct (any_in kw symptom_name)
         | |- context [if str_in ?kw symptom_name then _ else _] =>
           destruct (str_in kw symptom_name)
         end;
    cbn [negb]; (eexists; split; [|intros categories; reflexivity]);
    apply list_elem_of_In; vm_compute; repeat first [left; reflexivity | right].
Qed.

Lemma categorize_fold names categories :
  PyDict.keys categories = PyDict.keys empty_categories →
  let result := fold_left categorize_one names categories in
  PyDict.keys result = PyDict.keys empty_categories
  ∧ flat_map snd result ≡ₚ flat_map snd categories ++ names.
Proof.
  revert categories. induction names as [|name names IH]; intros categories Hkeys;
    cbn [fold_left].
  - split; [done | by rewrite app_nil_r].
  - destruct (categorize_one_append name) as (category & Hcat & ->).
    rewrite <- Hkeys in Hcat.
    destruct (append_category category name categories Hcat) as [Hk Hp].
    destruct (IH (append category name categories)) as [IH1 IH2]; [by rewrite Hk|].
    split; [done|]. rewrite IH2, Hp. cbn [app]. apply Permutation_middle.
Qed.

(** X27: The categories of [categorize_pain_symptoms] are the eleven of its
    table, and together they hold every name once: a name is appended to
    one list only. On an id table, whose keys are distinct, the names they
    hold are those of the table that contain "痛" or "疼". *)
Theorem pain_categories_partition (symptom_mapping : list (str * str)) :
  NoDup (PyDict.keys symptom_mapping) →
  let pain_symptoms := analyze_pain_symptoms symptom_mapping in
  let pain_categories := categorize_pain_symptoms pain_symptoms in
  pain_symptoms = List.filter (fun item : str * str => is_pain item.1) symptom_mapping
  ∧ PyDict.keys pain_categories = PyDict.keys empty_categories
  ∧ flat_map snd pain_categories ≡ₚ List.filter is_pain (PyDict.keys symptom_mapping).
Proof.
  intros Hnd pain_symptoms pain_categories. subst pain_categories pain_symptoms.
  assert (Hpain : analyze_pain_symptoms symptom_mapping
                  = List.filter (fun item : str * str => is_pain item.1) symptom_mapping).
  { unfold analyze_pain_symptoms. by rewrite analyze_pain_symptoms_fold. }
  rewrite Hpain. unfold categorize_pain_symptoms.
  destruct (categorize_fold (PyDict.keys (List.filter (fun item : str * str => is_pain item.1)
              symptom_mapping)) empty_categories) as [Hk Hp]; [done|].
  split_and!; [done | done|]. rewrite Hp.
  assert (Hempty : flat_map snd empty_categories = []) by (vm_compute; reflexivity).
  rewrite Hempty. cbn [app]. clear.
  induction symptom_mapping as [|[name sid] symptom_mapping IH]; [done|].
  cbn [List.filter PyDict.keys List.map fst] in *.
  destruct (is_pain name); cbn [PyDict.keys List.map fst]; by rewrite IH.
Qed.

Lemma total_categorized_fold (pain_categories : list (str * list str)) (total : nat) :
  fold_left (fun total '(category, symptoms) =>
      match symptoms with
      | [] => total
      | _ :: _ => total + length symptoms
      end)
    pain_categories total
  = total + length (flat_map snd pain_categories).
Proof.
  revert total. induction pain_categories as [|[c l] pain_categories IH]; intros total;
    cbn [fold_left flat_map snd]; [simpl; lia|].
  rewrite IH, length_app. destruct l; simpl; lia.
Qed.

(** X28: The coverage that [main] prints is 100 whatever the table: the
    categories hold all the pain symptoms. With no pain symptom the
    division raises [ZeroDivisionError]. *)
Theorem coverage_is_total (improved_pain : list (str * str)) :
  match coverage improved_pain with
  | inl e => improved_pain = []
  | inr percentage => improved_pain ≠ [] ∧ (percentage == 100)%Q
  end.
Proof.
  unfold coverage. cbv zeta.
  assert (Htotal : total_categorized (categorize_pain_symptoms improved_pain)
                   = length improved_pain).
  { unfold total_categorized. rewrite total_categorized_fold.
    unfold categorize_pain_symptoms.
    destruct (categorize_fold (PyDict.keys improved_pain) empty_categories) as [_ Hp];
      [done|].
    rewrite Hp. assert (Hempty : flat_map snd empty_categories = [])
      by (vm_compute; reflexivity).
    rewrite Hempty. unfold PyDict.keys. cbn [app]. by rewrite length_map. }
  rewrite Htotal. destruct improved_pain as [|item improved_pain]; [done|].
  cbn [length]. split; [done|].
  set (n := Z.of_nat (S (length improved_pain))).
  assert (Hn : ¬ (n # 1 == 0)%Q).
  { unfold Qeq. cbn [Qnum Qden]. subst n. lia. }
  unfold Qdiv. rewrite (Qmult_inv_r _ Hn). reflexivity.
Qed.

End PainReport.

(** X27, witness: the id table of the names "头痛", "发热" and "肚子疼". *)
Lemma pain_categories_partition_witness :
  let symptom_mapping :=
    [(u "头痛", u "SYM_4A41D991"); (u "发热", u "SYM_0"); (u "肚子疼", u "SYM_1")] in
  let pain_symptoms := ComparisonAnalysis.analyze_pain_symptoms symptom_mapping in
  let pain_categories := ComparisonAnalysis.categorize_pain_symptoms pain_symptoms in
  pain_symptoms = List.filter (fun item : str * str => is_pain item.1) symptom_mapping
  ∧ PyDict.keys pain_categories = PyDict.keys ComparisonAnalysis.empty_categories
  ∧ flat_map snd pain_categories ≡ₚ List.filter is_pain (PyDict.keys symptom_mapping).
Proof.
  apply (pain_categories_partition
           [(u "头痛", u "SYM_4A41D991"); (u "发热", u "SYM_0"); (u "肚子疼", u "SYM_1")]).
  apply (bool_decide_eq_true_1 _). vm_compute. reflexivity.
Defined.

(** ** The queries on the normalised files *)

Section Queries.
Import Query.

Lemma symptom_diseases_error self symptom_names e :
  fold_left (fun acc symptom_name =>
      match acc with
      | inl e => inl e
      | inr sets =>
        match query_diseases_by_symptom_name self symptom_name with
        | inl e => inl e
        | inr [] => inr sets
        | inr diseases => inr (sets ++ [disease_ids diseases])
        end
      end)
    symptom_names (inl e)
  = inl e.
Proof. induction symptom_names as [|n symptom_names IH]; [done | apply IH]. Qed.

Lemma symptom_diseases_fold self symptom_names sets :
  fold_left (fun acc symptom_name =>
      match acc with
      | inl e => inl e
      | inr sets =>
        match query_diseases_by_symptom_name self symptom_name with
        | inl e => inl e
        | inr [] => inr sets
        | inr diseases => inr (sets ++ [disease_ids diseases])
        end
      end)
    symptom_names (inr sets)
  = if forallb (fun n => match query_diseases_by_symptom_name self n with
                         | inl _ => false
                         | inr _ => true
                         end) symptom_names
    then inr (sets ++ flat_map (disease_ids_of self) symptom_names)
    else inl TypeError.
Proof.
  revert sets. induction symptom_names as [|n symptom_names IH]; intros sets;
    cbn [fold_left forallb flat_map].
  - by rewrite app_nil_r.
  - unfold disease_ids_of at 1.
    destruct (query_diseases_by_symptom_name self n) as [[]|[|item items]]; cbn [andb].
    + apply symptom_diseases_error.
    + by rewrite IH.
    + rewrite IH. by rewrite <- app_assoc.
Qed.

Lemma symptom_diseases_unmatched self symptom_names :
  symptom_diseases self (List.filter (fun n => negb (unmatched self n)) symptom_names)
  = symptom_diseases self symptom_names.
Proof.
  unfold symptom_diseases. generalize (@inr exn (list (gset (option str))) []).
  induction symptom_names as [|n symptom_names IH]; intros acc; [done|].
  cbn [List.filter fold_left]. unfold unmatched at 1.
  destruct (query_diseases_by_symptom_name self n) as [e|[|item items]] eqn:E;
    cbn [negb fold_left]; rewrite ?E; [apply IH | | apply IH].
  rewrite IH. by destruct acc.
Qed.

(** X29: A name that matches no item of the reverse table does not empty the
    result of [find_common_diseases]: it is skipped, and the result is that
    for the other names. *)
Theorem find_common_skips_unmatched (self : t) (symptom_names : list str) :
  find_common_diseases self (List.filter (fun n => negb (unmatched self n)) symptom_names)
  = find_common_diseases self symptom_names.
Proof.
  unfold find_common_diseases.
  pose proof (symptom_diseases_unmatched self symptom_names) as Hsame.
  destruct symptom_names as [|n symptom_names]; [done|].
  destruct (List.filter _ (n :: symptom_names)) as [|n' l] eqn:E.
  - rewrite <- Hsame. done.
  - by rewrite <- Hsame.
Qed.

Lemma elem_of_intersections (x : option str) (others : list (gset (option str))) first :
  x ∈ fold_left (fun a b => a ∩ b) others first ↔ x ∈ first ∧ ∀ s, s ∈ others → x ∈ s.
Proof.
  revert first. induction others as [|s others IH]; intros first; cbn [fold_left].
  - split; [intros ?; split; [done | by intros ? ?%elem_of_nil] | by intros [? _]].
  - rewrite IH, elem_of_intersection. split.
    + intros [[H1 H2] H3]. split; [done|]. intros s' [->|Hs']%elem_of_cons; [done | by apply H3].
    + intros [H1 H2]. split_and!; [done | apply H2; by left |].
      intros s' Hs'. apply H2. by right.
Qed.

Lemma list_filter_sublist {A} (f : A → bool) (l : list A) : List.filter f l `sublist_of` l.
Proof.
  induction l as [|a l IH]; cbn [List.filter]; [done|].
  destruct (f a); [by apply sublist_skip | by apply sublist_cons].
Qed.

(** X30: When [find_common_diseases] returns, the diseases it returns are those
    of the database, in its order, whose "疾病ID" is listed under every name
    that has a matching item; it returns none when no name has one. *)
Theorem find_common_diseases_common (self : t) (symptom_names : list str)
    (common_diseases : list KB.Disease) :
  find_common_diseases self symptom_names = inr common_diseases →
  common_diseases `sublist_of` diseases_db self
  ∧ ∀ d, d ∈ common_diseases ↔
         d ∈ diseases_db self
         ∧ (∃ n, n ∈ symptom_names ∧ unmatched self n = false)
         ∧ ∀ n items,
             n ∈ symptom_names →
             query_diseases_by_symptom_name self n = inr items → items ≠ [] →
             KB.disease_ID d ∈ disease_ids items.
Proof.
  unfold find_common_diseases. destruct symptom_names as [|n0 names0]; [|].
  { intros [= <-]. split; [apply sublist_nil_l|]. intros d. split; [by intros ?%elem_of_nil|].
    by intros (_ & (n & ?%elem_of_nil & _) & _). }
  set (symptom_names := n0 :: names0). clearbody symptom_names.
  unfold symptom_diseases. rewrite symptom_diseases_fold. cbn [app].
  destruct (forallb _ symptom_names) eqn:Hall; [|done].
  assert (Hok : ∀ n, n ∈ symptom_names → ∃ items,
            query_diseases_by_symptom_name self n = inr items).
  { intros n Hn%list_elem_of_In. rewrite forallb_forall in Hall. specialize (Hall n Hn).
    destruct (query_diseases_by_symptom_name self n) as [|items]; [done | by exists items]. }
  assert (Hsets : ∀ s, s ∈ flat_map (disease_ids_of self) symptom_names ↔
            ∃ n items, n ∈ symptom_names
                       ∧ query_diseases_by_symptom_name self n = inr items
                       ∧ items ≠ [] ∧ s = disease_ids items).
  { intros s. rewrite list_elem_of_In, in_flat_map. split.
    - intros (n & Hn & Hs). unfold disease_ids_of in Hs.
      destruct (query_diseases_by_symptom_name self n) as [|[|item items]] eqn:E;
        [done | done |]. destruct Hs as [<-|[]].
      exists n, (item :: items). split_and!; [by apply list_elem_of_In | done | done | done].
    - intros (n & items & Hn & Hq & Hne & ->). exists n.
      split; [by apply list_elem_of_In|]. unfold disease_ids_of. rewrite Hq.
      destruct items; [done | by left]. }
  destruct (flat_map (disease_ids_of self) symptom_names) as [|first others] eqn:Esets.
  - intros [= <-]. split; [apply sublist_nil_l|].
    intros d. split; [by intros ?%elem_of_nil|].
    intros (_ & (n & Hn & Hun) & _). exfalso.
    destruct (Hok n Hn) as [items Hq]. unfold unmatched in Hun. rewrite Hq in Hun.
    destruct items as [|item items]; [done|].
    assert (Hin : disease_ids (item :: items) ∈ @nil (gset (option str))).
    { apply Hsets. by exists n, (item :: items). }
    by apply elem_of_nil in Hin.
  - intros [= <-]. split; [apply list_filter_sublist|].
    intros d. rewrite list_elem_of_In, filter_In, <- list_elem_of_In, bool_decide_eq_true.
    rewrite elem_of_intersections. split.
    + intros (Hd & Hfirst & Hothers). split_and!; [done | |].
      * assert (Hf : first ∈ first :: others) by by left.
        apply Hsets in Hf as (n & items & Hn & Hq & Hne & _). exists n.
        split; [done|]. unfold unmatched. rewrite Hq. by destruct items.
      * intros n items Hn Hq Hne.
        assert (Hs : disease_ids items ∈ first :: others)
          by (apply Hsets; by exists n, items).
        apply elem_of_cons in Hs as [->|Hs]; [done | by apply Hothers].
    + intros (Hd & _ & Hevery). split; [done|].
      assert (Hs : ∀ s, s ∈ first :: others → KB.disease_ID d ∈ s).
      { intros s (n & items & Hn & Hq & Hne & ->)%Hsets. by eapply Hevery. }
      split; [apply Hs; by left | intros s Hin; apply Hs; by right].
Qed.

End Queries.

(** X30, witness: a table of two items over the example knowledge base, queried
    for "头痛", "失眠" and a name that matches nothing. *)
Lemma find_common_diseases_common_witness :
  let info1 := Normalizer.mkDiseaseInfo (Some (u "D001")) (Some (u "偏头痛")) false in
  let info2 := Normalizer.mkDiseaseInfo (Some (u "D002")) (Some (u "感冒")) false in
  let self := Query.mk (KB.get (KB.disease_ku Agent.example_database) [])
                [(u "SYM_4A41D991", Normalizer.mkReverseEntry (Some (u "头痛")) 2 [info1; info2]);
                 (u "SYM_0", Normalizer.mkReverseEntry (Some (u "失眠")) 1 [info1])] in
  let symptom_names := [u "头痛"; u "乏力"; u "失眠"] in
  let common_diseases :=
    [KB.mkDisease (Some (u "D001")) (Some (u "偏头痛"))
       (Some [Agent.example_symptom (u "头痛"); Agent.example_symptom (u "失眠")])] in
  common_diseases `sublist_of` Query.diseases_db self
  ∧ ∀ d, d ∈ common_diseases ↔
         d ∈ Query.diseases_db self
         ∧ (∃ n, n ∈ symptom_names ∧ unmatched self n = false)
         ∧ ∀ n items,
             n ∈ symptom_names →
             Query.query_diseases_by_symptom_name self n = inr items → items ≠ [] →
             KB.disease_ID d ∈ Query.disease_ids items.
Proof.
  intros info1 info2 self symptom_names common_diseases.
  apply (find_common_diseases_common self symptom_names common_diseases).
  vm_compute. reflexivity.
Defined.

(** ** The agent: a confirming answer *)

Section Progress.
Import Agent.

Lemma hits_app self l l' did : hits self (l ++ l') did = hits self l did + hits self l' did.
Proof. unfold hits. by rewrite flat_map_app, length_app. Qed.

Lemma hits_elem self l did x : x ∈ l → hits_of self did x ≠ [] → 0 < hits self l did.
Proof.
  intros Hx Hne. destruct (hits self l did) eqn:E; [|lia].
  exfalso. apply Hne. by apply (proj1 (hits_zero self l did) E).
Qed.

Lemma percentage_strict n n' total :
  0 < total → n < n' →
  (DiseaseMatcher.percentage n total < DiseaseMatcher.percentage n' total)%Q.
Proof.
  intros Ht Hn. unfold DiseaseMatcher.percentage.
  destruct (Nat.ltb_spec 0 total) as [_|?]; [|lia].
  unfold Qlt, Qmult. cbn [Qnum Qden]. nia.
Qed.

Lemma candidate_entry self confirmed focus :
  focus ∈ DiseaseMatcher.find_potential_diseases self confirmed →
  let did := DiseaseMatchProgress.disease_id focus in
  let all_symptoms := DiseaseMatcher.get_disease_symptoms self did in
  hits self confirmed did ≠ 0
  ∧ DiseaseMatchProgress.match_percentage focus
    = DiseaseMatcher.percentage (hits self confirmed did) (length all_symptoms)
  ∧ ∀ s, s ∈ DiseaseMatchProgress.missing_symptoms focus → s ∈ all_symptoms.
Proof.
  intros Hin did all_symptoms.
  assert (Hnd : NoDup (DiseaseMatchProgress.disease_id
                         <$> DiseaseMatcher.find_potential_diseases self confirmed)).
  { unfold DiseaseMatcher.find_potential_diseases.
    rewrite sort_desc_perm, progress_ids. apply count_confirmed_NoDup. }
  pose proof (find_has_id_unique did _ focus Hnd Hin eq_refl) as Hfind.
  rewrite find_potential_diseases_entry in Hfind.
  pose proof (count_confirmed_hits self confirmed did) as Hcount.
  unfold confirmed_count in Hcount.
  destruct (PyDict.get did (DiseaseMatcher.count_confirmed self confirmed)) as [e|];
    [|done].
  cbn [fmap option_fmap option_map] in Hfind, Hcount. injection Hfind as Hfocus.
  assert (Hpct : DiseaseMatchProgress.match_percentage focus
                 = DiseaseMatchProgress.match_percentage (progress_entry self did e))
    by (by rewrite Hfocus).
  assert (Hmiss : DiseaseMatchProgress.missing_symptoms focus
                  = DiseaseMatchProgress.missing_symptoms (progress_entry self did e))
    by (by rewrite Hfocus).
  rewrite Hpct, Hmiss. clear Hpct Hmiss Hfocus.
  destruct (decide (hits self confirmed did = 0)) as [Hz|Hnz].
  - by rewrite (bool_decide_true _ Hz) in Hcount.
  - rewrite (bool_decide_false _ Hnz) in Hcount. injection Hcount as Hlen.
    unfold progress_entry, DiseaseMatcher.progress_of.
    cbn [DiseaseMatchProgress.match_percentage DiseaseMatchProgress.missing_symptoms
         DiseaseMatcher.score_confirmed_symptoms DiseaseMatcher.score_total_symptoms
         DiseaseMatcher.score_all_symptoms].
    split_and!; [done | by rewrite Hlen |].
    intros s Hs%list_elem_of_In. apply filter_In in Hs as [Hs _]. by apply list_elem_of_In.
Qed.

(** X13: An answer that names a missing symptom of the focus disease and holds
    one of the markers "是", "有", "确实" moves the dialogue on: the symptom is
    confirmed in the profile the turn leaves, and on that profile the focus
    disease is scored strictly higher than its match percentage before. The
    focus disease is one of the candidates scored on the profile, as a
    ["verification_needed"] response leaves it. *)
Theorem confirming_answer_raises_score (self : COTCAgent.t) (db : KB.Database)
    (p : PatientProfile.t) (focus : DiseaseMatchProgress.t)
    (missing_symptom user_response : str) :
  COTCAgent.disease_matcher self
    = DiseaseMatcher.mk db (DiseaseMatcher.build_symptom_mapping db) →
  COTCAgent.current_disease_focus self = Some focus →
  focus ∈ candidates self p →
  missing_symptom ∈ DiseaseMatchProgress.missing_symptoms focus →
  missing_symptom ≠ [] →
  str_in missing_symptom user_response = true →
  COTCAgent.affirms user_response = true →
  let out := turn self p (Answer user_response) in
  from_user_confirmation missing_symptom ∈ PatientProfile.confirmed_symptoms out.2
  ∧ ∃ q,
      score_of (COTCAgent.disease_matcher self) (PatientProfile.confirmed_symptoms out.2)
               (DiseaseMatchProgress.disease_id focus) = Some q
      ∧ (DiseaseMatchProgress.match_percentage focus < q)%Q.
Proof.
  intros Hm Hfocus Hcand Hmissing Hne Hin Haff out. subst out.
  rewrite turn_unfold. cbn [fst snd profile_after].
  rewrite confirmed_symptoms_extend.
  destruct (analyze_user_response_profile self user_response p) as [_ Hframe].
  apply frame_identity in Hframe as [_ ->].
  set (new := (COTCAgent.analyze_user_response self user_response p).1).
  assert (Hnew : from_user_confirmation missing_symptom ∈ new).
  { apply analyze_elem. exists focus. by split_and!. }
  split; [apply elem_of_app; by right|].
  set (did := DiseaseMatchProgress.disease_id focus).
  set (matcher := COTCAgent.disease_matcher self) in *.
  destruct (candidate_entry matcher _ focus Hcand) as (Hnz & Hpct & Hall).
  fold did in Hnz, Hpct, Hall.
  pose proof (Hall _ Hmissing) as Hs.
  assert (Hmapped : mapped (DiseaseMatcher.symptom_to_diseases matcher) missing_symptom did).
  { unfold DiseaseMatcher.get_disease_symptoms in Hs.
    destruct (List.find _ _) as [d0|] eqn:Efind; [|by apply elem_of_nil in Hs].
    apply list_elem_of_In, in_map_iff in Hs as (s & Hname & Hs).
    apply find_some in Efind as [Hd0 Hid]. apply bool_decide_eq_true in Hid.
    subst matcher. rewrite Hm in Hd0 |- *.
    cbn [DiseaseMatcher.disease_db DiseaseMatcher.symptom_to_diseases] in *.
    rewrite <- Hname.
    replace did with (KB.get (KB.disease_ID d0) []) by by rewrite Hid.
    apply build_symptom_mapping_complete;
      [by apply list_elem_of_In | by apply list_elem_of_In | by rewrite Hname]. }
  assert (Hhit : 0 < hits matcher new did).
  { apply (hits_elem _ _ _ (from_user_confirmation missing_symptom)); [done|].
    apply hits_of_mapped. by split. }
  rewrite score_of_hits, hits_app, bool_decide_false by lia.
  eexists. split; [done|]. rewrite Hpct.
  apply percentage_strict; [|lia].
  destruct (DiseaseMatcher.get_disease_symptoms matcher did);
    [by apply elem_of_nil in Hs | simpl; lia].
Qed.

End Progress.

(** X13, witness: on the example knowledge base, after the query "我头疼" the
    focus is "偏头痛" with "失眠" missing; the answer names it. *)
Lemma confirming_answer_raises_score_witness :
  let first := Agent.turn Agent.example_agent Agent.new_profile (Agent.Query (u "我头疼")) in
  let focus := Agent.DiseaseMatchProgress.mk (u "D001") (u "偏头痛") 2 1 (100 # 2)
                 [u "失眠"] [] [] in
  let out := Agent.turn first.1.2 first.2 (Agent.Answer (u "是的，我失眠")) in
  from_user_confirmation (u "失眠") ∈ Agent.PatientProfile.confirmed_symptoms out.2
  ∧ ∃ q,
      Agent.score_of (Agent.COTCAgent.disease_matcher first.1.2)
               (Agent.PatientProfile.confirmed_symptoms out.2)
               (Agent.DiseaseMatchProgress.disease_id focus) = Some q
      ∧ (Agent.DiseaseMatchProgress.match_percentage focus < q)%Q.
Proof.
  intros first focus.
  apply (confirming_answer_raises_score first.1.2 Agent.example_database first.2 focus
           (u "失眠") (u "是的，我失眠")).
  - vm_compute. reflexivity.
  - vm_compute. reflexivity.
  - apply list_elem_of_In. vm_compute. left. reflexivity.
  - apply list_elem_of_here.
  - vm_compute. discriminate.
  - vm_compute. reflexivity.
  - vm_compute. reflexivity.
Defined.

(** ** The scripts run on small inputs *)

(** Three batch files, the second unreadable: the record without "疾病ID"
    and the second record with the id "D001" are left out. *)
Example merge_example :
  let disease id name := KB.mkDisease id (Some name) (Some []) in
  MergeBatches.merge_batch_files
    [KB.Json (KB.mkDatabase (Some [disease (Some (u "D001")) (u "偏头痛");
                                   disease None (u "感冒");
                                   disease (Some (u "D002")) (u "胃炎")]));
     KB.Unparseable;
     KB.Json (KB.mkDatabase (Some [disease (Some (u "D001")) (u "头痛");
                                   disease (Some (u "D003")) (u "喉炎")]))]
  = Some (KB.mkDatabase (Some [disease (Some (u "D001")) (u "偏头痛");
                               disease (Some (u "D002")) (u "胃炎");
                               disease (Some (u "D003")) (u "喉炎")])).
Proof. vm_compute. reflexivity. Qed.

(** A batch whose only record has no "疾病ID": a file with an empty
    "疾病库" is written; with no batch file, or with none that can be read,
    nothing is written. *)
Example merge_edge_cases :
  MergeBatches.merge_batch_files
    [KB.Json (KB.mkDatabase (Some [KB.mkDisease None (Some (u "感冒")) None]))]
  = Some (KB.mkDatabase (Some []))
  ∧ MergeBatches.merge_batch_files [] = None
  ∧ MergeBatches.merge_batch_files [KB.Missing; KB.Unparseable] = None.
Proof. vm_compute. by split_and!. Qed.

(** The first keyword list that matches decides: "腰背痛" holds "背" and is
    filed under the chest, "膝关节痛" holds "膝" and is filed under the limbs,
    not under the joints. *)
Example categorize_example :
  let symptom_mapping :=
    [(u "头痛", u "SYM_4A41D991"); (u "发热", u "SYM_1"); (u "腰背痛", u "SYM_2");
     (u "膝关节痛", u "SYM_3"); (u "神经痛", u "SYM_4"); (u "肚子疼", u "SYM_5")] in
  let pain_symptoms := ComparisonAnalysis.analyze_pain_symptoms symptom_mapping in
  PyDict.keys pain_symptoms = [u "头痛"; u "腰背痛"; u "膝关节痛"; u "神经痛"; u "肚子疼"]
  ∧ ComparisonAnalysis.categorize_pain_symptoms pain_symptoms
    = [(u "头部疼痛", [u "头痛"]); (u "胸部疼痛", [u "腰背痛"]); (u "腹部疼痛", []);
       (u "腰部疼痛", []); (u "四肢疼痛", [u "膝关节痛"]); (u "关节疼痛", []);
       (u "肌肉疼痛", []); (u "泌尿疼痛", []); (u "五官疼痛", []); (u "疼痛性质", []);
       (u "其他疼痛", [u "神经痛"; u "肚子疼"])]
  ∧ ComparisonAnalysis.coverage pain_symptoms = inr ((5 # 1) / (5 # 1) * 100)%Q
  ∧ ComparisonAnalysis.coverage [] = inl ComparisonAnalysis.ZeroDivisionError.
Proof. vm_compute. by split_and!. Qed.

(** The statistics of [main] on [example_raw_database]: two diseases, and
    three normalised names ("头痛", "失眠", "咳嗽") with three ids. *)
Example main_example :
  (fun written =>
     (Normalizer.disease_total written, PyDict.keys (Normalizer.symptom_id_mapping written),
      Normalizer.reverse_total written))
  <$> Normalizer.main Normalizer.ascii_isalnum (KB.Json Normalizer.example_raw_database)
  = Some (2, [u "头痛"; u "失眠"; u "咳嗽"], 3).
Proof. vm_compute. reflexivity. Qed.

(** The queries on a table of two items over the two diseases of
    [example_database]: "头痛" is listed for both and "失眠" for the first;
    "乏力" matches nothing and is skipped; an item whose name is [None] makes
    the query by name raise. *)
Example find_common_example :
  let info1 := Normalizer.mkDiseaseInfo (Some (u "D001")) (Some (u "偏头痛")) false in
  let info2 := Normalizer.mkDiseaseInfo (Some (u "D002")) (Some (u "感冒")) false in
  let items :=
    [(u "SYM_4A41D991", Normalizer.mkReverseEntry (Some (u "头痛")) 2 [info1; info2]);
     (u "SYM_0", Normalizer.mkReverseEntry (Some (u "失眠")) 1 [info1])] in
  let diseases_db := KB.get (KB.disease_ku Agent.example_database) [] in
  let self := Query.mk diseases_db items in
  Query.find_common_diseases self [u "头痛"; u "乏力"; u "失眠"] = inr (firstn 1 diseases_db)
  ∧ Query.find_common_diseases self [u "头痛"] = inr diseases_db
  ∧ Query.find_common_diseases self [u "乏力"] = inr []
  ∧ Query.find_common_diseases
      (Query.mk diseases_db (items ++ [(u "SYM_1", Normalizer.mkReverseEntry None 0 [])]))
      [u "头痛"]
    = inl Query.TypeError.
Proof. vm_compute. by split_and!. Qed.
